(** * Pulse oximeter firmware (NodeMCU-Pulse-Oxymeter.ino): a shallow embedding

    The firmware is one translation unit of global variables, three HTTP
    handlers, a handful of display and sensor helpers and the cooperative
    [loop].  The embedding follows it function by function:

    - C [float] is IEEE-754 binary32, taken from the Standard Library's
      [SpecFloat] at precision 24 and maximal exponent 128;
    - C [int], [int32_t], [int8_t] and [unsigned long] are [Z], with the
      wrap-around written out where the firmware can reach it;
    - the globals are one record, [State];
    - the web server, the sensor, the clock and the two library functions
      (JSON parser, SpO2 estimator) are the environment. *)

From Stdlib Require Import ZArith QArith Qabs List String Ascii Bool Lia.
From Stdlib Require Import Floats.SpecFloat DecimalString.
From stdpp Require Import base list.
Import ListNotations.
Local Open Scope string_scope.
Local Open Scope Z_scope.

(** ** binary32 arithmetic *)

Module F32.

Definition prec : Z := 24.
Definition emax : Z := 128.

Definition float := spec_float.

(** Conversion of a C integer to [float] (round to nearest, ties to even). *)
Definition of_int (z : Z) : float := binary_normalize prec emax z 0 false.

Definition zero : float := S754_zero false.

Definition add : float -> float -> float := SFadd prec emax.
Definition div : float -> float -> float := SFdiv prec emax.

Definition eqb : float -> float -> bool := SFeqb.
Definition ltb : float -> float -> bool := SFltb.
Definition leb : float -> float -> bool := SFleb.
Definition gtb (x y : float) : bool := SFltb y x.
Definition geb (x y : float) : bool := SFleb y x.

(** The C cast [(int)x]: the value with its fractional part discarded.
    [Z.quot] truncates, and the sign is put back afterwards.  For NaN, the
    infinities and values beyond the range of [int] C leaves the cast
    undefined; the model returns 0 for the first two and the plain
    truncation for the last. *)
Definition to_int (x : float) : Z :=
  match x with
  | S754_finite s m e =>
      cond_Zopp s
        (match e with
         | Z0 => Zpos m
         | Zpos _ => Zpos m * 2 ^ e
         | Zneg p => Z.quot (Zpos m) (2 ^ Zpos p)
         end)
  | _ => 0
  end.

(** The integer nearest to a value (halves away from zero, as C's
    [lroundf]).  The firmware never calls it; it is what "rounded" means. *)
Definition nearest_int (x : float) : Z :=
  match x with
  | S754_finite s m e =>
      cond_Zopp s
        (match e with
         | Z0 => Zpos m
         | Zpos _ => Zpos m * 2 ^ e
         | Zneg p => Z.quot (2 * Zpos m + 2 ^ Zpos p) (2 * 2 ^ Zpos p)
         end)
  | _ => 0
  end.

Definition is_finite (x : float) : bool :=
  match x with
  | S754_finite _ _ _ | S754_zero _ => true
  | _ => false
  end.

(** The same datum, as opposed to [eqb], the comparison [==]. *)
Definition same (x y : float) : bool :=
  match x, y with
  | S754_zero a, S754_zero b => Bool.eqb a b
  | S754_infinity a, S754_infinity b => Bool.eqb a b
  | S754_nan, S754_nan => true
  | S754_finite a m e, S754_finite b n f => Bool.eqb a b && Pos.eqb m n && Z.eqb e f
  | _, _ => false
  end.

(** The rational a finite float stands for, [m * 2^e] with its sign. *)
Definition to_Q (x : float) : Q :=
  match x with
  | S754_finite s m e =>
      match e with
      | Z0 => inject_Z (cond_Zopp s (Zpos m))
      | Zpos _ => inject_Z (cond_Zopp s (Zpos m) * 2 ^ e)
      | Zneg p => Qmake (cond_Zopp s (Zpos m)) (2 ^ p)
      end
  | _ => 0%Q
  end.

End F32.

Abbreviation float := F32.float.

(** ** C strings and formatting *)

(** The double quote character, for the JSON texts. *)
Definition dq : string := String (ascii_of_nat 34) EmptyString.

(** The characters of [s] before its first NUL: what a [const char*] shows. *)
Fixpoint c_str (s : string) : string :=
  match s with
  | EmptyString => EmptyString
  | String c r => if Ascii.eqb c zero then EmptyString else String c (c_str r)
  end.

(** [strlcpy(dst, src, size)] and [snprintf(dst, size, ...)]: at most
    [size - 1] characters are stored. *)
Definition strlcpy (src : string) (size : nat) : string :=
  String.substring 0 (size - 1) (c_str src).

Definition snprintf (size : nat) (text : string) : string :=
  String.substring 0 (size - 1) text.

(** [String(int)] and the [%d] conversion. *)
Definition string_of_Z (z : Z) : string := NilZero.string_of_int (Z.to_int z).

(** ** Sensor config *)

Definition IR_FINGER_THRESHOLD : Z := 50000.
Definition TOTAL_SAMPLES : nat := 5.
Definition sampleCounts : list nat := [50; 60; 70; 80; 90]%nat.
Definition MAX_BUFFER : nat := 90.
Definition DISPLAY_INTERVAL : Z := 500.

(** ** The globals *)

Record State := mkState {
  spo2 : Z;
  heartRate : Z;
  spo2Valid : Z;
  hrValid : Z;
  hrReadings : list float;
  spo2Readings : list float;
  validHRCount : Z;
  validSpO2Count : Z;
  avgHR : float;
  avgSpO2 : float;
  running : bool;
  hadFinger : bool;
  cancelRequested : bool;
  statusMsg : string;
  patientName : string;
  lastDisplayMs : Z;
  irBuffer : list Z;
  redBuffer : list Z
}.

(** The values the initialisers give (arrays without one are zeroed). *)
Definition power_on : State :=
  {| spo2 := 0; heartRate := 0; spo2Valid := 0; hrValid := 0;
     hrReadings := replicate TOTAL_SAMPLES F32.zero;
     spo2Readings := replicate TOTAL_SAMPLES F32.zero;
     validHRCount := 0; validSpO2Count := 0;
     avgHR := F32.zero; avgSpO2 := F32.zero;
     running := false; hadFinger := false; cancelRequested := false;
     statusMsg := "Ready"; patientName := EmptyString;
     lastDisplayMs := 0;
     irBuffer := replicate MAX_BUFFER 0; redBuffer := replicate MAX_BUFFER 0 |}.

(** Assignments to one global. *)
Definition set_estimate (sp spv hr hrv : Z) (s : State) : State :=
  mkState sp hr spv hrv (hrReadings s) (spo2Readings s) (validHRCount s)
    (validSpO2Count s) (avgHR s) (avgSpO2 s) (running s) (hadFinger s)
    (cancelRequested s) (statusMsg s) (patientName s) (lastDisplayMs s)
    (irBuffer s) (redBuffer s).

Definition set_hrReadings (v : list float) (s : State) : State :=
  mkState (spo2 s) (heartRate s) (spo2Valid s) (hrValid s) v (spo2Readings s)
    (validHRCount s) (validSpO2Count s) (avgHR s) (avgSpO2 s) (running s)
    (hadFinger s) (cancelRequested s) (statusMsg s) (patientName s)
    (lastDisplayMs s) (irBuffer s) (redBuffer s).

Definition set_spo2Readings (v : list float) (s : State) : State :=
  mkState (spo2 s) (heartRate s) (spo2Valid s) (hrValid s) (hrReadings s) v
    (validHRCount s) (validSpO2Count s) (avgHR s) (avgSpO2 s) (running s)
    (hadFinger s) (cancelRequested s) (statusMsg s) (patientName s)
    (lastDisplayMs s) (irBuffer s) (redBuffer s).

Definition set_validHRCount (v : Z) (s : State) : State :=
  mkState (spo2 s) (heartRate s) (spo2Valid s) (hrValid s) (hrReadings s)
    (spo2Readings s) v (validSpO2Count s) (avgHR s) (avgSpO2 s) (running s)
    (hadFinger s) (cancelRequested s) (statusMsg s) (patientName s)
    (lastDisplayMs s) (irBuffer s) (redBuffer s).

Definition set_validSpO2Count (v : Z) (s : State) : State :=
  mkState (spo2 s) (heartRate s) (spo2Valid s) (hrValid s) (hrReadings s)
    (spo2Readings s) (validHRCount s) v (avgHR s) (avgSpO2 s) (running s)
    (hadFinger s) (cancelRequested s) (statusMsg s) (patientName s)
    (lastDisplayMs s) (irBuffer s) (redBuffer s).

Definition set_avgHR (v : float) (s : State) : State :=
  mkState (spo2 s) (heartRate s) (spo2Valid s) (hrValid s) (hrReadings s)
    (spo2Readings s) (validHRCount s) (validSpO2Count s) v (avgSpO2 s)
    (running s) (hadFinger s) (cancelRequested s) (statusMsg s)
    (patientName s) (lastDisplayMs s) (irBuffer s) (redBuffer s).

Definition set_avgSpO2 (v : float) (s : State) : State :=
  mkState (spo2 s) (heartRate s) (spo2Valid s) (hrValid s) (hrReadings s)
    (spo2Readings s) (validHRCount s) (validSpO2Count s) (avgHR s) v
    (running s) (hadFinger s) (cancelRequested s) (statusMsg s)
    (patientName s) (lastDisplayMs s) (irBuffer s) (redBuffer s).

Definition set_running (v : bool) (s : State) : State :=
  mkState (spo2 s) (heartRate s) (spo2Valid s) (hrValid s) (hrReadings s)
    (spo2Readings s) (validHRCount s) (validSpO2Count s) (avgHR s) (avgSpO2 s)
    v (hadFinger s) (cancelRequested s) (statusMsg s) (patientName s)
    (lastDisplayMs s) (irBuffer s) (redBuffer s).

Definition set_hadFinger (v : bool) (s : State) : State :=
  mkState (spo2 s) (heartRate s) (spo2Valid s) (hrValid s) (hrReadings s)
    (spo2Readings s) (validHRCount s) (validSpO2Count s) (avgHR s) (avgSpO2 s)
    (running s) v (cancelRequested s) (statusMsg s) (patientName s)
    (lastDisplayMs s) (irBuffer s) (redBuffer s).

Definition set_cancelRequested (v : bool) (s : State) : State :=
  mkState (spo2 s) (heartRate s) (spo2Valid s) (hrValid s) (hrReadings s)
    (spo2Readings s) (validHRCount s) (validSpO2Count s) (avgHR s) (avgSpO2 s)
    (running s) (hadFinger s) v (statusMsg s) (patientName s)
    (lastDisplayMs s) (irBuffer s) (redBuffer s).

Definition set_statusMsg (v : string) (s : State) : State :=
  mkState (spo2 s) (heartRate s) (spo2Valid s) (hrValid s) (hrReadings s)
    (spo2Readings s) (validHRCount s) (validSpO2Count s) (avgHR s) (avgSpO2 s)
    (running s) (hadFinger s) (cancelRequested s) v (patientName s)
    (lastDisplayMs s) (irBuffer s) (redBuffer s).

Definition set_patientName (v : string) (s : State) : State :=
  mkState (spo2 s) (heartRate s) (spo2Valid s) (hrValid s) (hrReadings s)
    (spo2Readings s) (validHRCount s) (validSpO2Count s) (avgHR s) (avgSpO2 s)
    (running s) (hadFinger s) (cancelRequested s) (statusMsg s) v
    (lastDisplayMs s) (irBuffer s) (redBuffer s).

Definition set_lastDisplayMs (v : Z) (s : State) : State :=
  mkState (spo2 s) (heartRate s) (spo2Valid s) (hrValid s) (hrReadings s)
    (spo2Readings s) (validHRCount s) (validSpO2Count s) (avgHR s) (avgSpO2 s)
    (running s) (hadFinger s) (cancelRequested s) (statusMsg s)
    (patientName s) v (irBuffer s) (redBuffer s).

Definition set_irBuffer (v : list Z) (s : State) : State :=
  mkState (spo2 s) (heartRate s) (spo2Valid s) (hrValid s) (hrReadings s)
    (spo2Readings s) (validHRCount s) (validSpO2Count s) (avgHR s) (avgSpO2 s)
    (running s) (hadFinger s) (cancelRequested s) (statusMsg s)
    (patientName s) (lastDisplayMs s) v (redBuffer s).

Definition set_redBuffer (v : list Z) (s : State) : State :=
  mkState (spo2 s) (heartRate s) (spo2Valid s) (hrValid s) (hrReadings s)
    (spo2Readings s) (validHRCount s) (validSpO2Count s) (avgHR s) (avgSpO2 s)
    (running s) (hadFinger s) (cancelRequested s) (statusMsg s)
    (patientName s) (lastDisplayMs s) (irBuffer s) v.

(** [n++] on a C [int]: 32 bits, two's complement. *)
Definition int_incr (n : Z) : Z := (n + 1 + 2 ^ 31) mod 2 ^ 32 - 2 ^ 31.

(** ** The web server's requests and responses *)

Inductive HTTPMethod := HTTP_GET | HTTP_POST | HTTP_OPTIONS | HTTP_OTHER.

Record Request := mkRequest {
  method : HTTPMethod;
  uri : string;
  (** [server.arg("plain")], the request body, when [server.hasArg("plain")] *)
  plain : option string
}.

Record Response := mkResponse {
  code : Z;
  headers : list (string * string);
  content_type : string;
  content : string
}.

(** [addCORS] queues three headers for the response that follows. *)
Definition addCORS : list (string * string) :=
  [ ("Access-Control-Allow-Origin", "*");
    ("Access-Control-Allow-Methods", "GET, POST, OPTIONS");
    ("Access-Control-Allow-Headers", "Content-Type") ].

Definition handleOptions : Response := mkResponse 204 addCORS EmptyString EmptyString.

(** The acknowledgement of both commands: the text [{"ok":true}]. *)
Definition ok_json : string := "{" ++ dq ++ "ok" ++ dq ++ ":true}".

(** ** ArduinoJson, as far as [handleStart] looks at a document *)

Inductive JsonVariant :=
| JsonString (s : string)
| JsonOther.

(** The members of the root object (none when the root is not an object). *)
Definition JsonDocument := list (string * JsonVariant).

Definition member (doc : JsonDocument) (key : string) : option JsonVariant :=
  snd <$> find (fun kv => String.eqb (fst kv) key) doc.

Definition containsKey (doc : JsonDocument) (key : string) : bool :=
  match member doc key with Some _ => true | None => false end.

(** [doc[key] | default] with the empty string as default: the member as a C
    string, the default unless it is one. *)
Definition as_c_string (doc : JsonDocument) (key : string) : string :=
  match member doc key with
  | Some (JsonString v) => v
  | _ => EmptyString
  end.

(** ** The environment and the device *)

(** The environment answers by call number. *)
Record Env := mkEnv {
  (** the request the n-th [server.handleClient()] finds pending, if any *)
  client : nat -> option Request;
  (** the milliseconds that call takes *)
  latency : nat -> Z;
  (** what the n-th [sensor.getIR()] and [sensor.getRed()] return *)
  getIR : nat -> Z;
  getRed : nat -> Z;
  (** whether the n-th [sensor.available()] reports a sample *)
  available : nat -> bool
}.

Record Device := mkDevice {
  globals : State;
  (** [millis()] *)
  clock : Z;
  (** how often each of the environment's calls was made *)
  clientCalls : nat;
  irCalls : nat;
  redCalls : nat;
  availableCalls : nat;
  (** the responses sent, oldest first *)
  sent : list Response
}.

Definition with_globals (v : State) (d : Device) : Device :=
  mkDevice v (clock d) (clientCalls d) (irCalls d) (redCalls d) (availableCalls d) (sent d).
Definition with_clock (v : Z) (d : Device) : Device :=
  mkDevice (globals d) v (clientCalls d) (irCalls d) (redCalls d) (availableCalls d) (sent d).
Definition with_clientCalls (v : nat) (d : Device) : Device :=
  mkDevice (globals d) (clock d) v (irCalls d) (redCalls d) (availableCalls d) (sent d).
Definition with_irCalls (v : nat) (d : Device) : Device :=
  mkDevice (globals d) (clock d) (clientCalls d) v (redCalls d) (availableCalls d) (sent d).
Definition with_redCalls (v : nat) (d : Device) : Device :=
  mkDevice (globals d) (clock d) (clientCalls d) (irCalls d) v (availableCalls d) (sent d).
Definition with_availableCalls (v : nat) (d : Device) : Device :=
  mkDevice (globals d) (clock d) (clientCalls d) (irCalls d) (redCalls d) v (sent d).
Definition with_sent (v : list Response) (d : Device) : Device :=
  mkDevice (globals d) (clock d) (clientCalls d) (irCalls d) (redCalls d) (availableCalls d) v.

(** ** Device computations: state passing, [None] when a loop's fuel ran out *)

Definition M (A : Type) : Type := Device -> option (A * Device).

Definition ret {A} (a : A) : M A := fun d => Some (a, d).

Definition bind {A B} (m : M A) (k : A -> M B) : M B :=
  fun d => match m d with
           | Some (a, d') => k a d'
           | None => None
           end.

Notation "x <- m ;; k" := (bind m (fun x => k))
  (at level 100, m at next level, right associativity).
Notation "m ;; k" := (bind m (fun _ => k))
  (at level 100, right associativity).

(** A loop that has used up its iterations. *)
Definition out_of_fuel {A} : M A := fun _ => None.

Definition read {A} (f : State -> A) : M A :=
  fun d => Some (f (globals d), d).

Definition assign (f : State -> State) : M unit :=
  fun d => Some (tt, with_globals (f (globals d)) d).

Definition when (b : bool) (m : M unit) : M unit := if b then m else ret tt.

(** [millis()] and [delay(ms)]: an [unsigned long] of milliseconds.  Time
    passes in [delay] and in [server.handleClient()]. *)
Definition millis : M Z := fun d => Some (clock d, d).

Definition delay (ms : Z) : M unit :=
  fun d => Some (tt, with_clock ((clock d + ms) mod 2 ^ 32) d).

(** [a - b] on [unsigned long]. *)
Definition usub (a b : Z) : Z := (a - b) mod 2 ^ 32.

(** ** The handlers and helpers *)

Section Firmware.

(** [deserializeJson]: the document, or [None] for a [DeserializationError]. *)
Variable deserializeJson : string -> option JsonDocument.

(** [maxim_heart_rate_and_oxygen_saturation(irBuffer, n, redBuffer, ...)]:
    the four results in the order of its out-parameters, which is
    [spo2], [spo2Valid], [heartRate], [hrValid]. *)
Variable maxim_heart_rate_and_oxygen_saturation :
  list Z -> Z -> list Z -> Z * Z * Z * Z.

(** *** Web server handlers *)

Definition handleStart (body : option string) (s : State) : State * Response :=
  let s :=
    if negb (running s) then
      let s := set_patientName EmptyString s in
      let s :=
        match body with
        | Some text =>
            match deserializeJson text with
            | Some doc =>
                if containsKey doc "name"
                then set_patientName (strlcpy (as_c_string doc "name") 32) s
                else s
            | None => s
            end
        | None => s
        end in
      let s := set_running true s in
      let s := set_hadFinger false s in
      let s := set_cancelRequested false s in
      let s := set_validHRCount 0 s in
      let s := set_validSpO2Count 0 s in
      let s := set_avgHR (F32.of_int 0) s in
      let s := set_avgSpO2 (F32.of_int 0) s in
      let s := set_hrReadings (replicate TOTAL_SAMPLES F32.zero) s in
      let s := set_spo2Readings (replicate TOTAL_SAMPLES F32.zero) s in
      set_statusMsg (snprintf 32 "Starting...") s
    else s in
  (s, mkResponse 200 addCORS "application/json" ok_json).

Definition handleCancel (s : State) : State * Response :=
  let s := set_cancelRequested true s in
  (s, mkResponse 200 addCORS "application/json" ok_json).

(** The [status] string of [handleJSON]. *)
Definition handleJSON_status (s : State) : string :=
  if negb (running s) && F32.eqb (avgHR s) (F32.of_int 0)
     && F32.eqb (avgSpO2 s) (F32.of_int 0)
  then "idle"
  else if running s then "measuring"
  else
    if F32.geb (avgSpO2 s) (F32.of_int 95) && F32.geb (avgHR s) (F32.of_int 60)
       && F32.leb (avgHR s) (F32.of_int 100)
    then "Normal"
    else if F32.geb (avgSpO2 s) (F32.of_int 90) then "Warning"
    else "Critical".

(** The three-way label of [handleJSON], the last [else] of its [status]. *)
Definition handleJSON_label (s : State) : string :=
  if F32.geb (avgSpO2 s) (F32.of_int 95) && F32.geb (avgHR s) (F32.of_int 60)
     && F32.leb (avgHR s) (F32.of_int 100)
  then "Normal"
  else if F32.geb (avgSpO2 s) (F32.of_int 90) then "Warning"
  else "Critical".

(** The text [handleJSON] builds, piece by piece. *)
Definition handleJSON_json (s : State) : string :=
  let status := handleJSON_status s in
  let json := "{" in
  let json := json ++ (dq ++ "heartRate" ++ dq ++ ":") ++ string_of_Z (F32.to_int (avgHR s)) ++ "," in
  let json := json ++ (dq ++ "spo2" ++ dq ++ ":") ++ string_of_Z (F32.to_int (avgSpO2 s)) ++ "," in
  let json := json ++ (dq ++ "hrValid" ++ dq ++ ":") ++ string_of_Z (validHRCount s) ++ "," in
  let json := json ++ (dq ++ "spo2Valid" ++ dq ++ ":") ++ string_of_Z (validSpO2Count s) ++ "," in
  let json := json ++ (dq ++ "totalSamples" ++ dq ++ ":") ++ string_of_Z (Z.of_nat TOTAL_SAMPLES) ++ "," in
  let json := json ++ (dq ++ "running" ++ dq ++ ":") ++ (if running s then "true" else "false") ++ "," in
  let json := json ++ (dq ++ "status" ++ dq ++ ":" ++ dq) ++ status ++ dq in
  json ++ "}".

Definition handleJSON (s : State) : State * Response :=
  (s, mkResponse 200 addCORS "application/json" (handleJSON_json s)).

(** The routes registered in [setup], [onNotFound] last. *)
Definition route (r : Request) (s : State) : State * Response :=
  match method r with
  | HTTP_POST =>
      if String.eqb (uri r) "/start" then handleStart (plain r) s
      else if String.eqb (uri r) "/cancel" then handleCancel s
      else (s, mkResponse 404 [] "text/plain" "Not found")
  | HTTP_GET =>
      if String.eqb (uri r) "/data" then handleJSON s
      else (s, mkResponse 404 [] "text/plain" "Not found")
  | HTTP_OPTIONS => (s, handleOptions)
  | HTTP_OTHER => (s, mkResponse 404 [] "text/plain" "Not found")
  end.

(** *** OLED helpers: the drawing is left out, [statusMsg] is kept *)

Definition displayIdle (s : State) : State :=
  set_statusMsg (snprintf 32 "Idle") s.

Definition displayGreeting (s : State) : State :=
  set_statusMsg (snprintf 32 "Ready") s.

Definition displayNoFinger (s : State) : State :=
  set_statusMsg (snprintf 32 "No finger") s.

Definition displaySampling (current total : Z) (s : State) : State :=
  set_statusMsg
    (snprintf 32 ("Sample " ++ string_of_Z current ++ " of " ++ string_of_Z total)) s.

(** The [statusLabel] of [displayResults]. *)
Definition displayResults_statusLabel (s : State) : string :=
  if F32.geb (avgSpO2 s) (F32.of_int 95) && F32.geb (avgHR s) (F32.of_int 60)
     && F32.leb (avgHR s) (F32.of_int 100)
  then "Normal"
  else if F32.geb (avgSpO2 s) (F32.of_int 90) then "Warning"
  else "Critical".

Definition displayResults (s : State) : State :=
  set_statusMsg (snprintf 32 (displayResults_statusLabel s)) s.

(** *** Sensor helpers *)

Definition resetMeasurement (s : State) : State :=
  let s := set_running false s in
  let s := set_hadFinger false s in
  let s := set_cancelRequested false s in
  let s := set_validHRCount 0 s in
  let s := set_validSpO2Count 0 s in
  let s := set_patientName EmptyString s in
  set_statusMsg (snprintf 32 "Cancelled") s.

(** The end of [takeSingleReading]: the estimator's results, already in
    the globals, are filtered into the readings of stage [idx].  An index
    outside the arrays (the firmware has none) stores nothing. *)
Definition storeReading (idx : nat) (s : State) : State :=
  let s :=
    if negb (hrValid s =? 0) && (heartRate s >=? 40) && (heartRate s <=? 220)
    then
      let s := set_hrReadings (<[idx := F32.of_int (heartRate s)]> (hrReadings s)) s in
      set_validHRCount (int_incr (validHRCount s)) s
    else set_hrReadings (<[idx := F32.of_int 0]> (hrReadings s)) s in
  if negb (spo2Valid s =? 0) && (spo2 s >=? 80) && (spo2 s <=? 100)
  then
    let s := set_spo2Readings (<[idx := F32.of_int (spo2 s)]> (spo2Readings s)) s in
    set_validSpO2Count (int_incr (validSpO2Count s)) s
  else set_spo2Readings (<[idx := F32.of_int 0]> (spo2Readings s)) s.

(** The summing loop of [calculateAverages], for one array. *)
Definition sumPositive (readings : list float) : float :=
  fold_left
    (fun sum r => if F32.gtb r (F32.of_int 0) then F32.add sum r else sum)
    (take TOTAL_SAMPLES readings) (F32.of_int 0).

Definition calculateAverages (s : State) : State :=
  let sumHR := sumPositive (hrReadings s) in
  let sumSpO2 := sumPositive (spo2Readings s) in
  let s :=
    set_avgHR (if validHRCount s >? 0
               then F32.div sumHR (F32.of_int (validHRCount s))
               else F32.of_int 0) s in
  set_avgSpO2 (if validSpO2Count s >? 0
               then F32.div sumSpO2 (F32.of_int (validSpO2Count s))
               else F32.of_int 0) s.

(** *** The calls to the web server and the sensor *)

Variable env : Env.

(** [server.handleClient()]: one pending request, if any, is routed and
    answered. *)
Definition handleClient : M unit :=
  fun d =>
    let n := clientCalls d in
    let d := with_clientCalls (S n) d in
    let d := with_clock ((clock d + latency env n) mod 2 ^ 32) d in
    match client env n with
    | Some r =>
        let '(s, resp) := route r (globals d) in
        Some (tt, with_sent (sent d ++ [resp])%list (with_globals s d))
    | None => Some (tt, d)
    end.

Definition sensor_getIR : M Z :=
  fun d => Some (getIR env (irCalls d), with_irCalls (S (irCalls d)) d).

Definition sensor_getRed : M Z :=
  fun d => Some (getRed env (redCalls d), with_redCalls (S (redCalls d)) d).

Definition sensor_available : M bool :=
  fun d => Some (available env (availableCalls d),
                 with_availableCalls (S (availableCalls d)) d).

(** [sensor.check()], [sensor.nextSample()] and [yield()] return nothing
    the firmware looks at. *)
Definition sensor_check : M unit := ret tt.
Definition sensor_nextSample : M unit := ret tt.
Definition yield : M unit := ret tt.

(** *** Yield helper and display throttle *)

Fixpoint yieldFor_from (fuel : nat) (start ms : Z) : M unit :=
  match fuel with
  | O => out_of_fuel
  | S fuel =>
      now <- millis ;;
      if usub now start <? ms then
        handleClient ;;
        yield ;;
        delay 1 ;;
        yieldFor_from fuel start ms
      else ret tt
  end.

Definition yieldFor (fuel : nat) (ms : Z) : M unit :=
  start <- millis ;;
  yieldFor_from fuel start ms.

Definition shouldRedisplay : M bool :=
  now <- millis ;;
  last <- read lastDisplayMs ;;
  if usub now last >=? DISPLAY_INTERVAL then
    assign (set_lastDisplayMs now) ;;
    ret true
  else ret false.

(** *** Sensor helpers *)

Definition fingerPresent : M bool :=
  ir <- sensor_getIR ;;
  ret (ir >? IR_FINGER_THRESHOLD).

(** The one-second wait of [interruptibleCountdown]; [false] is its
    [return false]. *)
Fixpoint countdownSecond (fuel : nat) (t : Z) : M bool :=
  match fuel with
  | O => out_of_fuel
  | S fuel =>
      now <- millis ;;
      if usub now t <? 1000 then
        handleClient ;;
        yield ;;
        c <- read cancelRequested ;;
        if c then ret false
        else delay 1 ;; countdownSecond fuel t
      else ret true
  end.

Fixpoint interruptibleCountdown (fuel : nat) (seconds : nat) : M bool :=
  match seconds with
  | O => ret true
  | S i =>
      assign (set_statusMsg
                (snprintf 32 ("Starting in " ++ string_of_Z (Z.of_nat seconds) ++ "s"))) ;;
      t <- millis ;;
      go_on <- countdownSecond fuel t ;;
      if go_on then interruptibleCountdown fuel i else ret false
  end.

(** The wait for the next raw sample, [while (!sensor.available())];
    [false] is its [return false]. *)
Fixpoint awaitSample (fuel : nat) : M bool :=
  match fuel with
  | O => out_of_fuel
  | S fuel =>
      a <- sensor_available ;;
      if negb a then
        sensor_check ;;
        handleClient ;;
        yield ;;
        c <- read cancelRequested ;;
        if c then ret false else awaitSample fuel
      else ret true
  end.

(** [cancelRequested || !fingerPresent()]: the sensor is asked only when
    no cancellation is pending. *)
Definition interrupted : M bool :=
  c <- read cancelRequested ;;
  if c then ret true
  else p <- fingerPresent ;; ret (negb p).

(** The sample loop of [takeSingleReading], from sample [i] with [todo]
    samples to go; [false] is a [return false]. *)
Fixpoint collectSamples (fuel : nat) (i todo : nat) : M bool :=
  match todo with
  | O => ret true
  | S todo =>
      handleClient ;;
      yield ;;
      stop <- interrupted ;;
      if stop then ret false
      else
        ready <- awaitSample fuel ;;
        if negb ready then ret false
        else
          red <- sensor_getRed ;;
          assign (fun s => set_redBuffer (<[i := red]> (redBuffer s)) s) ;;
          ir <- sensor_getIR ;;
          assign (fun s => set_irBuffer (<[i := ir]> (irBuffer s)) s) ;;
          sensor_nextSample ;;
          collectSamples fuel (S i) todo
  end.

Definition estimate (n : nat) (s : State) : State :=
  let '(sp, spv, hr, hrv) :=
    maxim_heart_rate_and_oxygen_saturation (irBuffer s) (Z.of_nat n) (redBuffer s) in
  set_estimate sp spv hr hrv s.

Definition takeSingleReading (fuel : nat) (idx : nat) : M bool :=
  let n := nth idx sampleCounts O in
  filled <- collectSamples fuel 0 n ;;
  if negb filled then ret false
  else
    assign (estimate n) ;;
    assign (storeReading idx) ;;
    ret true.

(** *** The loop *)

(** The stage loop of [loop], from stage [i] with [todo] stages to go;
    [false] is its [return] after an interrupted stage. *)
Fixpoint sampleStages (fuel : nat) (i todo : nat) : M bool :=
  match todo with
  | O => ret true
  | S todo =>
      assign (displaySampling (Z.of_nat i + 1) (Z.of_nat TOTAL_SAMPLES)) ;;
      handleClient ;;
      taken <- takeSingleReading fuel i ;;
      if negb taken then
        assign resetMeasurement ;;
        assign displayIdle ;;
        ret false
      else
        handleClient ;;
        yieldFor fuel 300 ;;
        sampleStages fuel (S i) todo
  end.

(** [while (millis() < showUntil)]. *)
Fixpoint showResults (fuel : nat) (showUntil : Z) : M unit :=
  match fuel with
  | O => out_of_fuel
  | S fuel =>
      now <- millis ;;
      if now <? showUntil then
        handleClient ;;
        yield ;;
        delay 10 ;;
        showResults fuel showUntil
      else ret tt
  end.

(** The greeting and countdown of a finger newly placed; [false] is the
    [return] after a cancelled countdown. *)
Definition greet (fuel : nat) : M bool :=
  h <- read hadFinger ;;
  if negb h then
    assign (set_hadFinger true) ;;
    assign displayGreeting ;;
    yieldFor fuel 800 ;;
    counted <- interruptibleCountdown fuel 3 ;;
    if negb counted then
      assign resetMeasurement ;;
      assign displayIdle ;;
      ret false
    else ret true
  else ret true.

(** From [calculateAverages()] to the end of [loop]. *)
Definition complete (fuel : nat) : M unit :=
  assign calculateAverages ;;
  assign (set_running false) ;;
  assign displayResults ;;
  now <- millis ;;
  showResults fuel ((now + 10000) mod 2 ^ 32) ;;
  assign (set_patientName EmptyString) ;;
  assign displayIdle.

(** [loop] down to its stage loop; [false] is a [return]. *)
Definition measure (fuel : nat) : M bool :=
  handleClient ;;
  yield ;;
  r <- read running ;;
  if negb r then
    b <- shouldRedisplay ;;
    when b (assign displayIdle) ;;
    delay 10 ;;
    ret false
  else
    c <- read cancelRequested ;;
    if c then
      assign resetMeasurement ;;
      assign displayIdle ;;
      ret false
    else
      p <- fingerPresent ;;
      if negb p then
        assign (set_hadFinger false) ;;
        b <- shouldRedisplay ;;
        when b (assign displayNoFinger) ;;
        handleClient ;;
        delay 10 ;;
        ret false
      else
        go_on <- greet fuel ;;
        if negb go_on then ret false
        else sampleStages fuel 0 TOTAL_SAMPLES.

Definition loop (fuel : nat) : M unit :=
  measured <- measure fuel ;;
  if negb measured then ret tt
  else complete fuel.

(** [loop()] called [n] times in a row, as the Arduino core does. *)
Fixpoint loops (fuel : nat) (n : nat) : M unit :=
  match n with
  | O => ret tt
  | S n => loop fuel ;; loops fuel n
  end.

End Firmware.

(** ** The specification's vocabulary *)

(** The three-way classification of an average pair, in the spec's words:
    saturation at least 95 and heart rate within 60..100 is "Normal",
    otherwise saturation at least 90 is "Warning", otherwise "Critical". *)
Definition classification (avgHr avgSpo2 : float) : string :=
  if F32.leb (F32.of_int 95) avgSpo2
     && (F32.leb (F32.of_int 60) avgHr && F32.leb avgHr (F32.of_int 100))
  then "Normal"
  else if F32.leb (F32.of_int 90) avgSpo2 then "Warning"
  else "Critical".

(** A JSON object as a list of fields, and its text. *)
Inductive JsonValue :=
| JInt (z : Z)
| JBool (b : bool)
| JText (s : string).

Definition render_value (v : JsonValue) : string :=
  match v with
  | JInt z => string_of_Z z
  | JBool b => if b then "true" else "false"
  | JText s => dq ++ s ++ dq
  end.

Definition render_field (f : string * JsonValue) : string :=
  dq ++ fst f ++ dq ++ ":" ++ render_value (snd f).

Fixpoint render_fields (l : list (string * JsonValue)) : string :=
  match l with
  | [] => EmptyString
  | [f] => render_field f
  | f :: r => render_field f ++ "," ++ render_fields r
  end.

Definition render_object (l : list (string * JsonValue)) : string :=
  "{" ++ render_fields l ++ "}".

(** The acknowledgement both commands answer with. *)
Definition acknowledgement : Response :=
  mkResponse 200 addCORS "application/json" (render_object [("ok", JBool true)]).

(** The label a Begin request carries: the [name] member of a body that
    parses, cut to the 31 characters [patientName] holds, and nothing
    otherwise. *)
Definition label_of (deserializeJson : string -> option JsonDocument)
    (body : option string) : string :=
  match body with
  | Some text =>
      match deserializeJson text with
      | Some doc =>
          match member doc "name" with
          | Some (JsonString v) => String.substring 0 31 (c_str v)
          | _ => EmptyString
          end
      | None => EmptyString
      end
  | None => EmptyString
  end.

(** [z] is the rational [q] with its fractional part cut off. *)
Definition truncation (q : Q) (z : Z) : Prop :=
  ((0 <= q -> inject_Z z <= q < inject_Z z + 1)
   /\ (q <= 0 -> inject_Z z - 1 < q <= inject_Z z))%Q.

(** The readings that are not the zero sentinel, as the integers they hold. *)
Definition positive_reading (r : float) : bool := F32.gtb r (F32.of_int 0).

Definition accepted (readings : list float) : list Z :=
  map F32.to_int (List.filter positive_reading readings).

Definition total (l : list Z) : Z := fold_right Z.add 0 l.

(** The mean of a list of integers, exactly. *)
Definition mean (l : list Z) : Q :=
  (inject_Z (total l) / inject_Z (Z.of_nat (length l)))%Q.

(** [x] is a binary32 number next to the positive rational [q]: finite, and
    off by no more than [q / 2^24], half a unit in the last place at most. *)
Definition rounds (q : Q) (x : float) : Prop :=
  F32.is_finite x = true /\ (Qabs (F32.to_Q x - q) <= q * (1 # 16777216))%Q.

(** What a stage leaves in a readings array: the sentinel, or an integer
    of the accepted range. *)
Definition reading_of (lo hi : Z) (r : float) : Prop :=
  r = F32.zero \/ exists v, lo <= v <= hi /\ r = F32.of_int v.

(** The state of a running session whose first [i] stages are done. *)
Definition Recorded (i : nat) (s : State) : Prop :=
  running s = true
  /\ length (hrReadings s) = TOTAL_SAMPLES
  /\ length (spo2Readings s) = TOTAL_SAMPLES
  /\ Forall (reading_of 40 220) (take i (hrReadings s))
  /\ Forall (reading_of 80 100) (take i (spo2Readings s))
  /\ validHRCount s = Z.of_nat (length (accepted (take i (hrReadings s))))
  /\ validSpO2Count s = Z.of_nat (length (accepted (take i (spo2Readings s)))).

(** The plausibility filter of one metric: the validity flag is set and the
    value lies in [lo, hi]. *)
Definition accepts (lo hi valid v : Z) : Prop := valid <> 0 /\ lo <= v <= hi.

(** What a stage does with one metric: an accepted value is stored and
    counted, a rejected one leaves the zero sentinel and the counter alone. *)
Definition metric_stored (lo hi valid v : Z) (stored : option float)
    (count count' : Z) : Prop :=
  (accepts lo hi valid v -> stored = Some (F32.of_int v) /\ count' = int_incr count)
  /\ (~ accepts lo hi valid v -> stored = Some F32.zero /\ count' = count).

(** What holds of the globals between two passes of [loop]: the arrays
    have their length, and a session that is running has not counted a
    reading yet. *)
Definition Settled (s : State) : Prop :=
  length (hrReadings s) = TOTAL_SAMPLES
  /\ length (spo2Readings s) = TOTAL_SAMPLES
  /\ (running s = true -> validHRCount s = 0 /\ validSpO2Count s = 0).

(** A session that is running with a cancellation pending. *)
Definition Cancelling (s : State) : Prop :=
  running s = true /\ cancelRequested s = true.

(** What [resetMeasurement] and [displayIdle] leave. *)
Definition Reset (s : State) : Prop :=
  running s = false /\ cancelRequested s = false /\ validHRCount s = 0
  /\ validSpO2Count s = 0 /\ patientName s = EmptyString /\ statusMsg s = "Idle".

(** A computation keeps a property of the globals. *)
Definition keeps (P : State -> Prop) {A} (m : M A) : Prop :=
  forall d a d', P (globals d) -> m d = Some (a, d') -> P (globals d').

(** *** Checks by enumeration *)

Fixpoint upto (lo : Z) (n : nat) : list Z :=
  match n with
  | O => []
  | S k => lo :: upto (lo + 1) k
  end.

(** An accepted integer becomes a positive float that casts back to it. *)
Definition reading_exact (v : Z) : bool :=
  positive_reading (F32.of_int v) && (F32.to_int (F32.of_int v) =? v).

(** Adding a reading to a partial sum of at most four readings is exact. *)
Definition add_exact (a b : Z) : bool :=
  F32.same (F32.add (F32.of_int a) (F32.of_int b)) (F32.of_int (a + b)).

(** Dividing a sum of readings by their number gives a finite float that
    is not zero and is next to the exact quotient. *)
Definition div_rounds (n a : Z) : bool :=
  let x := F32.div (F32.of_int a) (F32.of_int n) in
  let q := (inject_Z a / inject_Z n)%Q in
  F32.is_finite x && negb (F32.eqb x (F32.of_int 0))
  && Qle_bool (Qabs (F32.to_Q x - q)) (q * (1 # 16777216)).

(** ** Concrete environments *)

(** A parser that knows one body, the text [{"name":"Ann"}]. *)
Definition ann_body : string := render_object [("name", JText "Ann")].

Definition parse_ann (text : string) : option JsonDocument :=
  if String.eqb text ann_body then Some [("name", JsonString "Ann")] else None.

(** Estimators that answer the same whatever the window holds: both
    metrics valid, both invalid (the library reports -999 then), and a
    valid heart rate with an invalid saturation. *)
Definition estimate_72_98 (ir : list Z) (n : Z) (red : list Z) : Z * Z * Z * Z :=
  (98, 1, 72, 1).

Definition estimate_nothing (ir : list Z) (n : Z) (red : list Z) : Z * Z * Z * Z :=
  (-999, 0, -999, 0).

Definition estimate_hr_only (ir : list Z) (n : Z) (red : list Z) : Z * Z * Z * Z :=
  (-999, 0, 72, 1).

(** An estimator that tells the stages apart by their window size: 72 bpm
    in the first, 73 bpm in the next three, nothing valid in the last. *)
Definition estimate_by_stage (ir : list Z) (n : Z) (red : list Z) : Z * Z * Z * Z :=
  if n =? 50 then (98, 1, 72, 1)
  else if n =? 90 then (-999, 0, -999, 0)
  else (98, 1, 73, 1).

Definition post_start : Request := mkRequest HTTP_POST "/start" (Some ann_body).
Definition post_cancel : Request := mkRequest HTTP_POST "/cancel" None.
Definition get_data : Request := mkRequest HTTP_GET "/data" None.

(** Requests listed with the call of [handleClient] that finds them. *)
Definition arrivals (l : list (Z * Request)) (n : nat) : option Request :=
  snd <$> find (fun a => fst a =? Z.of_nat n) l.

(** A finger that stays on the sensor, which always has a sample; the web
    server takes 400 ms at each call. *)
Definition finger_on (l : list (Z * Request)) : Env :=
  mkEnv (arrivals l) (fun _ => 400) (fun _ => 60000) (fun _ => 40000) (fun _ => true).

(** A finger that is on the sensor for the first reading of the infrared
    value and off from then on, while the sensor has no sample. *)
Definition finger_lifted : Env :=
  mkEnv (fun _ => None) (fun _ => 400) (fun n => if Nat.eqb n 0 then 60000 else 0)
        (fun _ => 40000) (fun _ => false).

(** A sensor without a sample while a Cancel is the next request. *)
Definition cancel_while_waiting : Env :=
  mkEnv (arrivals [(0, post_cancel)]) (fun _ => 400) (fun _ => 60000)
        (fun _ => 40000) (fun _ => false).

(** The device when [setup] returns, [displayIdle] having run last. *)
Definition booted : Device := mkDevice (displayIdle power_on) 0 0 0 0 0 [].

(** The device one Begin later. *)
Definition begun : Device :=
  with_globals (fst (handleStart parse_ann (Some ann_body) (globals booted))) booted.

Definition fuel : nat := 100.

(** What a run left behind: the globals, and the texts sent. *)
Definition final {A} (r : option (A * Device)) : option State :=
  (fun x => globals (snd x)) <$> r.

Definition replies {A} (r : option (A * Device)) : option (list string) :=
  (fun x => map content (sent (snd x))) <$> r.

Definition result {A} (r : option (A * Device)) : option A := fst <$> r.

(** The fields a snapshot shows. *)
Definition snapshot (hr sp hrv spv : Z) (run : bool) (status : string) : string :=
  render_object
    [("heartRate", JInt hr); ("spo2", JInt sp); ("hrValid", JInt hrv);
     ("spo2Valid", JInt spv); ("totalSamples", JInt 5); ("running", JBool run);
     ("status", JText status)].

(** ** The text the result and greeting screens draw *)

(** The first line of [displayGreeting] and of [displayNoFinger] when a
    name is set: [snprintf(line, sizeof(line), "Hi, %s!", patientName)]
    into [char line[40]]; [displayGreeting] draws "Hello!" without a name. *)
Definition displayGreeting_line (s : State) : string :=
  if (0 <? String.length (patientName s))%nat
  then snprintf 40 ("Hi, " ++ patientName s ++ "!")
  else "Hello!".

(** The first line of [displayResults], through [char nameLine[40]]. *)
Definition displayResults_nameLine (s : State) : string :=
  if (0 <? String.length (patientName s))%nat
  then snprintf 40 (patientName s ++ " - Result")
  else "Result".

(** What [displayResults] prints after "HR:" and after "SpO2:". *)
Definition displayResults_hr (s : State) : string :=
  if F32.gtb (avgHR s) (F32.of_int 0)
  then string_of_Z (F32.to_int (avgHR s)) ++ " bpm"
  else "--".

Definition displayResults_spo2 (s : State) : string :=
  if F32.gtb (avgSpO2 s) (F32.of_int 0)
  then string_of_Z (F32.to_int (avgSpO2 s)) ++ " %"
  else "--".

(** The answer of [onNotFound] to a request that is no preflight. *)
Definition not_found : Response := mkResponse 404 [] "text/plain" "Not found".

(** ** The app: what it makes of a snapshot *)

Module App.

(** [ESPData] of esp.ts.  The numbers of a snapshot are the integers the
    firmware prints. *)
Record ESPData := mkESPData {
  heartRate : Z;
  spo2 : Z;
  hrValid : Z;
  spo2Valid : Z;
  totalSamples : Z;
  running : bool;
  status : string
}.

Record Assessment := mkAssessment {
  label : string;
  detail : string;
  color : string;
  bg : string;
  border : string;
  urgent : bool
}.

(** [assess] of assessment.ts, the same function as in sensor.tsx. *)
Definition assess (hr spo2 : Z) : Assessment :=
  if spo2 <? 90 then
    mkAssessment "⛔ Critical — Emergency"
      "Dangerously low oxygen saturation. Seek emergency care immediately."
      "#dc2626" "#fef2f2" "#fecaca" true
  else if spo2 <? 94 then
    mkAssessment "🔴 High Alert"
      "Low blood oxygen. Doctor visit required urgently."
      "#dc2626" "#fef2f2" "#fecaca" true
  else if hr >? 150 then
    mkAssessment "⛔ Critical — Emergency"
      "Severely elevated heart rate. Seek emergency care immediately."
      "#dc2626" "#fef2f2" "#fecaca" true
  else if hr <? 40 then
    mkAssessment "⛔ Critical — Emergency"
      "Dangerously low heart rate. Seek emergency care immediately."
      "#dc2626" "#fef2f2" "#fecaca" true
  else if hr >? 100 then
    mkAssessment "🟡 Elevated Heart Rate"
      "Heart rate above normal range (60–100 bpm). Monitor closely, consult doctor if persistent."
      "#d97706" "#fffbeb" "#fde68a" false
  else if hr <? 60 then
    mkAssessment "🟡 Low Heart Rate"
      "Heart rate below normal range (60–100 bpm). Consult doctor if feeling dizzy or unwell."
      "#d97706" "#fffbeb" "#fde68a" false
  else if spo2 <? 96 then
    mkAssessment "🟡 Monitor Closely"
      "Slightly low oxygen saturation. Rest and re-measure. See doctor if worsening."
      "#d97706" "#fffbeb" "#fde68a" false
  else
    mkAssessment "🟢 Normal"
      "Heart rate and oxygen saturation are within healthy range."
      "#16a34a" "#f0fdf4" "#bbf7d0" false.

Definition isReadingValid (data : ESPData) : bool :=
  (heartRate data >? 0) && (spo2 data >? 0) && (hrValid data >? 0)
  && (spo2Valid data >? 0).

(** The derived [assessment] of the sensor screen:
    [data && isReadingValid(data) ? assess(data.heartRate, data.spo2) : null]. *)
Definition assessment (data : option ESPData) : option Assessment :=
  match data with
  | Some data =>
      if isReadingValid data then Some (assess (heartRate data) (spo2 data)) else None
  | None => None
  end.

(** The test of [pollData] that ends the polling:
    [!res.running && res.totalSamples > 0]. *)
Definition pollData_stops (res : ESPData) : bool :=
  negb (running res) && (totalSamples res >? 0).

(** The document [autoSave] hands to [addDoc] ([createdAt] apart). *)
Record VitalsRecord := mkVitalsRecord {
  record_heartRate : Z;
  record_spo2 : Z;
  record_status : string;
  record_totalSamples : Z;
  record_hrValid : Z;
  record_spo2Valid : Z
}.

(** [autoSave] down to its call of [addDoc]: nothing without a signed-in
    user and a patient, nothing for a reading that is not valid. *)
Definition autoSave_document (signedIn : bool) (finalData : ESPData)
    : option VitalsRecord :=
  if negb signedIn then None
  else if negb (isReadingValid finalData) then None
  else Some (mkVitalsRecord (heartRate finalData) (spo2 finalData) (status finalData)
               (totalSamples finalData) (hrValid finalData) (spo2Valid finalData)).

(** The JSON text that denotes [e], with the fields in the firmware's order. *)
Definition render (e : ESPData) : string :=
  render_object
    [("heartRate", JInt (heartRate e)); ("spo2", JInt (spo2 e));
     ("hrValid", JInt (hrValid e)); ("spo2Valid", JInt (spo2Valid e));
     ("totalSamples", JInt (totalSamples e)); ("running", JBool (running e));
     ("status", JText (status e))].

End App.

(** The object [handleJSON] describes. *)
Definition handleJSON_data (s : State) : App.ESPData :=
  App.mkESPData (F32.to_int (avgHR s)) (F32.to_int (avgSpO2 s)) (validHRCount s)
    (validSpO2Count s) (Z.of_nat TOTAL_SAMPLES) (running s) (handleJSON_status s).

(** ** What holds of the globals whenever a request is served *)

(** No buffer holds more than it has room for. *)
Definition Bounded (s : State) : Prop :=
  (String.length (statusMsg s) <= 31)%nat
  /\ (String.length (patientName s) <= 31)%nat
  /\ length (irBuffer s) = MAX_BUFFER
  /\ length (redBuffer s) = MAX_BUFFER.

(** An average [x] goes with its counter [c]: zero when nothing was
    counted, else the float quotient of a sum of [c] accepted readings. *)
Definition Report (lo hi c : Z) (x : float) : Prop :=
  (c = 0 /\ x = F32.zero)
  \/ (1 <= c <= 5
      /\ exists a, lo * c <= a <= hi * c /\ x = F32.div (F32.of_int a) (F32.of_int c)).

(** A session is running, [i] of its stages are done, no average is
    computed yet. *)
Definition Live (i : nat) (s : State) : Prop :=
  Bounded s /\ Recorded i s /\ avgHR s = F32.zero /\ avgSpO2 s = F32.zero.

(** No session is running, and the averages go with the counters. *)
Definition Rest (s : State) : Prop :=
  Bounded s
  /\ running s = false
  /\ length (hrReadings s) = TOTAL_SAMPLES
  /\ length (spo2Readings s) = TOTAL_SAMPLES
  /\ Report 40 220 (validHRCount s) (avgHR s)
  /\ Report 80 100 (validSpO2Count s) (avgSpO2 s).

(** Between two passes of [loop], and whenever a request is served. *)
Definition Between (s : State) : Prop := Rest s \/ Live 0 s.

Definition Sane (s : State) : Prop :=
  Rest s \/ exists i, (i <= TOTAL_SAMPLES)%nat /\ Live i s.

(** An answer the server gave in a state that is [Sane]. *)
Definition Answer (deserializeJson : string -> option JsonDocument)
    (resp : Response) : Prop :=
  exists r s, Sane s /\ resp = snd (route deserializeJson r s).

(** The globals satisfy [P] and every response sent so far is an [Answer]. *)
Definition Inv (deserializeJson : string -> option JsonDocument)
    (P : State -> Prop) (d : Device) : Prop :=
  P (globals d) /\ Forall (Answer deserializeJson) (sent d).

(** A computation keeps a property of the device. *)
Definition holds (Q : Device -> Prop) {A} (m : M A) : Prop :=
  forall d a d', Q d -> m d = Some (a, d') -> Q d'.

(** What a client can rely on in a snapshot. *)
Definition Contract (e : App.ESPData) : Prop :=
  App.totalSamples e = 5
  /\ 0 <= App.hrValid e <= 5
  /\ 0 <= App.spo2Valid e <= 5
  /\ (App.running e = true ->
      App.heartRate e = 0 /\ App.spo2 e = 0 /\ App.status e = "measuring")
  /\ (App.running e = false ->
      ((App.hrValid e = 0 /\ App.heartRate e = 0)
       \/ (0 < App.hrValid e /\ 40 <= App.heartRate e <= 220))
      /\ ((App.spo2Valid e = 0 /\ App.spo2 e = 0)
          \/ (0 < App.spo2Valid e /\ 80 <= App.spo2 e <= 100))
      /\ In (App.status e) ["idle"; "Normal"; "Warning"; "Critical"]
      /\ (App.status e = "idle" <-> App.hrValid e = 0 /\ App.spo2Valid e = 0)
      /\ (App.status e = "Critical" ->  App.spo2 e < 90)
      /\ (App.status e = "Warning" -> 90 <= App.spo2 e)
      /\ (App.status e = "Normal" ->
          95 <= App.spo2 e /\ 60 <= App.heartRate e <= 100)).

(** *** Checks by enumeration *)

(** The quotient of a sum [a] of [n] accepted heart rates is positive, its
    integer part is an accepted heart rate and compares with 60 as the
    quotient does, and a quotient of at most 100 has an integer part of at
    most 100. *)
Definition hr_reported (n a : Z) : bool :=
  let x := F32.div (F32.of_int a) (F32.of_int n) in
  let z := F32.to_int x in
  negb ((40 * n <=? a) && (a <=? 220 * n))
  || ((40 <=? z) && (z <=? 220)
      && F32.gtb x (F32.of_int 0)
      && negb (F32.eqb x (F32.of_int 0))
      && Bool.eqb (F32.geb x (F32.of_int 60)) (60 <=? z)
      && implb (F32.leb x (F32.of_int 100)) (z <=? 100)).

(** The same for saturations, which are compared with 95 and 90. *)
Definition spo2_reported (n a : Z) : bool :=
  let x := F32.div (F32.of_int a) (F32.of_int n) in
  let z := F32.to_int x in
  negb ((80 * n <=? a) && (a <=? 100 * n))
  || ((80 <=? z) && (z <=? 100)
      && F32.gtb x (F32.of_int 0)
      && negb (F32.eqb x (F32.of_int 0))
      && Bool.eqb (F32.geb x (F32.of_int 95)) (95 <=? z)
      && Bool.eqb (F32.geb x (F32.of_int 90)) (90 <=? z)).

(** *** More concrete values *)

(** A name of 31 characters, and one of 40. *)
Definition name31 : string := "Bartholomew Featherstonehaugh 3".
Definition name40 : string := "Bartholomew Featherstonehaugh-Cholmondel".

(** A parser that finds the name [name40] in every body. *)
Definition parse_name40 (text : string) : option JsonDocument :=
  Some [("name", JsonString name40)].

(** A state whose stages are all recorded: heart rates of 72 and 75 bpm
    accepted in two of them, no saturation accepted. *)
Definition recorded_72_75 : State :=
  set_validHRCount 2
    (set_hrReadings [F32.of_int 72; F32.zero; F32.of_int 75; F32.zero; F32.zero]
       (globals begun)).

(** Snapshots: a completed session, and a running one. *)
Definition data_72_98 : App.ESPData := App.mkESPData 72 98 5 5 5 false "Normal".
Definition data_measuring : App.ESPData := App.mkESPData 0 0 2 1 5 true "measuring".

(** A property of the globals that is kept by whatever the firmware does
    around a call of [server.handleClient()], and in which a request can be
    served. *)
Definition Serviceable (deserializeJson : string -> option JsonDocument)
    (P : State -> Prop) : Prop :=
  (forall s, P s -> Sane s)
  /\ (forall r s, P s -> P (fst (route deserializeJson r s)))
  /\ (forall s i v, P s -> P (set_redBuffer (<[i := v]> (redBuffer s)) s))
  /\ (forall s i v, P s -> P (set_irBuffer (<[i := v]> (irBuffer s)) s))
  /\ (forall s t, P s -> P (set_statusMsg (snprintf 32 t) s))
  /\ (forall s v, P s -> P (set_lastDisplayMs v s))
  /\ (forall s v, P s -> P (set_hadFinger v s)).

(** ** A session that is left alone *)


(** A session is running and no cancellation is pending. *)
Definition Steady (s : State) : Prop :=
  running s = true /\ cancelRequested s = false.


(** An estimator that reports 100 bpm in the first stage and 101 bpm in
    the others, with a saturation of 98. *)
Definition estimate_100_101 (ir : list Z) (n : Z) (red : list Z) : Z * Z * Z * Z :=
  if n =? 50 then (98, 1, 100, 1) else (98, 1, 101, 1).

(** ** A device without its sensor *)

(** The end of [setup] when [sensor.begin] fails:
    [while (1) { server.handleClient(); yield(); delay(10); }], as the
    first [n] rounds of it. *)
Fixpoint sensorError (deserializeJson : string -> option JsonDocument) (env : Env)
    (n : nat) : M unit :=
  match n with
  | O => ret tt
  | S n =>
      handleClient deserializeJson env ;;
      yield ;;
      delay 10 ;;
      sensorError deserializeJson env n
  end.

(** The device when that loop is entered. *)
Definition no_sensor : Device :=
  mkDevice (set_statusMsg (snprintf 32 "ERROR: No sensor") power_on) 0 0 0 0 0 [].

(** ** The firmware watched while a loop has not returned *)

(** A computation of [M] is [None] when a loop has run out of fuel, and the
    device is lost with it.  The computations of [Trace.T] keep the device:
    [None] comes with the device as it is when a loop has made its [fuel]
    rounds, so with the responses sent up to then.  The loops are those of
    [Section Firmware], word for word. *)

Declare Scope trace_scope.

Module Trace.

Definition T (A : Type) : Type := Device -> option A * Device.

Definition ret {A} (a : A) : T A := fun d => (Some a, d).

Definition bind {A B} (m : T A) (k : A -> T B) : T B :=
  fun d => match m d with
           | (Some a, d') => k a d'
           | (None, d') => (None, d')
           end.

Notation "x <- m ;; k" := (bind m (fun x => k))
  (at level 100, m at next level, right associativity) : trace_scope.
Notation "m ;; k" := (bind m (fun _ => k))
  (at level 100, right associativity) : trace_scope.

Local Open Scope trace_scope.

(** A loop that has used up its iterations: the device stays. *)
Definition out_of_fuel {A} : T A := fun d => (None, d).

(** A computation of [M] that has no loop in it. *)
Definition call {A} (m : M A) : T A :=
  fun d => match m d with
           | Some (a, d') => (Some a, d')
           | None => (None, d)
           end.

Definition read {A} (f : State -> A) : T A := call (read f).
Definition assign (f : State -> State) : T unit := call (assign f).
Definition when (b : bool) (m : T unit) : T unit := if b then m else ret tt.
Definition millis : T Z := call millis.
Definition delay (ms : Z) : T unit := call (delay ms).
Definition sensor_check : T unit := call sensor_check.
Definition sensor_nextSample : T unit := call sensor_nextSample.
Definition yield : T unit := call yield.
Definition shouldRedisplay : T bool := call shouldRedisplay.

Section Firmware.

Variable deserializeJson : string -> option JsonDocument.
Variable maxim_heart_rate_and_oxygen_saturation :
  list Z -> Z -> list Z -> Z * Z * Z * Z.
Variable env : Env.

Definition handleClient : T unit := call (handleClient deserializeJson env).
Definition sensor_getIR : T Z := call (sensor_getIR env).
Definition sensor_getRed : T Z := call (sensor_getRed env).
Definition sensor_available : T bool := call (sensor_available env).
Definition fingerPresent : T bool := call (fingerPresent env).
Definition interrupted : T bool := call (interrupted env).

Fixpoint yieldFor_from (fuel : nat) (start ms : Z) : T unit :=
  match fuel with
  | O => out_of_fuel
  | S fuel =>
      now <- millis ;;
      if usub now start <? ms then
        handleClient ;;
        yield ;;
        delay 1 ;;
        yieldFor_from fuel start ms
      else ret tt
  end.

Definition yieldFor (fuel : nat) (ms : Z) : T unit :=
  start <- millis ;;
  yieldFor_from fuel start ms.

(** The one-second wait of [interruptibleCountdown]; [false] is its
    [return false]. *)
Fixpoint countdownSecond (fuel : nat) (t : Z) : T bool :=
  match fuel with
  | O => out_of_fuel
  | S fuel =>
      now <- millis ;;
      if usub now t <? 1000 then
        handleClient ;;
        yield ;;
        c <- read cancelRequested ;;
        if c then ret false
        else delay 1 ;; countdownSecond fuel t
      else ret true
  end.

Fixpoint interruptibleCountdown (fuel : nat) (seconds : nat) : T bool :=
  match seconds with
  | O => ret true
  | S i =>
      assign (set_statusMsg
                (snprintf 32 ("Starting in " ++ string_of_Z (Z.of_nat seconds) ++ "s"))) ;;
      t <- millis ;;
      go_on <- countdownSecond fuel t ;;
      if go_on then interruptibleCountdown fuel i else ret false
  end.

(** The wait for the next raw sample, [while (!sensor.available())];
    [false] is its [return false]. *)
Fixpoint awaitSample (fuel : nat) : T bool :=
  match fuel with
  | O => out_of_fuel
  | S fuel =>
      a <- sensor_available ;;
      if negb a then
        sensor_check ;;
        handleClient ;;
        yield ;;
        c <- read cancelRequested ;;
        if c then ret false else awaitSample fuel
      else ret true
  end.

(** The sample loop of [takeSingleReading], from sample [i] with [todo]
    samples to go; [false] is a [return false]. *)
Fixpoint collectSamples (fuel : nat) (i todo : nat) : T bool :=
  match todo with
  | O => ret true
  | S todo =>
      handleClient ;;
      yield ;;
      stop <- interrupted ;;
      if stop then ret false
      else
        ready <- awaitSample fuel ;;
        if negb ready then ret false
        else
          red <- sensor_getRed ;;
          assign (fun s => set_redBuffer (<[i := red]> (redBuffer s)) s) ;;
          ir <- sensor_getIR ;;
          assign (fun s => set_irBuffer (<[i := ir]> (irBuffer s)) s) ;;
          sensor_nextSample ;;
          collectSamples fuel (S i) todo
  end.

Definition takeSingleReading (fuel : nat) (idx : nat) : T bool :=
  let n := nth idx sampleCounts O in
  filled <- collectSamples fuel 0 n ;;
  if negb filled then ret false
  else
    assign (estimate maxim_heart_rate_and_oxygen_saturation n) ;;
    assign (storeReading idx) ;;
    ret true.

(** *** The loop *)

(** The stage loop of [loop], from stage [i] with [todo] stages to go;
    [false] is its [return] after an interrupted stage. *)
Fixpoint sampleStages (fuel : nat) (i todo : nat) : T bool :=
  match todo with
  | O => ret true
  | S todo =>
      assign (displaySampling (Z.of_nat i + 1) (Z.of_nat TOTAL_SAMPLES)) ;;
      handleClient ;;
      taken <- takeSingleReading fuel i ;;
      if negb taken then
        assign resetMeasurement ;;
        assign displayIdle ;;
        ret false
      else
        handleClient ;;
        yieldFor fuel 300 ;;
        sampleStages fuel (S i) todo
  end.

(** [while (millis() < showUntil)]. *)
Fixpoint showResults (fuel : nat) (showUntil : Z) : T unit :=
  match fuel with
  | O => out_of_fuel
  | S fuel =>
      now <- millis ;;
      if now <? showUntil then
        handleClient ;;
        yield ;;
        delay 10 ;;
        showResults fuel showUntil
      else ret tt
  end.

(** The greeting and countdown of a finger newly placed; [false] is the
    [return] after a cancelled countdown. *)
Definition greet (fuel : nat) : T bool :=
  h <- read hadFinger ;;
  if negb h then
    assign (set_hadFinger true) ;;
    assign displayGreeting ;;
    yieldFor fuel 800 ;;
    counted <- interruptibleCountdown fuel 3 ;;
    if negb counted then
      assign resetMeasurement ;;
      assign displayIdle ;;
      ret false
    else ret true
  else ret true.

(** From [calculateAverages()] to the end of [loop]. *)
Definition complete (fuel : nat) : T unit :=
  assign calculateAverages ;;
  assign (set_running false) ;;
  assign displayResults ;;
  now <- millis ;;
  showResults fuel ((now + 10000) mod 2 ^ 32) ;;
  assign (set_patientName EmptyString) ;;
  assign displayIdle.

(** [loop] down to its stage loop; [false] is a [return]. *)
Definition measure (fuel : nat) : T bool :=
  handleClient ;;
  yield ;;
  r <- read running ;;
  if negb r then
    b <- shouldRedisplay ;;
    when b (assign displayIdle) ;;
    delay 10 ;;
    ret false
  else
    c <- read cancelRequested ;;
    if c then
      assign resetMeasurement ;;
      assign displayIdle ;;
      ret false
    else
      p <- fingerPresent ;;
      if negb p then
        assign (set_hadFinger false) ;;
        b <- shouldRedisplay ;;
        when b (assign displayNoFinger) ;;
        handleClient ;;
        delay 10 ;;
        ret false
      else
        go_on <- greet fuel ;;
        if negb go_on then ret false
        else sampleStages fuel 0 TOTAL_SAMPLES.

Definition loop (fuel : nat) : T unit :=
  measured <- measure fuel ;;
  if negb measured then ret tt
  else complete fuel.

(** [loop()] called [n] times in a row, as the Arduino core does. *)
Fixpoint loops (fuel : nat) (n : nat) : T unit :=
  match n with
  | O => ret tt
  | S n => loop fuel ;; loops fuel n
  end.

End Firmware.

End Trace.

(** Every response sent so far is an [Answer]. *)
Definition Log (deserializeJson : string -> option JsonDocument) (d : Device) : Prop :=
  Forall (Answer deserializeJson) (sent d).

(** From a device that satisfies [P] the computation returns some [a] with
    a device that satisfies [Q a], or it has not returned and every response
    sent so far is an [Answer]. *)
Definition watched (deserializeJson : string -> option JsonDocument)
    (P : Device -> Prop) {A} (t : Trace.T A) (Q : A -> Device -> Prop) : Prop :=
  forall d, P d ->
    match t d with
    | (Some a, d') => Q a d'
    | (None, d') => Log deserializeJson d'
    end.

(** Where the computation of [M] returns, the one of [Trace.T] returns the
    same; where it does not, neither does the other. *)
Definition agrees {A} (m : M A) (t : Trace.T A) : Prop :=
  forall d,
    match m d with
    | Some (a, d') => t d = (Some a, d')
    | None => fst (t d) = None
    end.

(** A sensor that never has a sample, with a finger on it; the requests of
    [l] arrive as in [finger_on]. *)
Definition sensor_stalled (l : list (Z * Request)) : Env :=
  mkEnv (client (finger_on l)) (latency (finger_on l)) (getIR (finger_on l))
    (getRed (finger_on l)) (fun _ => false).
(** ** Properties of the handlers *)

Lemma of_int_0 : F32.of_int 0 = F32.zero.
Proof. reflexivity. Qed.

Lemma classification_status (s : State) :
  running s = false ->
  F32.eqb (avgHR s) (F32.of_int 0) && F32.eqb (avgSpO2 s) (F32.of_int 0) = false ->
  handleJSON_status s = classification (avgHR s) (avgSpO2 s).
Proof.
  intros Hrun Hnz. unfold handleJSON_status, classification.
  rewrite Hrun. cbn [negb andb]. cbn [andb] in Hnz. rewrite Hnz.
  unfold F32.geb, F32.leb.
  destruct (SFleb (F32.of_int 95) (avgSpO2 s)),
           (SFleb (F32.of_int 60) (avgHR s)),
           (SFleb (avgHR s) (F32.of_int 100)); reflexivity.
Qed.

(** C1: in a non-running state where the averages are not both zero the
    snapshot's status is the three-way classification of the averages;
    (72, 98) is "Normal", (72, 92) and (110, 97) are "Warning". *)
Theorem status_is_classification (s : State)
    (Hidle : running s = false)
    (Hdata : F32.eqb (avgHR s) (F32.of_int 0)
             && F32.eqb (avgSpO2 s) (F32.of_int 0) = false) :
  handleJSON_status s = classification (avgHR s) (avgSpO2 s)
  /\ (avgHR s = F32.of_int 72 -> avgSpO2 s = F32.of_int 98 ->
      handleJSON_status s = "Normal")
  /\ (avgHR s = F32.of_int 72 -> avgSpO2 s = F32.of_int 92 ->
      handleJSON_status s = "Warning")
  /\ (avgHR s = F32.of_int 110 -> avgSpO2 s = F32.of_int 97 ->
      handleJSON_status s = "Warning").
Proof.
  pose proof (classification_status s Hidle Hdata) as H.
  repeat split; [exact H | | | ];
    intros Hhr Hsp; rewrite H, Hhr, Hsp; reflexivity.
Qed.

(** C2, as the firmware has it: the snapshot says "measuring" whenever a
    session is running, "idle" exactly when none is running and both
    averages are zero, and the three-way classification otherwise. *)
Theorem status_cases (s : State) :
  (running s = true -> handleJSON_status s = "measuring")
  /\ (handleJSON_status s = "idle" <->
      running s = false
      /\ F32.eqb (avgHR s) (F32.of_int 0) = true
      /\ F32.eqb (avgSpO2 s) (F32.of_int 0) = true)
  /\ (running s = false ->
      F32.eqb (avgHR s) (F32.of_int 0) && F32.eqb (avgSpO2 s) (F32.of_int 0) = false ->
      handleJSON_status s = classification (avgHR s) (avgSpO2 s)).
Proof.
  split; [| split].
  - intros Hrun. unfold handleJSON_status. rewrite Hrun. reflexivity.
  - unfold handleJSON_status, F32.geb, F32.leb.
    destruct (running s); cbn [negb andb].
    + split; [discriminate | intros [H _]; discriminate].
    + destruct (F32.eqb (avgHR s) (F32.of_int 0)); cbn [andb].
      * destruct (F32.eqb (avgSpO2 s) (F32.of_int 0)).
        -- split; auto.
        -- split; [| intros (_ & _ & H); discriminate].
           destruct (SFleb (F32.of_int 95) (avgSpO2 s) && SFleb (F32.of_int 60) (avgHR s)
                     && SFleb (avgHR s) (F32.of_int 100)); [discriminate |].
           destruct (SFleb (F32.of_int 90) (avgSpO2 s)); discriminate.
      * split; [| intros (_ & H & _); discriminate].
        destruct (SFleb (F32.of_int 95) (avgSpO2 s) && SFleb (F32.of_int 60) (avgHR s)
                  && SFleb (avgHR s) (F32.of_int 100)); [discriminate |].
        destruct (SFleb (F32.of_int 90) (avgSpO2 s)); discriminate.
  - apply classification_status.
Qed.

Lemma statusLabel_classification (s : State) :
  displayResults_statusLabel s = classification (avgHR s) (avgSpO2 s).
Proof.
  unfold displayResults_statusLabel, classification, F32.geb, F32.leb.
  destruct (SFleb (F32.of_int 95) (avgSpO2 s)),
           (SFleb (F32.of_int 60) (avgHR s)),
           (SFleb (avgHR s) (F32.of_int 100)); reflexivity.
Qed.

(** C10: for every pair of averages the three-way label of the snapshot
    handler and the label of the result display are equal, the pair (0, 0)
    included, and both are the three-way classification.  The handler's
    status is "idle", "measuring" or that label, the display writes its
    label to the status line, and whenever the handler reports one of the
    three labels it is the one the display shows. *)
Theorem display_label_matches_status (s : State) :
  handleJSON_label s = displayResults_statusLabel s
  /\ handleJSON_label s = classification (avgHR s) (avgSpO2 s)
  /\ handleJSON_status s
     = (if negb (running s) && F32.eqb (avgHR s) (F32.of_int 0)
           && F32.eqb (avgSpO2 s) (F32.of_int 0)
        then "idle"
        else if running s then "measuring"
        else handleJSON_label s)
  /\ statusMsg (displayResults s) = displayResults_statusLabel s
  /\ (In (handleJSON_status s) ["Normal"; "Warning"; "Critical"] ->
      handleJSON_status s = displayResults_statusLabel s).
Proof.
  assert (Hstatus : handleJSON_status s
                    = (if negb (running s) && F32.eqb (avgHR s) (F32.of_int 0)
                          && F32.eqb (avgSpO2 s) (F32.of_int 0)
                       then "idle"
                       else if running s then "measuring"
                       else handleJSON_label s)) by reflexivity.
  assert (Hlabel : handleJSON_label s = displayResults_statusLabel s) by reflexivity.
  split; [exact Hlabel |].
  split; [rewrite Hlabel; apply statusLabel_classification |].
  split; [exact Hstatus |].
  split.
  - unfold displayResults. cbn [statusMsg set_statusMsg].
    rewrite statusLabel_classification. unfold classification.
    destruct (F32.leb (F32.of_int 95) (avgSpO2 s)
              && (F32.leb (F32.of_int 60) (avgHR s) && F32.leb (avgHR s) (F32.of_int 100)));
      [reflexivity |].
    destruct (F32.leb (F32.of_int 90) (avgSpO2 s)); reflexivity.
  - rewrite Hstatus.
    destruct (negb (running s) && F32.eqb (avgHR s) (F32.of_int 0)
              && F32.eqb (avgSpO2 s) (F32.of_int 0)).
    + cbn. intros [H | [H | [H | []]]]; discriminate H.
    + destruct (running s); [| intros _; exact Hlabel].
      cbn. intros [H | [H | [H | []]]]; discriminate H.
Qed.

(** The C cast truncates. *)
Lemma to_int_truncation (x : float) :
  F32.is_finite x = true -> truncation (F32.to_Q x) (F32.to_int x).
Proof.
  destruct x as [s | s | | s m e]; try discriminate; intros _.
  - unfold truncation, Qle, Qlt. cbn. lia.
  - unfold F32.to_Q, F32.to_int.
    destruct e as [| p | p].
    + unfold truncation, Qle, Qlt. destruct s; cbn; lia.
    + assert (Hpow : 0 < 2 ^ Z.pos p) by (apply Z.pow_pos_nonneg; lia).
      unfold truncation, Qle, Qlt. destruct s; cbn -[Z.pow]; nia.
    + assert (Hpow : Z.pos (2 ^ p) = 2 ^ Z.pos p) by (now rewrite Pos2Z.inj_pow).
      assert (Hpos : 0 < 2 ^ Z.pos p) by (apply Z.pow_pos_nonneg; lia).
      pose proof (Z.quot_rem' (Z.pos m) (2 ^ Z.pos p)) as Hqr.
      pose proof (Z.rem_bound_pos (Z.pos m) (2 ^ Z.pos p) ltac:(lia) Hpos) as Hr.
      unfold truncation, Qle, Qlt.
      destruct s; cbn -[Z.pow Z.quot Pos.pow]; rewrite ?Hpow; nia.
Qed.

Lemma append_assoc (a b c : string) : ((a ++ b) ++ c)%string = (a ++ (b ++ c))%string.
Proof. induction a as [| x a IH]; cbn; [reflexivity | now rewrite IH]. Qed.

Lemma status_values (s : State) :
  In (handleJSON_status s) ["idle"; "measuring"; "Normal"; "Warning"; "Critical"].
Proof.
  unfold handleJSON_status.
  destruct (negb (running s) && F32.eqb (avgHR s) (F32.of_int 0)
            && F32.eqb (avgSpO2 s) (F32.of_int 0)); [cbn; auto |].
  destruct (running s); [cbn; auto |].
  destruct (F32.geb (avgSpO2 s) (F32.of_int 95) && F32.geb (avgHR s) (F32.of_int 60)
            && F32.leb (avgHR s) (F32.of_int 100)); [cbn; auto |].
  destruct (F32.geb (avgSpO2 s) (F32.of_int 90)); cbn; auto 6.
Qed.

(** C9, as the firmware has it: the snapshot is the object with the fields
    heartRate and spo2 (the averages cut to their integer part by the C
    cast, not rounded), hrValid and spo2Valid (the counters), totalSamples
    (5), running and status, in this order and no others; the status is one
    of the five labels; the globals are returned as they were. *)
Theorem snapshot_fields_and_frame (s : State) :
  handleJSON s =
    (s, mkResponse 200 addCORS "application/json"
          (render_object
             [("heartRate", JInt (F32.to_int (avgHR s)));
              ("spo2", JInt (F32.to_int (avgSpO2 s)));
              ("hrValid", JInt (validHRCount s));
              ("spo2Valid", JInt (validSpO2Count s));
              ("totalSamples", JInt 5);
              ("running", JBool (running s));
              ("status", JText (handleJSON_status s))]))
  /\ In (handleJSON_status s) ["idle"; "measuring"; "Normal"; "Warning"; "Critical"]
  /\ (F32.is_finite (avgHR s) = true ->
      truncation (F32.to_Q (avgHR s)) (F32.to_int (avgHR s)))
  /\ (F32.is_finite (avgSpO2 s) = true ->
      truncation (F32.to_Q (avgSpO2 s)) (F32.to_int (avgSpO2 s))).
Proof.
  split; [| split; [apply status_values | split; apply to_int_truncation]].
  unfold handleJSON, handleJSON_json, render_object, render_fields, render_field,
    render_value. cbn [fst snd].
  do 2 f_equal.
  rewrite !append_assoc. cbn. reflexivity.
Qed.

Section BeginProperties.

Variable deserializeJson : string -> option JsonDocument.

Lemma acknowledgement_text : acknowledgement = mkResponse 200 addCORS "application/json" ok_json.
Proof. reflexivity. Qed.

(** C6: a Begin request that finds a session running changes no global
    and is acknowledged; one that finds none running is acknowledged too,
    and leaves a running session with cleared flags, counters, averages
    and readings, named by the label of the request body. *)
Theorem begin_request (body : option string) (s : State) :
  (running s = true -> handleStart deserializeJson body s = (s, acknowledgement))
  /\ (running s = false ->
      let s' := fst (handleStart deserializeJson body s) in
      snd (handleStart deserializeJson body s) = acknowledgement
      /\ patientName s' = label_of deserializeJson body
      /\ running s' = true
      /\ hadFinger s' = false
      /\ cancelRequested s' = false
      /\ validHRCount s' = 0
      /\ validSpO2Count s' = 0
      /\ avgHR s' = F32.zero
      /\ avgSpO2 s' = F32.zero
      /\ hrReadings s' = replicate TOTAL_SAMPLES F32.zero
      /\ spo2Readings s' = replicate TOTAL_SAMPLES F32.zero).
Proof.
  split; intros Hrun; unfold handleStart; rewrite Hrun; cbn [negb].
  - reflexivity.
  - cbn [fst snd]. split; [reflexivity |].
    split; [| repeat split].
    unfold label_of, containsKey, as_c_string, strlcpy.
    destruct body as [text |]; [| reflexivity].
    destruct (deserializeJson text) as [doc |]; [| reflexivity].
    destruct (member doc "name") as [[v |] |]; reflexivity.
Qed.

End BeginProperties.

(** ** Runs on concrete environments *)

(** C2 as stated fails: a session that ran all five stages with every
    reading rejected has completed, none is active afterwards, and the
    snapshot still says "idle". *)
Lemma idle_after_completed_session :
  let run :=
    (sampled <- sampleStages parse_ann estimate_nothing (finger_on []) fuel 0 TOTAL_SAMPLES ;;
     complete parse_ann (finger_on []) fuel ;;
     ret sampled) begun in
  result run = Some true
  /\ running <$> final run = Some false
  /\ handleJSON_status <$> final run = Some "idle"
  /\ replies (loop parse_ann estimate_nothing
                (finger_on [(0, post_start); (380, get_data)]) fuel booted)
     = Some [ok_json; snapshot 0 0 0 0 false "idle"].
Proof. vm_compute. repeat split. Qed.

(** C9 as stated fails: heart rates of 72, 73, 73 and 73 bpm average to
    72.75, whose nearest integer is 73, and the snapshot shows 72. *)
Lemma snapshot_truncates :
  let run :=
    loop parse_ann estimate_by_stage
      (finger_on [(0, post_start); (380, get_data)]) fuel booted in
  avgHR <$> final run = Some (F32.div (F32.of_int 291) (F32.of_int 4))
  /\ (fun s => F32.nearest_int (avgHR s)) <$> final run = Some 73
  /\ replies run = Some [ok_json; snapshot 72 98 4 4 false "Normal"].
Proof. vm_compute. repeat split. Qed.

(** C5 fails on the firmware: a Cancel serviced in the 300 ms that follow
    the last stage (the snapshot before it shows five valid readings, a
    running session and no average yet) is never looked at; the session
    completes with its averages, the counters keep their values and the
    flag stays set.  With 400 ms spent in each [handleClient], call 0 is the
    one at the top of [loop], calls 1-2 the greeting, 3-11 the countdown,
    12-283 the first four stages (window + 3 calls each), 284 opens the
    fifth stage, 285-374 are its ninety samples, 375 is the call after
    [takeSingleReading(4)] and 376 the one iteration of [yieldFor(300)]. *)
Lemma late_cancel_completes :
  let run :=
    loop parse_ann estimate_72_98
      (finger_on [(0, post_start); (375, get_data); (376, post_cancel)])
      fuel booted in
  replies run = Some [ok_json; snapshot 0 0 5 5 true "measuring"; ok_json]
  /\ running <$> final run = Some false
  /\ cancelRequested <$> final run = Some true
  /\ validHRCount <$> final run = Some 5
  /\ validSpO2Count <$> final run = Some 5
  /\ avgHR <$> final run = Some (F32.of_int 72)
  /\ avgSpO2 <$> final run = Some (F32.of_int 98)
  /\ handleJSON_status <$> final run = Some "Normal".
Proof. vm_compute. repeat split. Qed.

(** C7 as stated fails: a Cancel serviced while the result is held (no
    session running, as the snapshot before it shows; calls 377-401 of
    [handleClient] are those of the hold) is still pending when [loop] has
    gone back to the idle screen, and three idle passes later. *)
Lemma cancel_outlives_return_to_idle :
  let e := finger_on [(0, post_start); (380, get_data); (381, post_cancel)] in
  let run := loop parse_ann estimate_72_98 e fuel booted in
  let later := loops parse_ann estimate_72_98 e fuel 4 booted in
  replies run = Some [ok_json; snapshot 72 98 5 5 false "Normal"; ok_json]
  /\ running <$> final run = Some false
  /\ statusMsg <$> final run = Some "Idle"
  /\ cancelRequested <$> final run = Some true
  /\ running <$> final later = Some false
  /\ cancelRequested <$> final later = Some true.
Proof. vm_compute. repeat split. Qed.

(** ** binary32 facts, by enumeration *)

Lemma same_eq (x y : float) : F32.same x y = true -> x = y.
Proof.
  destruct x as [a | a | | a m e], y as [b | b | | b n f]; cbn; try discriminate.
  - now intros ->%Bool.eqb_prop.
  - now intros ->%Bool.eqb_prop.
  - reflexivity.
  - intros H. apply andb_prop in H as [H He]. apply andb_prop in H as [Hs Hm].
    apply Bool.eqb_prop in Hs. apply Pos.eqb_eq in Hm. apply Z.eqb_eq in He.
    now subst.
Qed.

Lemma upto_In (n : nat) : forall lo z, lo <= z < lo + Z.of_nat n -> In z (upto lo n).
Proof.
  induction n as [| n IH]; intros lo z Hz; [lia |].
  cbn [upto]. destruct (Z.eq_dec lo z) as [-> | Hne]; [now left |].
  right. apply IH. lia.
Qed.

Lemma reading_exact_ok (v : Z) : 40 <= v <= 220 -> reading_exact v = true.
Proof.
  assert (H : forallb reading_exact (upto 40 181) = true) by (vm_compute; reflexivity).
  intros Hv. rewrite forallb_forall in H. apply H, upto_In. lia.
Qed.

Lemma add_exact_ok (a b : Z) :
  0 <= a <= 880 -> 40 <= b <= 220 ->
  F32.add (F32.of_int a) (F32.of_int b) = F32.of_int (a + b).
Proof.
  assert (H : forallb (fun a => forallb (add_exact a) (upto 40 181)) (upto 0 881) = true)
    by (vm_compute; reflexivity).
  intros Ha Hb. rewrite forallb_forall in H.
  assert (Hin : In a (upto 0 881)) by (apply upto_In; lia).
  specialize (H a Hin). cbv beta in H. rewrite forallb_forall in H.
  apply same_eq, H, upto_In. lia.
Qed.

Lemma div_rounds_ok (n a : Z) :
  1 <= n <= 5 -> 40 <= a <= 1100 -> div_rounds n a = true.
Proof.
  assert (H : forallb (fun n => forallb (div_rounds n) (upto 40 1061)) (upto 1 5) = true)
    by (vm_compute; reflexivity).
  intros Hn Ha. rewrite forallb_forall in H.
  assert (Hin : In n (upto 1 5)) by (apply upto_In; lia).
  specialize (H n Hin). cbv beta in H. rewrite forallb_forall in H.
  apply H, upto_In. lia.
Qed.

(** ** The readings of a stage and their average *)

Lemma int_incr_small (n : Z) : - 2 ^ 31 <= n < 2 ^ 31 - 1 -> int_incr n = n + 1.
Proof. intros Hn. unfold int_incr. rewrite Z.mod_small by lia. lia. Qed.

Lemma take_insert_new {A} (l : list A) (i : nat) (x : A) :
  (i < length l)%nat -> take (S i) (<[i := x]> l) = (take i l ++ [x])%list.
Proof.
  intros Hi. rewrite (take_S_r _ _ x) by (now apply list_lookup_insert_eq).
  now rewrite take_insert_ge by lia.
Qed.

Lemma accepted_app (l : list float) (x : float) :
  accepted (l ++ [x])%list
  = (accepted l ++ if positive_reading x then [F32.to_int x] else [])%list.
Proof.
  unfold accepted. rewrite List.filter_app, List.map_app. cbn [List.filter].
  now destruct (positive_reading x).
Qed.

Lemma accepted_sentinel (l : list float) :
  accepted (l ++ [F32.of_int 0])%list = accepted l.
Proof. rewrite accepted_app. cbn. now rewrite app_nil_r. Qed.

Lemma accepted_reading (l : list float) (v : Z) :
  40 <= v <= 220 -> accepted (l ++ [F32.of_int v])%list = (accepted l ++ [v])%list.
Proof.
  intros Hv. rewrite accepted_app.
  pose proof (reading_exact_ok v Hv) as H. unfold reading_exact in H.
  apply andb_prop in H as [-> ->%Z.eqb_eq]. reflexivity.
Qed.

Lemma length_accepted (l : list float) : (length (accepted l) <= length l)%nat.
Proof.
  unfold accepted. rewrite length_map. induction l as [| r l IH]; cbn; [lia |].
  destruct (positive_reading r); cbn; lia.
Qed.

(** One metric of one stage: what the filter stores at index [i], and what
    it does to the counter. *)
Lemma store_metric (lo hi : Z) (i : nat) (l : list float) (c valid v : Z) :
  40 <= lo -> hi <= 220 -> (i < length l)%nat -> (length l <= 5)%nat ->
  Forall (reading_of lo hi) (take i l) ->
  c = Z.of_nat (length (accepted (take i l))) ->
  let ok := negb (valid =? 0) && (v >=? lo) && (v <=? hi) in
  let l' := <[i := if ok then F32.of_int v else F32.of_int 0]> l in
  let c' := if ok then int_incr c else c in
  Forall (reading_of lo hi) (take (S i) l')
  /\ c' = Z.of_nat (length (accepted (take (S i) l'))).
Proof.
  intros Hlo Hhi Hi Hlen Hall Hc ok l' c'. subst l' c'.
  rewrite take_insert_new by assumption.
  pose proof (length_accepted (take i l)) as Hle.
  rewrite length_take in Hle.
  destruct ok eqn:Hok; subst ok.
  - apply andb_prop in Hok as [Hok Hv2]. apply andb_prop in Hok as [_ Hv1].
    assert (Hv : lo <= v <= hi) by lia.
    split.
    + apply Forall_app. split; [assumption |].
      constructor; [| constructor]. right. now exists v.
    + rewrite accepted_reading by lia. rewrite length_app. cbn [length].
      rewrite int_incr_small by lia. lia.
  - split.
    + apply Forall_app. split; [assumption |].
      constructor; [| constructor]. now left.
    + now rewrite accepted_sentinel.
Qed.

Lemma storeReading_Recorded (i : nat) (s : State) :
  (i < TOTAL_SAMPLES)%nat -> Recorded i s -> Recorded (S i) (storeReading i s).
Proof.
  intros Hi (Hrun & Hl1 & Hl2 & Hf1 & Hf2 & Hc1 & Hc2).
  unfold TOTAL_SAMPLES in *.
  destruct (store_metric 40 220 i (hrReadings s) (validHRCount s) (hrValid s) (heartRate s))
    as [Ha1 Ha2]; try lia; try assumption.
  destruct (store_metric 80 100 i (spo2Readings s) (validSpO2Count s) (spo2Valid s) (spo2 s))
    as [Hb1 Hb2]; try lia; try assumption.
  unfold storeReading, Recorded.
  destruct (negb (hrValid s =? 0) && (heartRate s >=? 40) && (heartRate s <=? 220));
    cbn -[take accepted F32.of_int int_incr];
    destruct (negb (spo2Valid s =? 0) && (spo2 s >=? 80) && (spo2 s <=? 100));
    cbn -[take accepted F32.of_int int_incr];
    rewrite ?length_insert; repeat split; assumption.
Qed.

Lemma accepted_cons_sentinel (l : list float) : accepted (F32.zero :: l) = accepted l.
Proof. reflexivity. Qed.

Lemma accepted_cons_reading (v : Z) (l : list float) :
  40 <= v <= 220 -> accepted (F32.of_int v :: l) = v :: accepted l.
Proof.
  intros Hv. pose proof (reading_exact_ok v Hv) as H. unfold reading_exact in H.
  apply andb_prop in H as [Hpos Hint%Z.eqb_eq].
  unfold accepted. cbn [List.filter]. rewrite Hpos. cbn [map]. now rewrite Hint.
Qed.

Lemma accepted_bounds (lo hi : Z) (l : list float) :
  40 <= lo -> hi <= 220 -> Forall (reading_of lo hi) l ->
  lo * Z.of_nat (length (accepted l)) <= total (accepted l)
  <= hi * Z.of_nat (length (accepted l)).
Proof.
  intros Hlo Hhi Hall. induction Hall as [| r l [-> | (v & Hv & ->)] _ IH].
  - cbn. lia.
  - now rewrite accepted_cons_sentinel.
  - rewrite accepted_cons_reading by lia. cbn [total fold_right length].
    fold (total (accepted l)). lia.
Qed.

(** The summing loop adds up the accepted readings, exactly. *)
Lemma sum_readings (lo hi : Z) (l : list float) :
  40 <= lo -> hi <= 220 -> Forall (reading_of lo hi) l ->
  forall a, 0 <= a -> a + 220 * Z.of_nat (length l) <= 1100 ->
  fold_left (fun sum r => if F32.gtb r (F32.of_int 0) then F32.add sum r else sum)
    l (F32.of_int a)
  = F32.of_int (a + total (accepted l)).
Proof.
  intros Hlo Hhi Hall. induction Hall as [| r l [-> | (v & Hv & ->)] _ IH];
    intros a Ha Hroom.
  - cbn. now rewrite Z.add_0_r.
  - rewrite accepted_cons_sentinel. cbn [fold_left].
    change (F32.gtb F32.zero (F32.of_int 0)) with false. cbn iota.
    apply IH; [assumption |]. cbn [length] in Hroom. lia.
  - rewrite accepted_cons_reading by lia. cbn [fold_left length] in *.
    pose proof (reading_exact_ok v ltac:(lia)) as H. unfold reading_exact in H.
    apply andb_prop in H as [Hpos _]. unfold positive_reading in Hpos.
    rewrite Hpos, add_exact_ok by lia.
    rewrite IH by lia. cbn [total fold_right]. fold (total (accepted l)).
    f_equal. lia.
Qed.

Lemma sumPositive_total (lo hi : Z) (l : list float) :
  40 <= lo -> hi <= 220 -> length l = TOTAL_SAMPLES -> Forall (reading_of lo hi) l ->
  sumPositive l = F32.of_int (total (accepted l)).
Proof.
  intros Hlo Hhi Hlen Hall. unfold sumPositive.
  rewrite take_ge by lia.
  rewrite (sum_readings lo hi l Hlo Hhi Hall 0) by (unfold TOTAL_SAMPLES in *; lia).
  reflexivity.
Qed.

(** The average of one metric after the last stage. *)
Lemma average_of_readings (lo hi : Z) (l : list float) (c : Z) :
  40 <= lo -> hi <= 220 -> length l = TOTAL_SAMPLES -> Forall (reading_of lo hi) l ->
  c = Z.of_nat (length (accepted l)) ->
  let avg := if c >? 0 then F32.div (sumPositive l) (F32.of_int c) else F32.of_int 0 in
  (c = 0 -> avg = F32.zero)
  /\ (0 < c -> avg = F32.div (F32.of_int (total (accepted l))) (F32.of_int c)
               /\ rounds (mean (accepted l)) avg)
  /\ (F32.eqb avg (F32.of_int 0) = true <-> c = 0).
Proof.
  intros Hlo Hhi Hlen Hall Hc avg.
  pose proof (length_accepted l) as Hle. rewrite Hlen in Hle. unfold TOTAL_SAMPLES in Hle.
  pose proof (accepted_bounds lo hi l Hlo Hhi Hall) as Hb.
  destruct (Z.eq_dec c 0) as [Hz | Hnz].
  - subst avg. rewrite Hz. cbn. repeat split; try reflexivity; lia.
  - assert (Hpos : 0 < c) by lia.
    assert (Hgt : (c >? 0) = true) by lia.
    subst avg. rewrite Hgt.
    rewrite (sumPositive_total lo hi l Hlo Hhi Hlen Hall).
    pose proof (div_rounds_ok c (total (accepted l)) ltac:(lia) ltac:(nia)) as H.
    unfold div_rounds in H.
    apply andb_prop in H as [H Hq]. apply andb_prop in H as [Hfin Hne].
    apply negb_true_iff in Hne. apply Qle_bool_iff in Hq.
    split; [lia |]. split.
    + intros _. split; [reflexivity |]. split; [exact Hfin |].
      unfold mean. rewrite <- Hc. exact Hq.
    + rewrite Hne. split; [discriminate | lia].
Qed.

(** ** Reasoning about device computations *)

Lemma bind_inv {A B} (m : M A) (k : A -> M B) (d d' : Device) (b : B) :
  bind m k d = Some (b, d') ->
  exists a d1, m d = Some (a, d1) /\ k a d1 = Some (b, d').
Proof.
  unfold bind. destruct (m d) as [[a d1] |]; [| discriminate].
  intros H. now exists a, d1.
Qed.

Lemma keeps_ret (P : State -> Prop) {A} (a : A) : keeps P (ret a).
Proof. intros d x d' HP [= _ <-]. exact HP. Qed.

Lemma keeps_bind (P : State -> Prop) {A B} (m : M A) (k : A -> M B) :
  keeps P m -> (forall a, keeps P (k a)) -> keeps P (bind m k).
Proof.
  intros Hm Hk d b d' HP H. apply bind_inv in H as (a & d1 & H1 & H2).
  exact (Hk a d1 b d' (Hm d a d1 HP H1) H2).
Qed.

Lemma keeps_read (P : State -> Prop) {A} (f : State -> A) : keeps P (read f).
Proof. intros d x d' HP [= _ <-]. exact HP. Qed.

Lemma keeps_assign (P : State -> Prop) (f : State -> State) :
  (forall s, P s -> P (f s)) -> keeps P (assign f).
Proof. intros Hf d x d' HP [= _ <-]. cbn. now apply Hf. Qed.

Lemma keeps_millis (P : State -> Prop) : keeps P millis.
Proof. intros d x d' HP [= _ <-]. exact HP. Qed.

Lemma keeps_delay (P : State -> Prop) (ms : Z) : keeps P (delay ms).
Proof. intros d x d' HP [= _ <-]. exact HP. Qed.

Lemma keeps_out_of_fuel (P : State -> Prop) {A} : keeps P (@out_of_fuel A).
Proof. intros d x d' _ [=]. Qed.

Lemma keeps_sensor_getIR (P : State -> Prop) (env : Env) : keeps P (sensor_getIR env).
Proof. intros d x d' HP [= _ <-]. exact HP. Qed.

Lemma keeps_sensor_getRed (P : State -> Prop) (env : Env) : keeps P (sensor_getRed env).
Proof. intros d x d' HP [= _ <-]. exact HP. Qed.

Lemma keeps_sensor_available (P : State -> Prop) (env : Env) :
  keeps P (sensor_available env).
Proof. intros d x d' HP [= _ <-]. exact HP. Qed.

Lemma keeps_apply (P : State -> Prop) {A} (m : M A) (d d' : Device) (a : A) :
  m d = Some (a, d') -> P (globals d) -> keeps P m -> P (globals d').
Proof. intros H HP Hk. exact (Hk d a d' HP H). Qed.

(** One step through a computation, towards [keeps P]. *)
Ltac keeps_step :=
  first
    [ assumption
    | apply keeps_ret | apply keeps_read | apply keeps_millis | apply keeps_delay
    | apply keeps_out_of_fuel
    | apply keeps_sensor_getIR | apply keeps_sensor_getRed
    | apply keeps_sensor_available
    | apply keeps_bind; [| intros ?]
    | match goal with
      | |- keeps _ (if ?b then _ else _) => destruct b
      end ].

Lemma handleClient_total deserializeJson env (d : Device) :
  exists d', handleClient deserializeJson env d = Some (tt, d').
Proof.
  unfold handleClient. destruct (client env (clientCalls d)) as [r |].
  - destruct (route deserializeJson r _) as [s resp]. now eexists.
  - now eexists.
Qed.

(** *** What servicing and sampling leave alone *)

Section Serviced.

Variable deserializeJson : string -> option JsonDocument.
Variable env : Env.

(** A property of the globals that no handler breaks and that does not
    look at the sample buffers. *)
Variable P : State -> Prop.
Hypothesis P_route : forall r s, P s -> P (fst (route deserializeJson r s)).
Hypothesis P_red : forall s v, P s -> P (set_redBuffer v s).
Hypothesis P_ir : forall s v, P s -> P (set_irBuffer v s).
Hypothesis P_status : forall s v, P s -> P (set_statusMsg v s).
Hypothesis P_last : forall s v, P s -> P (set_lastDisplayMs v s).

Lemma keeps_handleClient : keeps P (handleClient deserializeJson env).
Proof.
  intros d x d' HP. unfold handleClient.
  destruct (client env (clientCalls d)) as [r |].
  - pose proof (P_route r (globals d) HP) as Hr. cbn [globals with_clock with_clientCalls].
    destruct (route deserializeJson r (globals d)) as [s resp].
    intros [= _ <-]. exact Hr.
  - intros [= _ <-]. exact HP.
Qed.

Lemma keeps_yieldFor_from (fuel : nat) (start ms : Z) :
  keeps P (yieldFor_from deserializeJson env fuel start ms).
Proof.
  pose proof keeps_handleClient as Hc.
  induction fuel as [| fuel IH]; cbn [yieldFor_from]; unfold yield; repeat keeps_step.
Qed.

Lemma keeps_yieldFor (fuel : nat) (ms : Z) : keeps P (yieldFor deserializeJson env fuel ms).
Proof.
  pose proof (keeps_yieldFor_from fuel) as Hy. unfold yieldFor.
  keeps_step; [keeps_step | apply Hy].
Qed.

Lemma keeps_awaitSample (fuel : nat) : keeps P (awaitSample deserializeJson env fuel).
Proof.
  pose proof keeps_handleClient as Hc.
  induction fuel as [| fuel IH]; cbn [awaitSample];
    unfold yield, sensor_check; repeat keeps_step.
Qed.

Lemma keeps_interrupted : keeps P (interrupted env).
Proof. unfold interrupted, fingerPresent. repeat keeps_step. Qed.

Lemma keeps_collectSamples (fuel : nat) (todo : nat) :
  forall i, keeps P (collectSamples deserializeJson env fuel i todo).
Proof.
  pose proof keeps_handleClient as Hc.
  pose proof (keeps_awaitSample fuel) as Ha.
  pose proof keeps_interrupted as Hi.
  induction todo as [| todo IH]; intros i; cbn [collectSamples];
    unfold yield, sensor_nextSample; repeat keeps_step.
  - apply keeps_assign. intros s. apply P_red.
  - apply keeps_assign. intros s. apply P_ir.
  - apply IH.
Qed.

Lemma keeps_countdownSecond (fuel : nat) (t : Z) :
  keeps P (countdownSecond deserializeJson env fuel t).
Proof.
  pose proof keeps_handleClient as Hc.
  induction fuel as [| fuel IH]; cbn [countdownSecond]; unfold yield; repeat keeps_step.
Qed.

Lemma keeps_interruptibleCountdown (fuel seconds : nat) :
  keeps P (interruptibleCountdown deserializeJson env fuel seconds).
Proof.
  pose proof (keeps_countdownSecond fuel) as Hc.
  induction seconds as [| i IH]; cbn [interruptibleCountdown]; repeat keeps_step.
  - apply keeps_assign. intros s. apply P_status.
  - apply Hc.
Qed.

Lemma keeps_showResults (fuel : nat) (showUntil : Z) :
  keeps P (showResults deserializeJson env fuel showUntil).
Proof.
  pose proof keeps_handleClient as Hc.
  induction fuel as [| fuel IH]; cbn [showResults]; unfold yield; repeat keeps_step.
Qed.

Lemma keeps_shouldRedisplay : keeps P shouldRedisplay.
Proof.
  unfold shouldRedisplay. repeat keeps_step.
  apply keeps_assign. intros s. apply P_last.
Qed.

End Serviced.

(** While a session runs, a Begin changes nothing and a Cancel only raises
    the flag. *)
Lemma route_running (deserializeJson : string -> option JsonDocument)
    (P : State -> Prop) :
  (forall s, P s -> running s = true) ->
  (forall s, P s -> P (set_cancelRequested true s)) ->
  forall r s, P s -> P (fst (route deserializeJson r s)).
Proof.
  intros P_running P_cancel r s HP. unfold route.
  destruct (method r); try exact HP.
  - destruct (String.eqb (uri r) "/data"); exact HP.
  - destruct (String.eqb (uri r) "/start").
    + unfold handleStart. rewrite (P_running s HP). exact HP.
    + destruct (String.eqb (uri r) "/cancel"); [| exact HP].
      now apply P_cancel.
Qed.

(** The arrays keep their length whatever is serviced. *)
Lemma route_lengths (deserializeJson : string -> option JsonDocument)
    (r : Request) (s : State) :
  length (hrReadings s) = TOTAL_SAMPLES /\ length (spo2Readings s) = TOTAL_SAMPLES ->
  length (hrReadings (fst (route deserializeJson r s))) = TOTAL_SAMPLES
  /\ length (spo2Readings (fst (route deserializeJson r s))) = TOTAL_SAMPLES.
Proof.
  intros HP. unfold route.
  destruct (method r); try exact HP.
  - destruct (String.eqb (uri r) "/data"); exact HP.
  - destruct (String.eqb (uri r) "/start").
    + unfold handleStart. destruct (running s); cbn [negb fst]; [exact HP |].
      cbn. split; reflexivity.
    + destruct (String.eqb (uri r) "/cancel"); exact HP.
Qed.

Lemma takeSingleReading_inv deserializeJson maxim env (fuel idx : nat) (d d' : Device) (b : bool) :
  takeSingleReading deserializeJson maxim env fuel idx d = Some (b, d') ->
  let n := nth idx sampleCounts O in
  (b = false /\ collectSamples deserializeJson env fuel 0 n d = Some (false, d'))
  \/ (b = true /\ exists d1,
        collectSamples deserializeJson env fuel 0 n d = Some (true, d1)
        /\ d' = with_globals (storeReading idx (estimate maxim n (globals d1))) d1).
Proof.
  unfold takeSingleReading. cbv zeta. intros H.
  apply bind_inv in H as (filled & d1 & Hc & H).
  destruct filled; cbn [negb] in H.
  - right. unfold bind, assign, ret in H. injection H as <- <-. split; [reflexivity |].
    exists d1. split; [exact Hc | reflexivity].
  - left. injection H as <- <-. now split.
Qed.

(** ** One stage *)

Lemma storeReading_metrics (idx : nat) (s : State) :
  (idx < length (hrReadings s))%nat -> (idx < length (spo2Readings s))%nat ->
  let s' := storeReading idx s in
  metric_stored 40 220 (hrValid s) (heartRate s) (hrReadings s' !! idx)
    (validHRCount s) (validHRCount s')
  /\ metric_stored 80 100 (spo2Valid s) (spo2 s) (spo2Readings s' !! idx)
       (validSpO2Count s) (validSpO2Count s').
Proof.
  intros Hhr Hsp. unfold storeReading, metric_stored, accepts.
  destruct (negb (hrValid s =? 0) && (heartRate s >=? 40) && (heartRate s <=? 220)) eqn:E1;
    cbn -[F32.of_int int_incr];
    destruct (negb (spo2Valid s =? 0) && (spo2 s >=? 80) && (spo2 s <=? 100)) eqn:E2;
    cbn -[F32.of_int int_incr];
    rewrite !list_lookup_insert_eq by assumption;
    repeat split; try reflexivity; exfalso;
    repeat match goal with
      | E : (_ && _) = true |- _ => apply andb_prop in E as [? ?]
      | E : (_ && _) = false |- _ => apply andb_false_iff in E as [E | E]
      | E : negb _ = true |- _ => apply negb_true_iff in E
      | E : negb _ = false |- _ => apply negb_false_iff in E
      end; lia.
Qed.

Section StageProperties.

Variable deserializeJson : string -> option JsonDocument.
Variable maxim : list Z -> Z -> list Z -> Z * Z * Z * Z.
Variable env : Env.

Lemma keeps_lengths_collectSamples (fuel i todo : nat) :
  keeps (fun s => length (hrReadings s) = TOTAL_SAMPLES
                  /\ length (spo2Readings s) = TOTAL_SAMPLES)
    (collectSamples deserializeJson env fuel i todo).
Proof.
  apply keeps_collectSamples.
  - intros r s. apply route_lengths.
  - intros s v H. exact H.
  - intros s v H. exact H.
Qed.

(** C3: in every stage whose window fills, [takeSingleReading] returns
    [true] whatever the estimator says, and for each metric on its own: a
    heart rate with its validity flag set and a value in [40, 220] is stored
    at the stage's index and counted in [validHRCount], any other leaves the
    zero sentinel there and the counter as it was; the same for the
    saturation with [80, 100] and [validSpO2Count].  A stage whose window
    does not fill returns what the sample loop returned. *)
Theorem stage_filter (fuel idx : nat) (d : Device)
    (Hidx : (idx < TOTAL_SAMPLES)%nat)
    (Hhr : length (hrReadings (globals d)) = TOTAL_SAMPLES)
    (Hsp : length (spo2Readings (globals d)) = TOTAL_SAMPLES) :
  let n := nth idx sampleCounts O in
  match collectSamples deserializeJson env fuel 0 n d with
  | None => takeSingleReading deserializeJson maxim env fuel idx d = None
  | Some (false, d1) =>
      takeSingleReading deserializeJson maxim env fuel idx d = Some (false, d1)
  | Some (true, d1) =>
      let '(sp, spv, hr, hrv) :=
        maxim (irBuffer (globals d1)) (Z.of_nat n) (redBuffer (globals d1)) in
      exists s',
        takeSingleReading deserializeJson maxim env fuel idx d
        = Some (true, with_globals s' d1)
        /\ metric_stored 40 220 hrv hr (hrReadings s' !! idx)
             (validHRCount (globals d1)) (validHRCount s')
        /\ metric_stored 80 100 spv sp (spo2Readings s' !! idx)
             (validSpO2Count (globals d1)) (validSpO2Count s')
  end.
Proof.
  intros n. subst n. unfold takeSingleReading, bind.
  destruct (collectSamples deserializeJson env fuel 0 (nth idx sampleCounts O) d)
    as [[[|] d1] |] eqn:Hc; [| reflexivity | reflexivity].
  destruct (keeps_lengths_collectSamples fuel 0 _ d true d1 (conj Hhr Hsp) Hc)
    as [Hhr1 Hsp1].
  cbn [negb]. unfold assign, ret, estimate. cbn [globals with_globals].
  destruct (maxim (irBuffer (globals d1)) (Z.of_nat (nth idx sampleCounts O))
              (redBuffer (globals d1))) as [[[sp spv] hr] hrv].
  eexists. split; [reflexivity |].
  apply (storeReading_metrics idx (set_estimate sp spv hr hrv (globals d1)));
    cbn [hrReadings spo2Readings set_estimate]; unfold TOTAL_SAMPLES in *; lia.
Qed.

End StageProperties.

(** ** A full run *)

Section FullRun.

Variable deserializeJson : string -> option JsonDocument.
Variable maxim : list Z -> Z -> list Z -> Z * Z * Z * Z.
Variable env : Env.

Lemma Recorded_route (i : nat) (r : Request) (s : State) :
  Recorded i s -> Recorded i (fst (route deserializeJson r s)).
Proof.
  apply (route_running deserializeJson (Recorded i)).
  - now intros s' (H & _).
  - intros s' H. exact H.
Qed.

Lemma keeps_Recorded_handleClient (i : nat) :
  keeps (Recorded i) (handleClient deserializeJson env).
Proof. apply keeps_handleClient. apply Recorded_route. Qed.

Lemma keeps_Recorded_collectSamples (i fuel j todo : nat) :
  keeps (Recorded i) (collectSamples deserializeJson env fuel j todo).
Proof.
  apply keeps_collectSamples.
  - apply Recorded_route.
  - intros s v H. exact H.
  - intros s v H. exact H.
Qed.

Lemma keeps_Recorded_yieldFor (i fuel : nat) (ms : Z) :
  keeps (Recorded i) (yieldFor deserializeJson env fuel ms).
Proof. apply keeps_yieldFor. apply Recorded_route. Qed.

Lemma Recorded_estimate (i n : nat) (s : State) :
  Recorded i s -> Recorded i (estimate maxim n s).
Proof.
  intros H. unfold estimate.
  destruct (maxim (irBuffer s) (Z.of_nat n) (redBuffer s)) as [[[sp spv] hr] hrv].
  exact H.
Qed.

(** A stage that returns [true] has recorded its readings. *)
Lemma takeSingleReading_Recorded (fuel i : nat) (d d' : Device) :
  (i < TOTAL_SAMPLES)%nat -> Recorded i (globals d) ->
  takeSingleReading deserializeJson maxim env fuel i d = Some (true, d') ->
  Recorded (S i) (globals d').
Proof.
  intros Hi HR H. apply takeSingleReading_inv in H as [[[=] _] | (_ & d1 & Hc & ->)].
  cbn [globals with_globals].
  apply storeReading_Recorded; [assumption |].
  apply Recorded_estimate.
  exact (keeps_Recorded_collectSamples i fuel 0 _ d true d1 HR Hc).
Qed.

Lemma sampleStages_Recorded (fuel : nat) (todo : nat) :
  forall (i : nat) (d d' : Device),
    (i + todo = TOTAL_SAMPLES)%nat -> Recorded i (globals d) ->
    sampleStages deserializeJson maxim env fuel i todo d = Some (true, d') ->
    Recorded TOTAL_SAMPLES (globals d').
Proof.
  induction todo as [| todo IH]; intros i d d' Hsum HR H.
  - cbn in H. injection H as <-. replace TOTAL_SAMPLES with i by lia. exact HR.
  - cbn [sampleStages] in H.
    apply bind_inv in H as ([] & d1 & H1 & H). injection H1 as <-.
    apply bind_inv in H as ([] & d2 & H2 & H).
    apply bind_inv in H as (taken & d3 & H3 & H).
    assert (HR2 : Recorded i (globals d2)).
    { apply (keeps_Recorded_handleClient i _ tt d2) in H2; [exact H2 |]. exact HR. }
    destruct taken; cbn [negb] in H.
    + apply takeSingleReading_Recorded in H3; [| lia | exact HR2].
      apply bind_inv in H as ([] & d4 & H4 & H).
      apply bind_inv in H as ([] & d5 & H5 & H).
      apply (IH (S i) d5 d'); [lia | | exact H].
      apply (keeps_Recorded_yieldFor (S i) fuel 300 d4 tt d5); [| exact H5].
      exact (keeps_Recorded_handleClient (S i) d3 tt d4 H3 H4).
    + unfold bind, assign, ret in H. discriminate H.
Qed.

(** The averages of a session whose five stages are recorded. *)
Lemma averages_of_Recorded (s0 : State) :
  Recorded TOTAL_SAMPLES s0 ->
  let s := calculateAverages s0 in
  let hrs := accepted (hrReadings s) in
  let sps := accepted (spo2Readings s) in
  (Forall (reading_of 40 220) (hrReadings s)
   /\ validHRCount s = Z.of_nat (length hrs)
   /\ (validHRCount s = 0 -> avgHR s = F32.zero)
   /\ (0 < validHRCount s ->
       avgHR s = F32.div (F32.of_int (total hrs)) (F32.of_int (Z.of_nat (length hrs)))
       /\ rounds (mean hrs) (avgHR s))
   /\ (F32.eqb (avgHR s) (F32.of_int 0) = true <-> validHRCount s = 0))
  /\ (Forall (reading_of 80 100) (spo2Readings s)
      /\ validSpO2Count s = Z.of_nat (length sps)
      /\ (validSpO2Count s = 0 -> avgSpO2 s = F32.zero)
      /\ (0 < validSpO2Count s ->
          avgSpO2 s = F32.div (F32.of_int (total sps)) (F32.of_int (Z.of_nat (length sps)))
          /\ rounds (mean sps) (avgSpO2 s))
      /\ (F32.eqb (avgSpO2 s) (F32.of_int 0) = true <-> validSpO2Count s = 0)).
Proof.
  intros (_ & Hl1 & Hl2 & Hf1 & Hf2 & Hn1 & Hn2).
  rewrite take_ge in Hf1, Hf2, Hn1, Hn2 by lia.
  pose proof (average_of_readings 40 220 (hrReadings s0) (validHRCount s0)
                ltac:(lia) ltac:(lia) Hl1 Hf1 Hn1) as (Ha1 & Ha2 & Ha3).
  pose proof (average_of_readings 80 100 (spo2Readings s0)
                (validSpO2Count s0) ltac:(lia) ltac:(lia) Hl2 Hf2 Hn2)
    as (Hb1 & Hb2 & Hb3).
  cbv zeta. unfold calculateAverages.
  cbn [hrReadings spo2Readings validHRCount validSpO2Count avgHR avgSpO2
       set_avgHR set_avgSpO2].
  split; (split; [assumption | split; [assumption | split; [assumption | split]]]).
  - intros Hpos. destruct (Ha2 Hpos) as [He Hr]. split; [| exact Hr].
    rewrite He, <- Hn1. reflexivity.
  - exact Ha3.
  - intros Hpos. destruct (Hb2 Hpos) as [He Hr]. split; [| exact Hr].
    rewrite He, <- Hn2. reflexivity.
  - exact Hb3.
Qed.

(** *** Between two passes of the loop *)

Lemma Settled_route (r : Request) (s : State) :
  Settled s -> Settled (fst (route deserializeJson r s)).
Proof.
  intros HS. unfold route.
  destruct (method r); try exact HS.
  - destruct (String.eqb (uri r) "/data"); exact HS.
  - destruct (String.eqb (uri r) "/start").
    + unfold handleStart. destruct (running s); cbn [negb fst]; [exact HS |].
      unfold Settled. cbn. repeat split; reflexivity.
    + destruct (String.eqb (uri r) "/cancel"); exact HS.
Qed.

Lemma Settled_stopped (s : State) :
  length (hrReadings s) = TOTAL_SAMPLES -> length (spo2Readings s) = TOTAL_SAMPLES ->
  running s = false -> Settled s.
Proof. intros H1 H2 H3. repeat split; try assumption; congruence. Qed.

Lemma Settled_resetMeasurement (s : State) : Settled s -> Settled (resetMeasurement s).
Proof. intros (H1 & H2 & _). now apply Settled_stopped. Qed.

Lemma keeps_Settled_greet (fuel : nat) : keeps Settled (greet deserializeJson env fuel).
Proof.
  pose proof (keeps_yieldFor deserializeJson env Settled Settled_route fuel 800) as Hy.
  pose proof (keeps_interruptibleCountdown deserializeJson env Settled Settled_route
                ltac:(auto) fuel 3) as Hc.
  unfold greet. repeat keeps_step; try (apply keeps_assign; intros s Hs; exact Hs).
  apply keeps_assign. apply Settled_resetMeasurement.
Qed.

Lemma greet_Recorded (fuel : nat) (d d' : Device) :
  Recorded 0 (globals d) -> greet deserializeJson env fuel d = Some (true, d') ->
  Recorded 0 (globals d').
Proof.
  intros HR H. unfold greet in H.
  apply bind_inv in H as (h & d1 & [= <- <-] & H).
  destruct (hadFinger (globals d)); cbn [negb] in H; [now injection H as <- |].
  apply bind_inv in H as ([] & d2 & [= <-] & H).
  apply bind_inv in H as ([] & d3 & [= <-] & H).
  apply bind_inv in H as ([] & d4 & H4 & H).
  apply bind_inv in H as (counted & d5 & H5 & H).
  destruct counted; cbn [negb] in H.
  - injection H as <-.
    apply (keeps_interruptibleCountdown deserializeJson env (Recorded 0) (Recorded_route 0)
             ltac:(auto) fuel 3 d4 true d5); [| exact H5].
    refine (keeps_Recorded_yieldFor 0 fuel 800 _ tt d4 _ H4).
    exact HR.
  - unfold bind, assign, ret in H. discriminate H.
Qed.

Abbreviation Lengths :=
  (fun s => length (hrReadings s) = TOTAL_SAMPLES
            /\ length (spo2Readings s) = TOTAL_SAMPLES).

Lemma Lengths_storeReading (idx : nat) (s : State) :
  Lengths s -> Lengths (storeReading idx s).
Proof.
  intros [H1 H2]. unfold storeReading.
  destruct (negb (hrValid s =? 0) && (heartRate s >=? 40) && (heartRate s <=? 220));
    cbn -[F32.of_int int_incr];
    destruct (negb (spo2Valid s =? 0) && (spo2 s >=? 80) && (spo2 s <=? 100));
    cbn -[F32.of_int int_incr]; rewrite !length_insert; now split.
Qed.

Lemma keeps_Lengths_sampleStages (fuel todo : nat) :
  forall i, keeps Lengths (sampleStages deserializeJson maxim env fuel i todo).
Proof.
  pose proof (keeps_handleClient deserializeJson env Lengths (route_lengths deserializeJson))
    as Hc.
  pose proof (keeps_yieldFor deserializeJson env Lengths (route_lengths deserializeJson) fuel 300)
    as Hy.
  induction todo as [| todo IH]; intros i; cbn [sampleStages]; repeat keeps_step;
    try (apply keeps_assign; intros s Hs; exact Hs).
  - apply keeps_lengths_collectSamples.
  - apply keeps_assign. intros s Hs. unfold estimate.
    destruct (maxim (irBuffer s) _ (redBuffer s)) as [[[sp spv] hr] hrv]. exact Hs.
  - apply keeps_assign. apply Lengths_storeReading.
  - apply IH.
Qed.

Lemma sampleStages_stopped (fuel todo : nat) :
  forall (i : nat) (d d' : Device),
    sampleStages deserializeJson maxim env fuel i todo d = Some (false, d') ->
    running (globals d') = false.
Proof.
  induction todo as [| todo IH]; intros i d d' H; [discriminate H |].
  cbn [sampleStages] in H.
  apply bind_inv in H as ([] & d1 & _ & H).
  apply bind_inv in H as ([] & d2 & _ & H).
  apply bind_inv in H as (taken & d3 & _ & H).
  destruct taken; cbn [negb] in H.
  - apply bind_inv in H as ([] & d4 & _ & H).
    apply bind_inv in H as ([] & d5 & _ & H).
    exact (IH _ _ _ H).
  - unfold bind, assign, ret in H. injection H as <-. reflexivity.
Qed.

Lemma Settled_Recorded (s : State) : Settled s -> running s = true -> Recorded 0 s.
Proof.
  intros (H1 & H2 & H3) Hrun. destruct (H3 Hrun) as [Hc1 Hc2].
  unfold Recorded. rewrite Hc1, Hc2. cbn. repeat split; try assumption; constructor.
Qed.

(** The pass that gets through its five stages has recorded them. *)
Lemma measure_Recorded (fuel : nat) (d d' : Device) :
  Settled (globals d) ->
  measure deserializeJson maxim env fuel d = Some (true, d') ->
  Recorded TOTAL_SAMPLES (globals d').
Proof.
  intros HS H. unfold measure, yield in H.
  apply bind_inv in H as ([] & d1 & H1 & H).
  apply (keeps_handleClient deserializeJson env Settled Settled_route d tt d1 HS) in H1.
  apply bind_inv in H as ([] & ? & [= <-] & H).
  apply bind_inv in H as (r & ? & [= <- <-] & H).
  destruct (running (globals d1)) eqn:Hrun; cbn [negb] in H.
  2:{ apply bind_inv in H as (? & ? & _ & H).
      apply bind_inv in H as (? & ? & _ & H).
      apply bind_inv in H as (? & ? & _ & H). discriminate H. }
  apply Settled_Recorded in H1; [| exact Hrun].
  apply bind_inv in H as (c & ? & [= <- <-] & H).
  destruct (cancelRequested (globals d1)).
  { unfold bind, assign, ret in H. discriminate H. }
  apply bind_inv in H as (p & d2 & H2 & H).
  assert (HR2 : Recorded 0 (globals d2)).
  { unfold fingerPresent, bind, sensor_getIR, ret in H2. now injection H2 as _ <-. }
  destruct p; cbn [negb] in H.
  2:{ do 5 apply bind_inv in H as (? & ? & _ & H). discriminate H. }
  apply bind_inv in H as (go_on & d3 & H3 & H).
  destruct go_on; cbn [negb] in H; [| discriminate H].
  apply (sampleStages_Recorded fuel TOTAL_SAMPLES 0 d3 d' eq_refl); [| exact H].
  exact (greet_Recorded fuel d2 d3 HR2 H3).
Qed.

(** Any other pass leaves the globals settled. *)
Lemma measure_Settled (fuel : nat) (d d' : Device) :
  Settled (globals d) ->
  measure deserializeJson maxim env fuel d = Some (false, d') ->
  Settled (globals d').
Proof.
  pose proof (keeps_handleClient deserializeJson env Settled Settled_route) as Hc.
  pose proof (keeps_shouldRedisplay Settled ltac:(auto)) as Hd.
  intros HS H. unfold measure, yield in H.
  apply bind_inv in H as ([] & d1 & H1 & H).
  apply (Hc d tt d1 HS) in H1.
  apply bind_inv in H as ([] & ? & [= <-] & H).
  apply bind_inv in H as (r & ? & [= <- <-] & H).
  destruct (running (globals d1)) eqn:Hrun; cbn [negb] in H.
  2:{ apply (keeps_apply _ _ _ _ _ H H1). unfold when.
      repeat keeps_step; apply keeps_assign; intros s Hs; exact Hs. }
  apply bind_inv in H as (c & ? & [= <- <-] & H).
  destruct (cancelRequested (globals d1)).
  { apply (keeps_apply _ _ _ _ _ H H1).
    repeat keeps_step; apply keeps_assign; [apply Settled_resetMeasurement |].
    intros s Hs; exact Hs. }
  apply bind_inv in H as (p & d2 & H2 & H).
  assert (HS2 : Settled (globals d2)).
  { unfold fingerPresent, bind, sensor_getIR, ret in H2. now injection H2 as _ <-. }
  destruct p; cbn [negb] in H.
  2:{ apply (keeps_apply _ _ _ _ _ H HS2). unfold when.
      repeat keeps_step; apply keeps_assign; intros s Hs; exact Hs. }
  apply bind_inv in H as (go_on & d3 & H3 & H).
  apply (keeps_Settled_greet fuel d2 go_on d3 HS2) in H3.
  destruct go_on; cbn [negb] in H; [| now injection H as <-].
  destruct H3 as (Hl1 & Hl2 & _).
  destruct (keeps_Lengths_sampleStages fuel TOTAL_SAMPLES 0 d3 false d' (conj Hl1 Hl2) H)
    as [Hl1' Hl2'].
  apply Settled_stopped; try assumption.
  exact (sampleStages_stopped fuel TOTAL_SAMPLES 0 d3 d' H).
Qed.

Lemma Settled_completed (s : State) :
  Recorded TOTAL_SAMPLES s ->
  Settled (displayResults (set_running false (calculateAverages s))).
Proof. intros (_ & H1 & H2 & _). now apply Settled_stopped. Qed.

(** Every pass of [loop] that returns leaves the globals settled. *)
Lemma keeps_Settled_loop (fuel : nat) :
  keeps Settled (loop deserializeJson maxim env fuel).
Proof.
  intros d [] d' HS H. unfold loop in H.
  apply bind_inv in H as (measured & d1 & H1 & H).
  destruct measured; cbn [negb] in H.
  - apply (measure_Recorded fuel d d1 HS) in H1.
    apply Settled_completed in H1.
    unfold complete in H.
    do 3 apply bind_inv in H as ([] & ? & [= <-] & H).
    cbn [globals with_globals] in H.
    apply (keeps_apply _ _ _ _ _ H); [exact H1 |].
    pose proof (keeps_showResults deserializeJson env Settled Settled_route fuel) as Hs.
    repeat keeps_step; [apply Hs | |]; apply keeps_assign; intros s Hs'; exact Hs'.
  - injection H as <-. exact (measure_Settled fuel d d1 HS H1).
Qed.

Lemma keeps_Settled_loops (fuel n : nat) :
  keeps Settled (loops deserializeJson maxim env fuel n).
Proof.
  pose proof (keeps_Settled_loop fuel) as Hl.
  induction n as [| n IH]; cbn [loops]; repeat keeps_step.
Qed.

(** C4: whenever a pass of [loop] gets through its five stages (the globals
    being, before the pass, as [setup] or any earlier pass left them), every
    reading is the zero sentinel or an accepted value of its range, each
    counter is the number of accepted readings, and [calculateAverages]
    leaves in [avgHR] zero when [validHRCount] is zero and otherwise the
    binary32 quotient of the sum of the accepted heart rates by their
    number, which is the float next to their exact mean; so [avgHR == 0]
    exactly when [validHRCount] is zero.  The same holds of [avgSpO2] and
    [validSpO2Count]. *)
Theorem averages_after_full_run (fuel : nat) (d d' : Device)
    (Hbefore : Settled (globals d))
    (Hfull : measure deserializeJson maxim env fuel d = Some (true, d')) :
  let s := calculateAverages (globals d') in
  let hrs := accepted (hrReadings s) in
  let sps := accepted (spo2Readings s) in
  (Forall (reading_of 40 220) (hrReadings s)
   /\ validHRCount s = Z.of_nat (length hrs)
   /\ (validHRCount s = 0 -> avgHR s = F32.zero)
   /\ (0 < validHRCount s ->
       avgHR s = F32.div (F32.of_int (total hrs)) (F32.of_int (Z.of_nat (length hrs)))
       /\ rounds (mean hrs) (avgHR s))
   /\ (F32.eqb (avgHR s) (F32.of_int 0) = true <-> validHRCount s = 0))
  /\ (Forall (reading_of 80 100) (spo2Readings s)
      /\ validSpO2Count s = Z.of_nat (length sps)
      /\ (validSpO2Count s = 0 -> avgSpO2 s = F32.zero)
      /\ (0 < validSpO2Count s ->
          avgSpO2 s = F32.div (F32.of_int (total sps)) (F32.of_int (Z.of_nat (length sps)))
          /\ rounds (mean sps) (avgSpO2 s))
      /\ (F32.eqb (avgSpO2 s) (F32.of_int 0) = true <-> validSpO2Count s = 0)).
Proof.
  apply averages_of_Recorded. exact (measure_Recorded fuel d d' Hbefore Hfull).
Qed.

End FullRun.

Lemma Settled_booted : Settled (globals booted).
Proof. unfold Settled. cbn. repeat split; reflexivity. Qed.

(** The globals are settled after any number of passes since [setup]. *)
Lemma Settled_reached deserializeJson maxim env (fuel n : nat) (d : Device) :
  loops deserializeJson maxim env fuel n booted = Some (tt, d) -> Settled (globals d).
Proof.
  intros H. exact (keeps_Settled_loops deserializeJson maxim env fuel n booted tt d
                     Settled_booted H).
Qed.

(** ** Cancellation *)

Section CancelProperties.

Variable deserializeJson : string -> option JsonDocument.
Variable maxim : list Z -> Z -> list Z -> Z * Z * Z * Z.
Variable env : Env.

Lemma Cancelling_route (r : Request) (s : State) :
  Cancelling s -> Cancelling (fst (route deserializeJson r s)).
Proof.
  apply (route_running deserializeJson Cancelling).
  - now intros s' [H _].
  - intros s' [H _]. now split.
Qed.

(** A pass of [loop] that finds a cancellation pending resets the session. *)
Lemma pending_cancel_resets (fuel : nat) (d : Device) :
  Cancelling (globals d) ->
  exists d', loop deserializeJson maxim env fuel d = Some (tt, d') /\ Reset (globals d').
Proof.
  intros HC. unfold loop, measure, yield.
  destruct (handleClient deserializeJson env d) as [[[] d1] |] eqn:H1.
  2:{ unfold handleClient in H1. destruct (client env (clientCalls d));
        [destruct (route _ _ _) |]; discriminate H1. }
  pose proof (keeps_handleClient deserializeJson env Cancelling Cancelling_route d tt d1 HC H1)
    as [Hrun Hcan].
  unfold bind at 1. unfold bind at 1. rewrite H1.
  unfold bind, ret, read, assign. rewrite Hrun. cbn [negb]. cbv beta.
  rewrite Hcan.
  eexists. split; [reflexivity |]. unfold Reset. cbn. repeat split; reflexivity.
Qed.

(** A stage entered with a cancellation pending takes no sample and
    resets the session. *)
Lemma pending_cancel_aborts_stage (fuel i todo : nat) (d : Device) :
  Cancelling (globals d) -> (0 < nth i sampleCounts O)%nat ->
  exists d',
    sampleStages deserializeJson maxim env fuel i (S todo) d = Some (false, d')
    /\ Reset (globals d').
Proof.
  intros HC Hn. cbn [sampleStages]. unfold takeSingleReading.
  destruct (nth i sampleCounts O) as [| n]; [lia |]. cbn [collectSamples].
  unfold bind at 1. unfold assign at 1.
  set (d0 := with_globals _ d).
  assert (HC0 : Cancelling (globals d0)) by exact HC.
  destruct (handleClient deserializeJson env d0) as [[[] d1] |] eqn:H1.
  2:{ unfold handleClient in H1. destruct (client env (clientCalls d0));
        [destruct (route _ _ _) |]; discriminate H1. }
  pose proof (keeps_handleClient deserializeJson env Cancelling Cancelling_route d0 tt d1 HC0 H1)
    as HC1.
  destruct (handleClient deserializeJson env d1) as [[[] d2] |] eqn:H2.
  2:{ unfold handleClient in H2. destruct (client env (clientCalls d1));
        [destruct (route _ _ _) |]; discriminate H2. }
  pose proof (keeps_handleClient deserializeJson env Cancelling Cancelling_route d1 tt d2 HC1 H2)
    as [Hrun Hcan].
  unfold bind at 1. rewrite H1.
  unfold bind at 1. unfold bind at 1. unfold bind at 1. rewrite H2.
  unfold yield, interrupted, bind, ret, read, assign. rewrite Hcan. cbn [negb].
  eexists. split; [reflexivity |]. unfold Reset. cbn. repeat split; reflexivity.
Qed.

(** A stage that returns [false], for a cancellation or a lifted finger,
    resets the session. *)
Lemma interrupted_stage_resets (fuel i todo : nat) (d d1 d2 : Device) :
  handleClient deserializeJson env
    (with_globals (displaySampling (Z.of_nat i + 1) (Z.of_nat TOTAL_SAMPLES) (globals d)) d)
  = Some (tt, d1) ->
  takeSingleReading deserializeJson maxim env fuel i d1 = Some (false, d2) ->
  exists d',
    sampleStages deserializeJson maxim env fuel i (S todo) d = Some (false, d')
    /\ Reset (globals d').
Proof.
  intros H1 H2. cbn [sampleStages].
  unfold bind at 1. unfold assign at 1.
  unfold bind at 1. rewrite H1.
  unfold bind at 1. rewrite H2. cbn [negb].
  unfold bind, assign, ret.
  eexists. split; [reflexivity |]. unfold Reset. cbn. repeat split; reflexivity.
Qed.

(** A countdown entered with a cancellation pending stops at once. *)
Lemma pending_cancel_stops_countdown (fuel seconds : nat) (d : Device) :
  Cancelling (globals d) ->
  exists d',
    interruptibleCountdown deserializeJson env (S fuel) (S seconds) d = Some (false, d')
    /\ Cancelling (globals d').
Proof.
  intros HC. cbn [interruptibleCountdown countdownSecond].
  unfold bind at 1. unfold assign at 1.
  unfold bind at 1. unfold millis at 1.
  set (d0 := with_globals _ d).
  assert (HC0 : Cancelling (globals d0)) by exact HC.
  unfold bind at 1. unfold bind at 1. unfold millis at 1.
  unfold usub. rewrite Z.sub_diag. change (0 mod 2 ^ 32 <? 1000) with true. cbv iota.
  destruct (handleClient_total deserializeJson env d0) as [d1 H1].
  pose proof (keeps_handleClient deserializeJson env Cancelling Cancelling_route d0 tt d1 HC0 H1)
    as HC1.
  unfold bind at 1. rewrite H1.
  unfold yield, bind, ret, read. destruct HC1 as [Hrun Hcan]. rewrite Hcan.
  eexists. split; [reflexivity |]. now split.
Qed.

End CancelProperties.

Section CancelRequest.

Variable deserializeJson : string -> option JsonDocument.
Variable maxim : list Z -> Z -> list Z -> Z * Z * Z * Z.
Variable env : Env.

(** C7, as the firmware has it: a Cancel request sets [cancelRequested],
    is acknowledged, and changes nothing else; when no session is running
    the flag stays set through the idle passes of [loop], and the next Begin
    leaves the very state it would have left without the Cancel, with the
    flag clear, so that the Cancel cannot abort the session that Begin
    starts. *)
Theorem cancel_request (s : State) :
  handleCancel s = (set_cancelRequested true s, acknowledgement)
  /\ (running s = false ->
      forall body,
        handleStart deserializeJson body (fst (handleCancel s))
        = handleStart deserializeJson body s
        /\ cancelRequested (fst (handleStart deserializeJson body (fst (handleCancel s))))
           = false)
  /\ (running s = false ->
      forall (fuel : nat) (d : Device),
        globals d = fst (handleCancel s) ->
        client env (clientCalls d) = None ->
        exists d',
          loop deserializeJson maxim env fuel d = Some (tt, d')
          /\ running (globals d') = false
          /\ cancelRequested (globals d') = true).
Proof.
  split; [reflexivity | split].
  - intros Hrun body. unfold handleStart, handleCancel. cbn [fst running set_cancelRequested].
    rewrite Hrun. cbn [negb]. split; [| reflexivity].
    f_equal.
    destruct body as [text |]; [| reflexivity].
    destruct (deserializeJson text) as [doc |]; [| reflexivity].
    destruct (containsKey doc "name"); reflexivity.
  - intros Hrun fuel d Hg Hnone. unfold loop, measure, yield, handleClient.
    unfold bind at 1. unfold bind at 1. unfold bind at 1. rewrite Hnone.
    unfold bind at 1. unfold ret at 1. unfold bind at 1. unfold read at 1.
    cbn [globals with_clock with_clientCalls]. rewrite Hg.
    cbn [fst handleCancel running set_cancelRequested]. rewrite Hrun. cbn [negb].
    unfold shouldRedisplay, when, bind, millis, read, assign, ret, delay.
    cbn [globals with_clock with_clientCalls clock lastDisplayMs set_cancelRequested].
    destruct (usub _ _ >=? DISPLAY_INTERVAL); cbn -[Z.pow Z.add Z.modulo];
      eexists; (split; [reflexivity |]); cbn; rewrite Hg; cbn; auto.
Qed.

End CancelRequest.

(** ** The wait for a sample *)

Section SampleWait.

Variable deserializeJson : string -> option JsonDocument.
Variable maxim : list Z -> Z -> list Z -> Z * Z * Z * Z.
Variable env : Env.

Lemma collectSamples_split (fuel k todo : nat) :
  forall (i : nat) (d dk : Device),
    collectSamples deserializeJson env fuel i k d = Some (true, dk) ->
    collectSamples deserializeJson env fuel i (k + todo) d
    = collectSamples deserializeJson env fuel (i + k) todo dk.
Proof.
  induction k as [| k IH]; intros i d dk H.
  - cbn in H. injection H as <-. now rewrite Nat.add_0_r.
  - cbn [collectSamples Nat.add] in *.
    apply bind_inv in H as ([] & d1 & H1 & H). unfold bind at 1. rewrite H1.
    apply bind_inv in H as ([] & d2 & H2 & H). unfold bind at 1. rewrite H2.
    apply bind_inv in H as (stop & d3 & H3 & H). unfold bind at 1. rewrite H3.
    destruct stop; [discriminate H |].
    apply bind_inv in H as (ready & d4 & H4 & H). unfold bind at 1. rewrite H4.
    destruct ready; cbn [negb] in *; [| discriminate H].
    apply bind_inv in H as (red & d5 & H5 & H). unfold bind at 1. rewrite H5.
    apply bind_inv in H as ([] & d6 & H6 & H). unfold bind at 1. rewrite H6.
    apply bind_inv in H as (ir & d7 & H7 & H). unfold bind at 1. rewrite H7.
    apply bind_inv in H as ([] & d8 & H8 & H). unfold bind at 1. rewrite H8.
    apply bind_inv in H as ([] & d9 & H9 & H). unfold bind at 1. rewrite H9.
    rewrite (IH (S i) d9 dk H). f_equal. lia.
Qed.

(** C8, as the firmware has it.  The wait for a sample is left through a
    cancellation at every iteration: when the flag is set once the pending
    request is serviced, that iteration returns [false].  The finger is
    looked at once per sample, before the wait: when the flag is set or the
    infrared value is not above the threshold, the sample loop returns
    [false] without waiting.  Either [false], at whatever sample of the
    window, is what the sample loop and then the stage return. *)
Theorem sample_wait_escapes (fuel : nat) :
  (forall d d1 : Device,
     available env (availableCalls d) = false ->
     handleClient deserializeJson env (with_availableCalls (S (availableCalls d)) d)
     = Some (tt, d1) ->
     cancelRequested (globals d1) = true ->
     awaitSample deserializeJson env (S fuel) d = Some (false, d1))
  /\ (forall (i todo : nat) (d d1 : Device),
        handleClient deserializeJson env d = Some (tt, d1) ->
        cancelRequested (globals d1) = true
        \/ getIR env (irCalls d1) <= IR_FINGER_THRESHOLD ->
        exists d2,
          collectSamples deserializeJson env fuel i (S todo) d = Some (false, d2)
          /\ globals d2 = globals d1)
  /\ (forall (i todo : nat) (d d1 d2 dw : Device),
        handleClient deserializeJson env d = Some (tt, d1) ->
        interrupted env d1 = Some (false, d2) ->
        awaitSample deserializeJson env fuel d2 = Some (false, dw) ->
        collectSamples deserializeJson env fuel i (S todo) d = Some (false, dw))
  /\ (forall (k todo : nat) (d dk : Device),
        collectSamples deserializeJson env fuel 0 k d = Some (true, dk) ->
        collectSamples deserializeJson env fuel 0 (k + S todo) d
        = collectSamples deserializeJson env fuel k (S todo) dk)
  /\ (forall (idx : nat) (d dw : Device),
        collectSamples deserializeJson env fuel 0 (nth idx sampleCounts O) d
        = Some (false, dw) ->
        takeSingleReading deserializeJson maxim env fuel idx d = Some (false, dw)).
Proof.
  repeat split.
  - intros d d1 Hav Hc Hcan. cbn [awaitSample].
    unfold bind at 1. unfold sensor_available. rewrite Hav. cbn [negb].
    unfold sensor_check, yield. unfold bind at 1. unfold ret at 1.
    unfold bind at 1. rewrite Hc.
    unfold bind, ret, read. now rewrite Hcan.
  - intros i todo d d1 Hc Hstop. cbn [collectSamples]. unfold yield.
    unfold bind at 1. rewrite Hc. unfold bind at 1. unfold ret at 1.
    unfold bind at 1. unfold interrupted, bind, read, ret.
    destruct (cancelRequested (globals d1)) eqn:Hcan.
    + now eexists.
    + destruct Hstop as [Hs | Hs]; [discriminate Hs |].
      unfold fingerPresent, sensor_getIR, bind, ret.
      assert (Hgt : (getIR env (irCalls d1) >? IR_FINGER_THRESHOLD) = false) by lia.
      rewrite Hgt. cbn [negb]. now eexists.
  - intros i todo d d1 d2 dw Hc Hi Hw. cbn [collectSamples]. unfold yield.
    unfold bind at 1. rewrite Hc. unfold bind at 1. unfold ret at 1.
    unfold bind at 1. rewrite Hi. unfold bind at 1. rewrite Hw. reflexivity.
  - intros k todo d dk H. exact (collectSamples_split fuel k (S todo) 0 d dk H).
  - intros idx d dw H. unfold takeSingleReading. unfold bind at 1. now rewrite H.
Qed.

End SampleWait.

Lemma awaitSample_finger_lifted (n : nat) :
  forall d : Device,
    cancelRequested (globals d) = false ->
    awaitSample parse_ann finger_lifted n d = None.
Proof.
  induction n as [| n IH]; intros d Hcan; [reflexivity |].
  cbn [awaitSample]. unfold bind, sensor_available, sensor_check, yield, ret,
    handleClient, read.
  cbn [available client finger_lifted negb globals with_clock with_clientCalls
       with_availableCalls].
  rewrite Hcan. apply IH. exact Hcan.
Qed.

Lemma collectSamples_finger_lifted (n i todo : nat) (d : Device) :
  cancelRequested (globals d) = false -> irCalls d = O ->
  collectSamples parse_ann finger_lifted n i (S todo) d = None.
Proof.
  intros Hcan Hir. cbn [collectSamples].
  unfold bind at 1. unfold handleClient at 1. cbn [client finger_lifted].
  unfold bind at 1. unfold yield at 1. unfold ret at 1.
  unfold bind at 1. unfold interrupted. unfold bind at 1. unfold read at 1.
  cbn [globals with_clock with_clientCalls]. rewrite Hcan.
  unfold bind at 1. unfold fingerPresent, sensor_getIR. unfold bind at 1.
  cbn [irCalls with_clock with_clientCalls]. rewrite Hir.
  cbn [getIR finger_lifted Nat.eqb]. unfold ret at 1. unfold ret at 1.
  change (60000 >? IR_FINGER_THRESHOLD) with true. cbn [negb].
  unfold bind at 1.
  rewrite awaitSample_finger_lifted; [reflexivity |]. exact Hcan.
Qed.

(** C8 as stated fails for the finger: with the finger on the sensor when a
    sample is begun and off it from then on, no cancellation and no sample
    from the sensor, the wait never ends, however many iterations it is
    given. *)
Lemma finger_loss_does_not_end_wait :
  getIR finger_lifted 0 > IR_FINGER_THRESHOLD
  /\ (forall n : nat, (0 < n)%nat -> getIR finger_lifted n <= IR_FINGER_THRESHOLD)
  /\ ~ exists n : nat,
         takeSingleReading parse_ann estimate_72_98 finger_lifted n 0 begun <> None.
Proof.
  split; [reflexivity | split].
  - intros n Hn. destruct n; [lia |]. cbn. unfold IR_FINGER_THRESHOLD. lia.
  - intros [n H]. apply H. clear H.
    unfold takeSingleReading. unfold bind at 1.
    change (nth 0 sampleCounts O) with 50%nat.
    rewrite collectSamples_finger_lifted; reflexivity.
Qed.

(** ** Instances *)

(** Scenario A on the power-on globals. *)
Lemma status_is_classification_witness :
  handleJSON_status (set_avgHR (F32.of_int 72) (set_avgSpO2 (F32.of_int 98) power_on))
  = "Normal".
Proof.
  apply (status_is_classification
           (set_avgHR (F32.of_int 72) (set_avgSpO2 (F32.of_int 98) power_on)));
    reflexivity.
Defined.

(** A running session at power-on averages. *)
Lemma status_cases_witness :
  handleJSON_status (set_running true power_on) = "measuring".
Proof. apply (status_cases (set_running true power_on)). reflexivity. Defined.

(** Scenario C: display and snapshot both say "Warning". *)
Lemma display_label_matches_status_witness :
  let s := set_avgHR (F32.of_int 110) (set_avgSpO2 (F32.of_int 97) power_on) in
  handleJSON_status s = displayResults_statusLabel s.
Proof.
  destruct (display_label_matches_status
              (set_avgHR (F32.of_int 110) (set_avgSpO2 (F32.of_int 97) power_on)))
    as (_ & _ & _ & _ & H).
  apply H. right. left. reflexivity.
Defined.

(** A Begin while the session of [begun] runs, and a Begin at power-on. *)
Lemma begin_request_witness :
  handleStart parse_ann (Some ann_body) (globals begun) = (globals begun, acknowledgement)
  /\ patientName (fst (handleStart parse_ann (Some ann_body) power_on)) = "Ann".
Proof.
  split.
  - apply (begin_request parse_ann (Some ann_body) (globals begun)). reflexivity.
  - apply (begin_request parse_ann (Some ann_body) power_on). reflexivity.
Defined.

(** A first stage with an accepted heart rate and no saturation. *)
Lemma stage_filter_witness :
  exists d',
    takeSingleReading parse_ann estimate_hr_only (finger_on []) fuel 0 begun
    = Some (true, d')
    /\ hrReadings (globals d') !! 0%nat = Some (F32.of_int 72)
    /\ validHRCount (globals d') = 1
    /\ spo2Readings (globals d') !! 0%nat = Some F32.zero
    /\ validSpO2Count (globals d') = 0.
Proof.
  pose proof (stage_filter parse_ann estimate_hr_only (finger_on []) fuel 0 begun
                ltac:(unfold TOTAL_SAMPLES; lia) eq_refl eq_refl) as H.
  cbv zeta in H.
  destruct (collectSamples parse_ann (finger_on []) fuel 0 (nth 0 sampleCounts O) begun)
    as [[[|] d1] |] eqn:E.
  - unfold estimate_hr_only in H. destruct H as (s' & Ht & [Hhr _] & [_ Hsp]).
    exists (with_globals s' d1). split; [exact Ht |]. cbn [globals with_globals].
    destruct Hhr as [-> ->]; [unfold accepts; lia |].
    destruct Hsp as [-> ->]; [unfold accepts; lia |].
    vm_compute in E. injection E as <-. repeat split; reflexivity.
  - vm_compute in E. discriminate E.
  - vm_compute in E. discriminate E.
Defined.

(** The first pass after [setup], with heart rates 72, 73, 73, 73 and a
    rejected fifth stage. *)
Lemma averages_after_full_run_witness :
  match measure parse_ann estimate_by_stage (finger_on [(0, post_start)]) fuel booted with
  | Some (true, d') =>
      let s := calculateAverages (globals d') in
      accepted (hrReadings s) = [72; 73; 73; 73]
      /\ validHRCount s = 4
      /\ rounds (mean (accepted (hrReadings s))) (avgHR s)
      /\ (F32.eqb (avgHR s) (F32.of_int 0) = true <-> validHRCount s = 0)
  | _ => False
  end.
Proof.
  destruct (measure parse_ann estimate_by_stage (finger_on [(0, post_start)]) fuel booted)
    as [[[|] d'] |] eqn:E.
  - destruct (averages_after_full_run parse_ann estimate_by_stage
                (finger_on [(0, post_start)]) fuel booted d' Settled_booted E)
      as [(_ & Hn & _ & Hr & Hz) _].
    cbv zeta.
    assert (Hacc : accepted (hrReadings (calculateAverages (globals d'))) = [72; 73; 73; 73]).
    { vm_compute in E. injection E as <-. reflexivity. }
    rewrite Hacc in Hn. cbn [length Z.of_nat Pos.of_succ_nat Pos.succ] in Hn.
    split; [exact Hacc |]. split; [exact Hn |]. split; [| exact Hz].
    apply Hr. rewrite Hn. reflexivity.
  - vm_compute in E. discriminate E.
  - vm_compute in E. discriminate E.
Defined.

(** Cancel, then Begin, on the idle device. *)
Lemma cancel_request_witness :
  cancelRequested
    (fst (handleStart parse_ann (Some ann_body) (fst (handleCancel (globals booted)))))
  = false.
Proof.
  apply (cancel_request parse_ann estimate_72_98 (finger_on []) (globals booted)).
  reflexivity.
Defined.

(** A Cancel that arrives while the sensor has no sample. *)
Lemma sample_wait_escapes_witness :
  result (awaitSample parse_ann cancel_while_waiting (S fuel) begun) = Some false.
Proof.
  destruct (handleClient_total parse_ann cancel_while_waiting
              (with_availableCalls (S (availableCalls begun)) begun)) as [d1 H1].
  rewrite (proj1 (sample_wait_escapes parse_ann estimate_72_98 cancel_while_waiting fuel)
             begun d1 eq_refl H1); [reflexivity |].
  vm_compute in H1. injection H1 as <-. reflexivity.
Defined.

(** The average 72.75 is shown as 72. *)
Lemma snapshot_fields_and_frame_witness :
  truncation (F32.to_Q (F32.div (F32.of_int 291) (F32.of_int 4))) 72.
Proof.
  apply (snapshot_fields_and_frame
           (set_avgHR (F32.div (F32.of_int 291) (F32.of_int 4)) power_on)).
  reflexivity.
Defined.

(** * Further properties of the firmware and of the app *)

(** ** C strings *)

Lemma substring_0_length (s : string) :
  forall n, String.length (String.substring 0 n s) = Nat.min n (String.length s).
Proof.
  induction s as [| c s IH]; intros [| n]; cbn; try reflexivity.
  now rewrite IH.
Qed.

Lemma substring_0_whole (s : string) :
  forall n, (String.length s <= n)%nat -> String.substring 0 n s = s.
Proof.
  induction s as [| c s IH]; intros [| n] H; cbn in *; try reflexivity; try lia.
  rewrite IH by lia. reflexivity.
Qed.

Lemma substring_0_prefix (s : string) :
  forall n, String.prefix (String.substring 0 n s) s = true.
Proof.
  induction s as [| c s IH]; intros [| n]; cbn; try reflexivity.
  destruct (ascii_dec c c) as [_ | Hne]; [apply IH | now elim Hne].
Qed.

Lemma substring_0_chars (s : string) (c : ascii) :
  forall n, In c (list_ascii_of_string (String.substring 0 n s)) ->
            In c (list_ascii_of_string s).
Proof.
  induction s as [| x s IH]; intros [| n]; cbn; try tauto.
  intros [H | H]; [now left | right; now apply (IH n)].
Qed.

Lemma substring_0_append (a b : string) :
  String.substring 0 (String.length a) (a ++ b) = a.
Proof. induction a as [| c a IH]; cbn; [now destruct b | now rewrite IH]. Qed.

Lemma length_append (a b : string) :
  String.length (a ++ b) = (String.length a + String.length b)%nat.
Proof. induction a as [| c a IH]; cbn; [reflexivity | now rewrite IH]. Qed.

Lemma c_str_length (s : string) : (String.length (c_str s) <= String.length s)%nat.
Proof.
  induction s as [| c s IH]; cbn; [lia |].
  destruct (Ascii.eqb c Ascii.zero); cbn; lia.
Qed.

Lemma c_str_prefix (s : string) : String.prefix (c_str s) s = true.
Proof.
  induction s as [| c s IH]; cbn; [reflexivity |].
  destruct (Ascii.eqb c Ascii.zero); cbn; [reflexivity |].
  destruct (ascii_dec c c) as [_ | Hne]; [apply IH | now elim Hne].
Qed.

Lemma c_str_no_nul (s : string) : ~ In Ascii.zero (list_ascii_of_string (c_str s)).
Proof.
  induction s as [| c s IH]; cbn; [tauto |].
  destruct (Ascii.eqb c Ascii.zero) eqn:E; cbn; [tauto |].
  intros [H | H]; [| now apply IH].
  subst c. now rewrite Ascii.eqb_refl in E.
Qed.

Lemma c_str_whole (s : string) :
  ~ In Ascii.zero (list_ascii_of_string s) -> c_str s = s.
Proof.
  induction s as [| c s IH]; cbn; [reflexivity |].
  intros H. destruct (Ascii.eqb c Ascii.zero) eqn:E.
  - apply Ascii.eqb_eq in E. elim H. now left.
  - rewrite IH; [reflexivity |]. intros Hin. apply H. now right.
Qed.

Lemma prefix_trans (a b c : string) :
  String.prefix a b = true -> String.prefix b c = true -> String.prefix a c = true.
Proof.
  revert b c. induction a as [| x a IH]; intros b c Hab Hbc; [now destruct c |].
  destruct b as [| y b]; [discriminate |].
  destruct c as [| z c]; [discriminate |].
  cbn in *. destruct (ascii_dec x y) as [-> | _]; [| discriminate].
  destruct (ascii_dec y z) as [_ | _]; [| discriminate].
  now apply (IH b c).
Qed.

Lemma strlcpy_length (src : string) (size : nat) :
  (String.length (strlcpy src size) <= size - 1)%nat.
Proof. unfold strlcpy. rewrite substring_0_length. lia. Qed.

Lemma snprintf_length (size : nat) (text : string) :
  (String.length (snprintf size text) <= size - 1)%nat.
Proof. unfold snprintf. rewrite substring_0_length. lia. Qed.

(** ** What a request can change, and how it is answered *)

Section Requests.

Variable deserializeJson : string -> option JsonDocument.

(** X1: a request changes no global unless it is POST /cancel, which sets
    [cancelRequested] and nothing else, or POST /start arriving while no
    session runs; while a session runs a request can at most raise
    [cancelRequested], so none stops the session; and no request writes the
    sample buffers, the estimator's results or the display throttle. *)
Theorem request_frame (r : Request) (s : State) :
  let s' := fst (route deserializeJson r s) in
  (s' = s
   \/ (method r = HTTP_POST /\ uri r = "/cancel" /\ s' = set_cancelRequested true s)
   \/ (method r = HTTP_POST /\ uri r = "/start" /\ running s = false
       /\ running s' = true))
  /\ (running s = true -> s' = s \/ s' = set_cancelRequested true s)
  /\ (running s = true -> running s' = true)
  /\ irBuffer s' = irBuffer s /\ redBuffer s' = redBuffer s
  /\ heartRate s' = heartRate s /\ hrValid s' = hrValid s
  /\ spo2 s' = spo2 s /\ spo2Valid s' = spo2Valid s
  /\ lastDisplayMs s' = lastDisplayMs s.
Proof.
  cbv zeta. unfold route.
  destruct (method r) eqn:Hm.
  - destruct (String.eqb (uri r) "/data"); cbn [fst handleJSON]; tauto.
  - destruct (String.eqb (uri r) "/start") eqn:Hs.
    + apply String.eqb_eq in Hs. unfold handleStart.
      destruct (running s) eqn:Hrun; cbn [negb fst]; [tauto |].
      split; [right; right; repeat split; assumption |].
      split; [discriminate |]. split; [discriminate |].
      destruct (plain r) as [text |]; [| repeat split].
      destruct (deserializeJson text) as [doc |]; [| repeat split].
      destruct (containsKey doc "name"); repeat split.
    + destruct (String.eqb (uri r) "/cancel") eqn:Hc; cbn [fst handleCancel]; [| tauto].
      apply String.eqb_eq in Hc. repeat split; auto.
  - cbn [fst]. tauto.
  - cbn [fst]. tauto.
Qed.

(** X2: a preflight (OPTIONS) to any path, registered or not, is answered
    204 with the three CORS headers and an empty body and changes nothing;
    "404 Not found", without CORS headers, is the answer exactly to the
    other requests that are not POST /start, POST /cancel or GET /data;
    every other answer is a 200 with the CORS headers and a JSON body. *)
Theorem request_answer (r : Request) (s : State) :
  let resp := snd (route deserializeJson r s) in
  let registered :=
    (method r = HTTP_POST /\ (uri r = "/start" \/ uri r = "/cancel"))
    \/ (method r = HTTP_GET /\ uri r = "/data") in
  (method r = HTTP_OPTIONS -> route deserializeJson r s = (s, handleOptions))
  /\ (resp = handleOptions <-> method r = HTTP_OPTIONS)
  /\ (resp = not_found <-> method r <> HTTP_OPTIONS /\ ~ registered)
  /\ (registered ->
      code resp = 200 /\ headers resp = addCORS
      /\ content_type resp = "application/json").
Proof.
  cbv zeta. unfold route.
  destruct (method r) eqn:Hm.
  - destruct (String.eqb (uri r) "/data") eqn:Hd; cbn [snd handleJSON].
    + apply String.eqb_eq in Hd.
      intuition (try discriminate; try congruence; auto).
    + apply String.eqb_neq in Hd.
      intuition (try discriminate; try congruence; auto).
  - destruct (String.eqb (uri r) "/start") eqn:Hs.
    + apply String.eqb_eq in Hs. unfold handleStart. cbn [snd].
      intuition (try discriminate; try congruence; auto).
    + apply String.eqb_neq in Hs.
      destruct (String.eqb (uri r) "/cancel") eqn:Hc; cbn [snd handleCancel].
      * apply String.eqb_eq in Hc.
        intuition (try discriminate; try congruence; auto).
      * apply String.eqb_neq in Hc.
        intuition (try discriminate; try congruence; auto).
  - cbn [snd]. intuition (try discriminate; try congruence; auto).
  - cbn [snd]. intuition (try discriminate; try congruence; auto).
Qed.

(** X3: the name a Begin stores is a prefix of the name sent, has at most
    31 characters and no NUL; a name of at most 31 characters without a NUL
    is stored as it was sent. *)
Theorem begin_label (text name : string) (doc : JsonDocument) (s : State)
    (Hidle : running s = false)
    (Hdoc : deserializeJson text = Some doc)
    (Hname : member doc "name" = Some (JsonString name)) :
  let p := patientName (fst (handleStart deserializeJson (Some text) s)) in
  String.prefix p name = true
  /\ (String.length p <= 31)%nat
  /\ ~ In Ascii.zero (list_ascii_of_string p)
  /\ (~ In Ascii.zero (list_ascii_of_string name) ->
      (String.length name <= 31)%nat -> p = name).
Proof.
  cbv zeta. unfold handleStart. rewrite Hidle, Hdoc. unfold containsKey, as_c_string.
  rewrite Hname. cbn [negb fst patientName set_patientName set_running set_hadFinger
    set_cancelRequested set_validHRCount set_validSpO2Count set_avgHR set_avgSpO2
    set_hrReadings set_spo2Readings set_statusMsg].
  unfold strlcpy. change (32 - 1)%nat with 31%nat.
  split; [| split; [| split]].
  - apply (prefix_trans _ (c_str name)); [apply substring_0_prefix | apply c_str_prefix].
  - rewrite substring_0_length. lia.
  - intros H. apply substring_0_chars in H. now apply c_str_no_nul in H.
  - intros Hnul Hlen. rewrite (c_str_whole name Hnul). now apply substring_0_whole.
Qed.

End Requests.

(** ** The lines drawn from the name *)

(** X4: with a name of at most 31 characters, which is all [patientName]
    can hold, the greeting line is never cut: it is "Hi, <name>!" whole;
    the title of the result screen is "<name> - Result" whole for a name of
    up to 30 characters, and loses its last character, reading
    "<name> - Resul", for a name of 31. *)
Theorem name_lines (s : State)
    (Hname : (0 < String.length (patientName s) <= 31)%nat) :
  displayGreeting_line s = "Hi, " ++ patientName s ++ "!"
  /\ ((String.length (patientName s) <= 30)%nat ->
      displayResults_nameLine s = patientName s ++ " - Result")
  /\ (String.length (patientName s) = 31%nat ->
      displayResults_nameLine s = patientName s ++ " - Resul").
Proof.
  unfold displayGreeting_line, displayResults_nameLine, snprintf.
  destruct (Nat.ltb_spec 0 (String.length (patientName s))) as [_ | H]; [| lia].
  change (40 - 1)%nat with 39%nat.
  split; [| split].
  - apply substring_0_whole. cbn [append String.length].
    rewrite length_append. cbn. lia.
  - intros H. apply substring_0_whole. rewrite length_append. cbn. lia.
  - intros H.
    replace (patientName s ++ " - Result")
      with ((patientName s ++ " - Resul") ++ "t")
      by (rewrite append_assoc; reflexivity).
    replace 39%nat with (String.length (patientName s ++ " - Resul"))
      by (rewrite length_append, H; reflexivity).
    apply substring_0_append.
Qed.

(** ** Time *)

Lemma usub_advance (c start k : Z) :
  usub ((c + k) mod 2 ^ 32) start = (usub c start + k) mod 2 ^ 32.
Proof.
  unfold usub. rewrite Zminus_mod_idemp_l, Zplus_mod_idemp_l.
  f_equal. lia.
Qed.

Lemma usub_self (c : Z) : usub c c = 0.
Proof. unfold usub. now rewrite Z.sub_diag. Qed.

Section Timing.

Variable deserializeJson : string -> option JsonDocument.
Variable env : Env.

(** What a call of [server.handleClient()] does to the device apart from
    the globals and the responses. *)
Lemma handleClient_counters (d d' : Device) :
  handleClient deserializeJson env d = Some (tt, d') ->
  clock d' = (clock d + latency env (clientCalls d)) mod 2 ^ 32
  /\ clientCalls d' = S (clientCalls d)
  /\ irCalls d' = irCalls d /\ redCalls d' = redCalls d
  /\ availableCalls d' = availableCalls d.
Proof.
  unfold handleClient. destruct (client env (clientCalls d)) as [r |].
  - cbn [globals with_clock with_clientCalls].
    destruct (route deserializeJson r (globals d)) as [s resp].
    intros [= <-]. cbn. repeat split.
  - intros [= <-]. cbn. repeat split.
Qed.

Lemma yieldFor_from_waits (L ms start : Z)
    (Hlat : forall n, 0 <= latency env n <= L) (Hroom : ms + L + 1 <= 2 ^ 32) :
  forall (fuel : nat) (d : Device),
    (Z.to_nat (ms - usub (clock d) start) < fuel)%nat ->
    exists d',
      yieldFor_from deserializeJson env fuel start ms d = Some (tt, d')
      /\ ms <= usub (clock d') start <= Z.max (usub (clock d) start) (ms + L)
      /\ (clientCalls d <= clientCalls d')%nat
      /\ (usub (clock d) start < ms -> (clientCalls d < clientCalls d')%nat)
      /\ (ms <= usub (clock d) start -> d' = d).
Proof.
  intros fuel. induction fuel as [| fuel IH]; intros d Hfuel; [lia |].
  cbn [yieldFor_from]. unfold bind at 1. unfold millis at 1.
  destruct (Z.ltb_spec (usub (clock d) start) ms) as [Hlt | Hge].
  - destruct (handleClient_total deserializeJson env d) as [d1 H1].
    destruct (handleClient_counters d d1 H1) as (Hc & Hn & _).
    unfold bind at 1. rewrite H1. unfold yield, delay, bind at 1, ret at 1.
    unfold bind at 1.
    set (d2 := with_clock ((clock d1 + 1) mod 2 ^ 32) d1).
    assert (He : usub (clock d2) start
                 = usub (clock d) start + latency env (clientCalls d) + 1).
    { subst d2. cbn [clock with_clock]. rewrite usub_advance, Hc, usub_advance.
      rewrite Zplus_mod_idemp_l.
      assert (0 <= usub (clock d) start) by (unfold usub; apply Z.mod_pos_bound; lia).
      specialize (Hlat (clientCalls d)).
      rewrite Z.mod_small by lia. lia. }
    destruct (IH d2) as (d' & Hrun & Hwait & Hcalls & _ & _).
    { rewrite He. specialize (Hlat (clientCalls d)). lia. }
    exists d'. split; [exact Hrun |].
    assert (Hn2 : clientCalls d2 = S (clientCalls d)) by (subst d2; cbn; exact Hn).
    specialize (Hlat (clientCalls d)).
    repeat split; try lia.
  - exists d. unfold ret. repeat split; try lia.
Qed.

(** X5: [yieldFor(ms)] returns, having waited [ms] milliseconds at least and
    the time of one request more at most, also across the wrap-around of
    [millis()]; the server is called at least once in any wait that is not
    zero, and not at all when [ms] is zero. *)
Theorem yieldFor_waits (L ms : Z) (fuel : nat) (d : Device)
    (Hms : 0 <= ms)
    (Hlat : forall n, 0 <= latency env n <= L)
    (Hroom : ms + L + 1 <= 2 ^ 32)
    (Hfuel : (Z.to_nat ms < fuel)%nat) :
  exists d',
    yieldFor deserializeJson env fuel ms d = Some (tt, d')
    /\ ms <= usub (clock d') (clock d) <= ms + L
    /\ (0 < ms -> (clientCalls d < clientCalls d')%nat)
    /\ (ms = 0 -> d' = d).
Proof.
  unfold yieldFor, bind, millis.
  destruct (yieldFor_from_waits L ms (clock d) Hlat Hroom fuel d)
    as (d' & Hrun & Hwait & _ & Hcalls & Hnone).
  { rewrite usub_self. lia. }
  rewrite usub_self in *. specialize (Hlat 0%nat).
  exists d'. split; [exact Hrun |]. split; [lia |].
  split; [exact Hcalls | intros H; apply Hnone; lia].
Qed.

(** X6: the display throttle: a call of [shouldRedisplay] that returns
    [false] changes nothing, and after one that returned [true] every call
    made less than 500 ms later, with [lastDisplayMs] as that call left it,
    returns [false]. *)
Theorem redisplay_throttle (d d1 : Device) (b : bool)
    (Hcall : shouldRedisplay d = Some (b, d1)) :
  (b = false -> d1 = d)
  /\ (b = true ->
      forall d2,
        lastDisplayMs (globals d2) = lastDisplayMs (globals d1) ->
        usub (clock d2) (clock d) < DISPLAY_INTERVAL ->
        shouldRedisplay d2 = Some (false, d2)).
Proof.
  unfold shouldRedisplay, bind, millis, read, assign, ret in Hcall.
  destruct (usub (clock d) (lastDisplayMs (globals d)) >=? DISPLAY_INTERVAL) eqn:E;
    injection Hcall as <- <-.
  - split; [discriminate |]. intros _ d2 Hlast Hsoon.
    cbn [globals with_globals lastDisplayMs set_lastDisplayMs] in Hlast.
    unfold shouldRedisplay, bind, millis, read. rewrite Hlast.
    destruct (Z.geb_spec (usub (clock d2) (clock d)) DISPLAY_INTERVAL); [lia | reflexivity].
  - split; [reflexivity | discriminate].
Qed.

Lemma showResults_waits (L showUntil : Z)
    (Hlat : forall n, 0 <= latency env n <= L) (Hroom : showUntil + L + 10 <= 2 ^ 32) :
  forall (fuel : nat) (d : Device),
    0 <= clock d ->
    (Z.to_nat ((showUntil - clock d + 9) / 10) < fuel)%nat ->
    exists d',
      showResults deserializeJson env fuel showUntil d = Some (tt, d')
      /\ showUntil <= clock d' <= Z.max (clock d) (showUntil + L + 9)
      /\ (showUntil <= clock d -> d' = d)
      /\ ((forall k, (clientCalls d <= k)%nat -> client env k = None) ->
          globals d' = globals d).
Proof.
  intros fuel. induction fuel as [| fuel IH]; intros d Hclock Hfuel; [lia |].
  cbn [showResults]. unfold bind at 1. unfold millis at 1.
  destruct (Z.ltb_spec (clock d) showUntil) as [Hlt | Hge].
  - destruct (handleClient_total deserializeJson env d) as [d1 H1].
    destruct (handleClient_counters d d1 H1) as (Hc & Hn & _).
    unfold bind at 1. rewrite H1. unfold yield, delay, bind at 1, ret at 1.
    unfold bind at 1.
    set (d2 := with_clock ((clock d1 + 10) mod 2 ^ 32) d1).
    specialize (Hlat (clientCalls d)).
    assert (He : clock d2 = clock d + latency env (clientCalls d) + 10).
    { subst d2. cbn [clock with_clock]. rewrite Hc.
      rewrite (Z.mod_small (clock d + _)) by lia. rewrite Z.mod_small by lia. lia. }
    destruct (IH d2) as (d' & Hrun & Hwait & _ & Hquiet).
    { lia. }
    { rewrite He.
      assert (Hq : (showUntil - (clock d + latency env (clientCalls d) + 10) + 9) / 10
                   <= (showUntil - clock d + 9) / 10 - 1).
      { replace (showUntil - clock d + 9)
          with ((showUntil - clock d - 10 + 9) + 1 * 10) by lia.
        rewrite Z.div_add by lia.
        assert ((showUntil - (clock d + latency env (clientCalls d) + 10) + 9) / 10
                <= (showUntil - clock d - 10 + 9) / 10)
          by (apply Z.div_le_mono; lia).
        lia. }
      assert (Hp : 1 <= (showUntil - clock d + 9) / 10).
      { apply Z.div_le_lower_bound; lia. }
      lia. }
    exists d'. split; [exact Hrun |]. split; [lia |]. split; [lia |].
    intros Hnone. rewrite Hquiet.
    + subst d2. cbn [globals with_clock].
      unfold handleClient in H1. rewrite (Hnone (clientCalls d)) in H1 by lia.
      now injection H1 as <-.
    + intros k Hk. apply Hnone. subst d2. cbn [clientCalls with_clock] in Hk. lia.
  - exists d. unfold ret. split; [reflexivity |]. split; [lia |].
    split; reflexivity.
Qed.

(** X7: away from the wrap-around of [millis()] the result is held for
    ten seconds at least, and for the time of one request and one 10 ms
    delay more at most, before the device goes back to the idle screen with
    the name cleared. *)
Theorem hold_lasts (L : Z) (fuel : nat) (d : Device)
    (Hclock : 0 <= clock d)
    (Hlat : forall n, 0 <= latency env n <= L)
    (Hroom : clock d + 10000 + L + 10 <= 2 ^ 32)
    (Hfuel : (1000 < fuel)%nat) :
  exists d',
    complete deserializeJson env fuel d = Some (tt, d')
    /\ clock d + 10000 <= clock d' <= clock d + 10000 + L + 9
    /\ statusMsg (globals d') = "Idle"
    /\ patientName (globals d') = EmptyString.
Proof.
  pose proof (Hlat 0%nat) as HL.
  unfold complete. unfold bind at 1, assign at 1. unfold bind at 1, assign at 1.
  unfold bind at 1, assign at 1. unfold bind at 1, millis at 1.
  set (d0 := with_globals _ (with_globals _ (with_globals _ d))).
  assert (Hd0 : clock d0 = clock d) by reflexivity.
  rewrite Hd0. rewrite (Z.mod_small (clock d + 10000)) by lia.
  destruct (showResults_waits L (clock d + 10000) Hlat ltac:(lia) fuel d0)
    as (d1 & Hrun & Hwait & _).
  { lia. }
  { rewrite Hd0. replace (clock d + 10000 - clock d + 9) with 10009 by lia.
    change (10009 / 10) with 1000. lia. }
  unfold bind at 1. rewrite Hrun. unfold bind, assign.
  eexists. split; [reflexivity |].
  cbn [clock globals with_globals]. rewrite Hd0 in Hwait.
  split; [lia |]. split; reflexivity.
Qed.

(** X8: in the last ten seconds before [millis()] wraps around, [showUntil]
    wraps to a small number and the result is not held at all: no request
    is served between the result screen and the return to the idle screen. *)
Theorem hold_skipped (fuel : nat) (d : Device)
    (Hclock : 0 <= clock d < 2 ^ 32)
    (Hwrap : 2 ^ 32 <= clock d + 10000)
    (Hfuel : (0 < fuel)%nat) :
  complete deserializeJson env fuel d
  = Some (tt, with_globals
                (displayIdle
                   (set_patientName EmptyString
                      (displayResults (set_running false (calculateAverages (globals d))))))
                d).
Proof.
  destruct fuel as [| fuel]; [lia |].
  unfold complete. unfold bind at 1, assign at 1. unfold bind at 1, assign at 1.
  unfold bind at 1, assign at 1. unfold bind at 1, millis at 1.
  set (d0 := with_globals _ (with_globals _ (with_globals _ d))).
  assert (Hd0 : clock d0 = clock d) by reflexivity.
  rewrite Hd0. cbn [showResults]. unfold bind at 1. unfold bind at 1, millis at 1.
  rewrite Hd0.
  assert (Hmod : (clock d + 10000) mod 2 ^ 32 = clock d + 10000 - 2 ^ 32).
  { symmetry. apply (Z.mod_unique_pos _ _ 1); lia. }
  rewrite Hmod.
  destruct (Z.ltb_spec (clock d) (clock d + 10000 - 2 ^ 32)) as [Hlt | _]; [lia |].
  reflexivity.
Qed.

Lemma countdownSecond_result (t : Z) :
  forall (fuel : nat) (d d' : Device) (b : bool),
    countdownSecond deserializeJson env fuel t d = Some (b, d') ->
    (b = false -> cancelRequested (globals d') = true)
    /\ (b = true ->
        1000 <= usub (clock d') t
        /\ (usub (clock d) t < 1000 -> cancelRequested (globals d') = false)
        /\ (1000 <= usub (clock d) t -> d' = d)).
Proof.
  intros fuel. induction fuel as [| fuel IH]; intros d d' b H; [discriminate |].
  cbn [countdownSecond] in H. unfold bind at 1, millis at 1 in H.
  destruct (Z.ltb_spec (usub (clock d) t) 1000) as [Hlt | Hge].
  - apply bind_inv in H as ([] & d1 & H1 & H). unfold yield in H.
    apply bind_inv in H as ([] & d1' & [= <-] & H).
    apply bind_inv in H as (c & d1' & [= <- <-] & H).
    destruct (cancelRequested (globals d1)) eqn:Hc.
    + injection H as <- <-. split; [intros _; exact Hc | discriminate].
    + apply bind_inv in H as ([] & d2 & [= <-] & H).
      destruct (IH _ d' b H) as [Hf Ht].
      split; [exact Hf |]. intros Hb. destruct (Ht Hb) as (Hwait & Hnew & Hsame).
      split; [exact Hwait |]. split; [| lia]. intros _.
      set (d2 := with_clock _ d1) in *.
      destruct (Z.lt_ge_cases (usub (clock d2) t) 1000) as [Hl | Hg].
      * now apply Hnew.
      * rewrite (Hsame Hg). exact Hc.
  - injection H as <- <-. split; [discriminate |]. intros _.
    split; [lia |]. split; [lia | reflexivity].
Qed.

(** X9: what [interruptibleCountdown] returns tells whether a cancellation
    is pending when it returns: [false] only with [cancelRequested] set,
    [true] (after a countdown of at least one second) only with it clear. *)
Theorem countdown_result (fuel seconds : nat) (d d' : Device) (b : bool)
    (Hrun : interruptibleCountdown deserializeJson env fuel seconds d = Some (b, d')) :
  (b = false -> cancelRequested (globals d') = true)
  /\ (b = true -> (0 < seconds)%nat -> cancelRequested (globals d') = false).
Proof.
  revert d Hrun. induction seconds as [| i IH]; intros d Hrun.
  - injection Hrun as <- <-. split; [discriminate | lia].
  - cbn [interruptibleCountdown] in Hrun.
    apply bind_inv in Hrun as ([] & d1 & [= <-] & H).
    apply bind_inv in H as (t & d1' & [= <- <-] & H).
    apply bind_inv in H as (go_on & d2 & H2 & H).
    apply countdownSecond_result in H2 as [Hf Ht].
    destruct go_on.
    + destruct (Ht eq_refl) as (_ & Hnew & _).
      cbn [clock with_globals] in Hnew. rewrite usub_self in Hnew.
      specialize (Hnew ltac:(lia)).
      destruct (IH d2 H) as [IHf IHt]. split; [exact IHf |].
      intros Hb _. destruct i as [| i]; [| apply IHt; [exact Hb | lia]].
      injection H as _ <-. exact Hnew.
    + injection H as <- <-. split; [intros _; now apply Hf | discriminate].
Qed.

End Timing.

(** ** One stage, sample by sample *)

Lemma route_buffers (deserializeJson : string -> option JsonDocument)
    (ib rb : list Z) (r : Request) (s : State) :
  irBuffer s = ib /\ redBuffer s = rb ->
  irBuffer (fst (route deserializeJson r s)) = ib
  /\ redBuffer (fst (route deserializeJson r s)) = rb.
Proof.
  intros H. unfold route.
  destruct (method r); try exact H.
  - destruct (String.eqb (uri r) "/data"); exact H.
  - destruct (String.eqb (uri r) "/start").
    + unfold handleStart. destruct (running s); cbn [negb fst]; [exact H |].
      destruct (plain r) as [text |]; [| exact H].
      destruct (deserializeJson text) as [doc |]; [| exact H].
      destruct (containsKey doc "name"); exact H.
    + destruct (String.eqb (uri r) "/cancel"); exact H.
Qed.

Section Stage.

Variable deserializeJson : string -> option JsonDocument.
Variable maxim : list Z -> Z -> list Z -> Z * Z * Z * Z.
Variable env : Env.

Lemma handleClient_buffers (d d' : Device) :
  handleClient deserializeJson env d = Some (tt, d') ->
  irBuffer (globals d') = irBuffer (globals d)
  /\ redBuffer (globals d') = redBuffer (globals d).
Proof.
  intros H.
  apply (keeps_handleClient deserializeJson env
           (fun s => irBuffer s = irBuffer (globals d)
                     /\ redBuffer s = redBuffer (globals d))
           (route_buffers deserializeJson _ _) d tt d'); [now split | exact H].
Qed.

Lemma awaitSample_counters :
  forall (fuel : nat) (d d' : Device) (b : bool),
    awaitSample deserializeJson env fuel d = Some (b, d') ->
    irCalls d' = irCalls d /\ redCalls d' = redCalls d
    /\ irBuffer (globals d') = irBuffer (globals d)
    /\ redBuffer (globals d') = redBuffer (globals d)
    /\ (b = false -> cancelRequested (globals d') = true).
Proof.
  intros fuel. induction fuel as [| fuel IH]; intros d d' b H; [discriminate |].
  cbn [awaitSample] in H.
  apply bind_inv in H as (a & d0 & [= <- <-] & H).
  destruct (available env (availableCalls d)); cbn [negb] in H.
  - injection H as <- <-. cbn. repeat split. discriminate.
  - unfold sensor_check, yield in H.
    apply bind_inv in H as ([] & d0 & [= <-] & H).
    apply bind_inv in H as ([] & d1 & H1 & H).
    apply bind_inv in H as ([] & d1' & [= <-] & H).
    apply bind_inv in H as (c & d1' & [= <- <-] & H).
    destruct (handleClient_counters deserializeJson env _ _ H1) as (_ & _ & Hi & Hr & _).
    destruct (handleClient_buffers _ _ H1) as [Hib Hrb].
    cbn in Hi, Hr, Hib, Hrb.
    destruct (cancelRequested (globals d1)) eqn:Hc.
    + injection H as <- <-. repeat split; auto.
    + destruct (IH _ _ _ H) as (Hi2 & Hr2 & Hib2 & Hrb2 & Hf).
      repeat split; try congruence. exact Hf.
Qed.

(** The check [cancelRequested || !fingerPresent()]. *)
Lemma interrupted_inv (d d' : Device) (stop : bool) :
  interrupted env d = Some (stop, d') ->
  globals d' = globals d /\ redCalls d' = redCalls d
  /\ (stop = true ->
      cancelRequested (globals d') = true
      \/ (irCalls d' = S (irCalls d) /\ getIR env (irCalls d) <= IR_FINGER_THRESHOLD))
  /\ (stop = false ->
      irCalls d' = S (irCalls d) /\ IR_FINGER_THRESHOLD < getIR env (irCalls d)).
Proof.
  unfold interrupted, fingerPresent, bind, read, sensor_getIR, ret.
  destruct (cancelRequested (globals d)) eqn:Hc.
  - intros [= <- <-]. split; [reflexivity |]. split; [reflexivity |].
    split; [intros _; now left | discriminate].
  - intros [= <- <-]. cbn [globals irCalls redCalls with_irCalls].
    split; [reflexivity |]. split; [reflexivity |].
    destruct (Z.gtb_spec (getIR env (irCalls d)) IR_FINGER_THRESHOLD);
      cbn [negb]; split; intros Hs; try discriminate Hs.
    + split; [reflexivity | lia].
    + right. split; [reflexivity | lia].
Qed.

(** X10: a stage that returns [false] had a reason: a cancellation is
    pending when it returns, or one of the infrared values it read for its
    finger checks was not above the threshold. *)
Theorem stage_interrupted_for_a_reason (fuel idx : nat) (d d' : Device)
    (Hrun : takeSingleReading deserializeJson maxim env fuel idx d = Some (false, d')) :
  cancelRequested (globals d') = true
  \/ exists k, (irCalls d <= k < irCalls d')%nat /\ getIR env k <= IR_FINGER_THRESHOLD.
Proof.
  apply takeSingleReading_inv in Hrun as [[_ H] | [[=] _]].
  revert H. generalize (nth idx sampleCounts 0%nat) at 1. generalize 0%nat.
  intros i todo. revert i d.
  induction todo as [| todo IH]; intros i d H; [discriminate |].
  cbn [collectSamples] in H. unfold yield, sensor_nextSample in H.
  apply bind_inv in H as ([] & d1 & H1 & H).
  apply bind_inv in H as ([] & d1' & [= <-] & H).
  apply bind_inv in H as (stop & d2 & H2 & H).
  destruct (handleClient_counters deserializeJson env _ _ H1) as (_ & _ & Hi1 & _).
  destruct (interrupted_inv _ _ _ H2) as (_ & _ & Hstop & Hgo).
  destruct stop.
  - injection H as <-. destruct (Hstop eq_refl) as [Hc | [Hi2 Hir]]; [now left |].
    right. exists (irCalls d1). split; [lia | exact Hir].
  - destruct (Hgo eq_refl) as [Hi2 _].
    apply bind_inv in H as (ready & d3 & H3 & H).
    destruct (awaitSample_counters _ _ _ _ H3) as (Hi3 & _ & _ & _ & Hf).
    destruct ready; cbn [negb] in H.
    + apply bind_inv in H as (red & d4 & [= <- <-] & H).
      apply bind_inv in H as ([] & d5 & [= <-] & H).
      apply bind_inv in H as (ir & d6 & [= <- <-] & H).
      apply bind_inv in H as ([] & d7 & [= <-] & H).
      apply bind_inv in H as ([] & d8 & [= <-] & H).
      destruct (IH _ _ H) as [Hc | (k & Hk & Hir)]; [now left |].
      right. exists k. split; [| exact Hir]. cbn in Hk. lia.
    + injection H as <-. left. now apply Hf.
Qed.

(** X11: the sample loop writes where it should: when it has filled a
    window of [todo] samples from index [i] on, and the window fits the
    buffers, sample [k] of the window holds the red value of the [k]-th
    call of [getRed] and the infrared value of the call of [getIR] that
    followed the [k]-th finger check, which read a value above the
    threshold; what the buffers held below [i] is as it was, and they keep
    their length.  The window of every stage fits. *)
Theorem window_samples (fuel todo : nat) :
  forall (i : nat) (d d' : Device)
    (Hir : length (irBuffer (globals d)) = MAX_BUFFER)
    (Hred : length (redBuffer (globals d)) = MAX_BUFFER)
    (Hfit : (i + todo <= MAX_BUFFER)%nat)
    (Hrun : collectSamples deserializeJson env fuel i todo d = Some (true, d')),
    (forall k, (k < todo)%nat ->
       irBuffer (globals d') !! (i + k)%nat = Some (getIR env (irCalls d + 2 * k + 1))
       /\ redBuffer (globals d') !! (i + k)%nat = Some (getRed env (redCalls d + k))
       /\ IR_FINGER_THRESHOLD < getIR env (irCalls d + 2 * k))
    /\ (forall j, (j < i)%nat ->
          irBuffer (globals d') !! j = irBuffer (globals d) !! j
          /\ redBuffer (globals d') !! j = redBuffer (globals d) !! j)
    /\ length (irBuffer (globals d')) = MAX_BUFFER
    /\ length (redBuffer (globals d')) = MAX_BUFFER
    /\ irCalls d' = (irCalls d + 2 * todo)%nat
    /\ redCalls d' = (redCalls d + todo)%nat
    /\ (forall idx, (nth idx sampleCounts 0 <= MAX_BUFFER)%nat).
Proof.
  assert (Hwin : forall idx, (nth idx sampleCounts 0 <= MAX_BUFFER)%nat).
  { intros idx. unfold MAX_BUFFER.
    do 5 (destruct idx as [| idx]; [cbn; lia |]). destruct idx; cbn; lia. }
  induction todo as [| todo IH]; intros i d d' Hir Hred Hfit H.
  - injection H as <-. repeat split; try lia; try assumption; intros k Hk; lia.
  - cbn [collectSamples] in H. unfold yield, sensor_nextSample in H.
    apply bind_inv in H as ([] & d1 & H1 & H).
    apply bind_inv in H as ([] & d1' & [= <-] & H).
    apply bind_inv in H as (stop & d2 & H2 & H).
    destruct (handleClient_counters deserializeJson env _ _ H1) as (_ & _ & Hi1 & Hr1 & _).
    destruct (handleClient_buffers _ _ H1) as [Hib1 Hrb1].
    destruct (interrupted_inv _ _ _ H2) as (Hg2 & Hr2 & _ & Hgo).
    destruct stop; [discriminate |].
    destruct (Hgo eq_refl) as [Hi2 Hfinger].
    apply bind_inv in H as (ready & d3 & H3 & H).
    destruct (awaitSample_counters _ _ _ _ H3) as (Hi3 & Hr3 & Hib3 & Hrb3 & _).
    destruct ready; cbn [negb] in H; [| discriminate].
    apply bind_inv in H as (red & d4 & [= <- <-] & H).
    apply bind_inv in H as ([] & d5 & [= <-] & H).
    apply bind_inv in H as (ir & d6 & [= <- <-] & H).
    apply bind_inv in H as ([] & d7 & [= <-] & H).
    apply bind_inv in H as ([] & d8 & [= <-] & H).
    assert (Hib : irBuffer (globals d3) = irBuffer (globals d)) by congruence.
    assert (Hrb : redBuffer (globals d3) = redBuffer (globals d)) by congruence.
    assert (Hic : irCalls d3 = S (irCalls d)) by congruence.
    assert (Hrc : redCalls d3 = redCalls d) by congruence.
    apply IH in H;
      [| cbn; rewrite length_insert; congruence
       | cbn; rewrite length_insert; congruence
       | lia].
    destruct H as (Hk & Hj & Hl1 & Hl2 & Hc1 & Hc2 & _).
    cbn [globals with_globals with_irCalls with_redCalls irBuffer redBuffer
         set_irBuffer set_redBuffer irCalls redCalls] in Hk, Hj, Hc1, Hc2.
    rewrite Hib, Hrb, Hic, Hrc in Hj. rewrite Hic, Hrc in Hk.
    rewrite Hic in Hc1. rewrite Hrc in Hc2.
    split; [| split; [| repeat split; try assumption; lia]].
    + intros [| k] Hlt.
      * rewrite Nat.add_0_r, Nat.mul_0_r, !Nat.add_0_r.
        destruct (Hj i ltac:(lia)) as [-> ->].
        rewrite !list_lookup_insert_eq by lia.
        split; [do 2 f_equal; lia |]. split; [reflexivity | now rewrite <- Hi1].
      * destruct (Hk k ltac:(lia)) as (Ha & Hb & Hc).
        replace (i + S k)%nat with (S i + k)%nat by lia.
        rewrite Ha, Hb.
        split; [do 2 f_equal; lia |]. split; [do 2 f_equal; lia |].
        replace (irCalls d + 2 * S k)%nat with (S (S (irCalls d)) + 2 * k)%nat by lia.
        exact Hc.
    + intros j Hlt. destruct (Hj j ltac:(lia)) as [-> ->].
      rewrite !list_lookup_insert_ne by lia. now split.
Qed.

Lemma storeReading_others (idx j : nat) (s : State) :
  j <> idx ->
  hrReadings (storeReading idx s) !! j = hrReadings s !! j
  /\ spo2Readings (storeReading idx s) !! j = spo2Readings s !! j.
Proof.
  intros Hne. unfold storeReading.
  destruct (negb (hrValid s =? 0) && (heartRate s >=? 40) && (heartRate s <=? 220));
    cbn -[F32.of_int int_incr];
    destruct (negb (spo2Valid s =? 0) && (spo2 s >=? 80) && (spo2 s <=? 100));
    cbn -[F32.of_int int_incr];
    rewrite !list_lookup_insert_ne by congruence; now split.
Qed.

Lemma storeReading_rest (idx : nat) (s : State) :
  running (storeReading idx s) = running s
  /\ avgHR (storeReading idx s) = avgHR s
  /\ avgSpO2 (storeReading idx s) = avgSpO2 s
  /\ patientName (storeReading idx s) = patientName s
  /\ statusMsg (storeReading idx s) = statusMsg s
  /\ irBuffer (storeReading idx s) = irBuffer s
  /\ redBuffer (storeReading idx s) = redBuffer s.
Proof.
  unfold storeReading.
  destruct (negb (hrValid s =? 0) && (heartRate s >=? 40) && (heartRate s <=? 220));
    cbn -[F32.of_int int_incr];
    destruct (negb (spo2Valid s =? 0) && (spo2 s >=? 80) && (spo2 s <=? 100));
    cbn -[F32.of_int int_incr]; repeat split.
Qed.

(** X12: a stage of a running session touches no reading but its own: one
    that returns [false] leaves both arrays and both counters as they were,
    one that returns [true] leaves every other index of both arrays as it
    was; either way the session is still running, and the averages and the
    name are as before, whatever was requested meanwhile. *)
Theorem stage_frame (fuel idx : nat) (d d' : Device) (b : bool)
    (Hlive : running (globals d) = true)
    (Hrun : takeSingleReading deserializeJson maxim env fuel idx d = Some (b, d')) :
  running (globals d') = true
  /\ avgHR (globals d') = avgHR (globals d)
  /\ avgSpO2 (globals d') = avgSpO2 (globals d)
  /\ patientName (globals d') = patientName (globals d)
  /\ (b = false ->
      hrReadings (globals d') = hrReadings (globals d)
      /\ spo2Readings (globals d') = spo2Readings (globals d)
      /\ validHRCount (globals d') = validHRCount (globals d)
      /\ validSpO2Count (globals d') = validSpO2Count (globals d))
  /\ (b = true ->
      forall j, j <> idx ->
        hrReadings (globals d') !! j = hrReadings (globals d) !! j
        /\ spo2Readings (globals d') !! j = spo2Readings (globals d) !! j).
Proof.
  set (P := fun s => running s = true
                     /\ avgHR s = avgHR (globals d) /\ avgSpO2 s = avgSpO2 (globals d)
                     /\ patientName s = patientName (globals d)
                     /\ hrReadings s = hrReadings (globals d)
                     /\ spo2Readings s = spo2Readings (globals d)
                     /\ validHRCount s = validHRCount (globals d)
                     /\ validSpO2Count s = validSpO2Count (globals d)).
  assert (HP : P (globals d)) by (subst P; cbn; repeat split; assumption).
  assert (Hkeep : forall n, keeps P (collectSamples deserializeJson env fuel 0 n)).
  { intros n. apply keeps_collectSamples.
    - apply route_running.
      + now intros s (H & _).
      + intros s H. exact H.
    - intros s v H. exact H.
    - intros s v H. exact H. }
  apply takeSingleReading_inv in Hrun as [[-> H] | (-> & d1 & H & ->)];
    apply (Hkeep _ d _ _ HP) in H;
    destruct H as (H1 & H2 & H3 & H4 & H5 & H6 & H7 & H8).
  - repeat split; try assumption; discriminate.
  - cbn [globals with_globals].
    pose proof (storeReading_rest idx (estimate maxim (nth idx sampleCounts 0%nat) (globals d1)))
      as (R1 & R2 & R3 & R4 & _).
    rewrite R1, R2, R3, R4. unfold estimate.
    destruct (maxim _ _ _) as [[[sp spv] hr] hrv]. cbn [running avgHR avgSpO2 patientName set_estimate].
    repeat split; try assumption; try discriminate.
    + destruct (storeReading_others idx j (set_estimate sp spv hr hrv (globals d1)))
        as [E _]; [assumption |].
      rewrite E. cbn [hrReadings set_estimate]. now rewrite H5.
    + destruct (storeReading_others idx j (set_estimate sp spv hr hrv (globals d1)))
        as [_ E]; [assumption |].
      rewrite E. cbn [spo2Readings set_estimate]. now rewrite H6.
Qed.

End Stage.

(** ** binary32 facts about the averages, by enumeration *)

Lemma hr_reported_ok (n a : Z) :
  1 <= n <= 5 -> 40 * n <= a <= 220 * n ->
  let x := F32.div (F32.of_int a) (F32.of_int n) in
  40 <= F32.to_int x <= 220
  /\ F32.gtb x (F32.of_int 0) = true
  /\ F32.eqb x (F32.of_int 0) = false
  /\ F32.geb x (F32.of_int 60) = (60 <=? F32.to_int x)
  /\ (F32.leb x (F32.of_int 100) = true -> F32.to_int x <= 100).
Proof.
  assert (H : forallb (fun n => forallb (hr_reported n) (upto 40 1061)) (upto 1 5) = true)
    by (vm_compute; reflexivity).
  intros Hn Ha. rewrite forallb_forall in H.
  assert (Hin : In n (upto 1 5)) by (apply upto_In; lia).
  specialize (H n Hin). cbv beta in H. rewrite forallb_forall in H.
  assert (Hia : In a (upto 40 1061)) by (apply upto_In; lia).
  specialize (H a Hia). unfold hr_reported in H. cbv zeta in *.
  replace ((40 * n <=? a) && (a <=? 220 * n)) with true in H
    by (symmetry; apply andb_true_intro; split; lia).
  cbn [negb orb] in H.
  apply andb_prop in H as [H H6]. apply andb_prop in H as [H H5].
  apply andb_prop in H as [H H4]. apply andb_prop in H as [H H3].
  apply andb_prop in H as [H1 H2].
  apply negb_true_iff in H4. apply Bool.eqb_prop in H5.
  split; [lia |]. split; [exact H3 |]. split; [exact H4 |]. split; [exact H5 |].
  intros Hle. rewrite Hle in H6. cbn [implb] in H6. lia.
Qed.

Lemma spo2_reported_ok (n a : Z) :
  1 <= n <= 5 -> 80 * n <= a <= 100 * n ->
  let x := F32.div (F32.of_int a) (F32.of_int n) in
  80 <= F32.to_int x <= 100
  /\ F32.gtb x (F32.of_int 0) = true
  /\ F32.eqb x (F32.of_int 0) = false
  /\ F32.geb x (F32.of_int 95) = (95 <=? F32.to_int x)
  /\ F32.geb x (F32.of_int 90) = (90 <=? F32.to_int x).
Proof.
  assert (H : forallb (fun n => forallb (spo2_reported n) (upto 80 421)) (upto 1 5) = true)
    by (vm_compute; reflexivity).
  intros Hn Ha. rewrite forallb_forall in H.
  assert (Hin : In n (upto 1 5)) by (apply upto_In; lia).
  specialize (H n Hin). cbv beta in H. rewrite forallb_forall in H.
  assert (Hia : In a (upto 80 421)) by (apply upto_In; lia).
  specialize (H a Hia). unfold spo2_reported in H. cbv zeta in *.
  replace ((80 * n <=? a) && (a <=? 100 * n)) with true in H
    by (symmetry; apply andb_true_intro; split; lia).
  cbn [negb orb] in H.
  apply andb_prop in H as [H H6]. apply andb_prop in H as [H H5].
  apply andb_prop in H as [H H4]. apply andb_prop in H as [H H3].
  apply andb_prop in H as [H1 H2].
  apply negb_true_iff in H4. apply Bool.eqb_prop in H5. apply Bool.eqb_prop in H6.
  split; [lia |]. split; [exact H3 |]. split; [exact H4 |]. split; assumption.
Qed.

(** What a heart-rate average that goes with its counter looks like. *)
Lemma Report_hr (c : Z) (x : float) :
  Report 40 220 c x ->
  0 <= c <= 5
  /\ ((c = 0 /\ F32.to_int x = 0) \/ (0 < c /\ 40 <= F32.to_int x <= 220))
  /\ F32.eqb x (F32.of_int 0) = (c =? 0)
  /\ F32.gtb x (F32.of_int 0) = (0 <? c)
  /\ F32.geb x (F32.of_int 60) = (60 <=? F32.to_int x)
  /\ (F32.leb x (F32.of_int 100) = true -> F32.to_int x <= 100).
Proof.
  intros [[-> ->] | (Hc & a & Ha & ->)].
  - repeat split; try reflexivity; try lia; [left; now split | intros _; cbn; lia].
  - destruct (hr_reported_ok c a Hc Ha) as (H1 & H2 & H3 & H4 & H5).
    split; [lia |]. split; [right; split; lia |].
    split; [rewrite H3; symmetry; apply Z.eqb_neq; lia |].
    split; [rewrite H2; symmetry; apply Z.ltb_lt; lia |].
    split; assumption.
Qed.

Lemma Report_spo2 (c : Z) (x : float) :
  Report 80 100 c x ->
  0 <= c <= 5
  /\ ((c = 0 /\ F32.to_int x = 0) \/ (0 < c /\ 80 <= F32.to_int x <= 100))
  /\ F32.eqb x (F32.of_int 0) = (c =? 0)
  /\ F32.gtb x (F32.of_int 0) = (0 <? c)
  /\ F32.geb x (F32.of_int 95) = (95 <=? F32.to_int x)
  /\ F32.geb x (F32.of_int 90) = (90 <=? F32.to_int x).
Proof.
  intros [[-> ->] | (Hc & a & Ha & ->)].
  - repeat split; try reflexivity; try lia. left. now split.
  - destruct (spo2_reported_ok c a Hc Ha) as (H1 & H2 & H3 & H4 & H5).
    split; [lia |]. split; [right; split; lia |].
    split; [rewrite H3; symmetry; apply Z.eqb_neq; lia |].
    split; [rewrite H2; symmetry; apply Z.ltb_lt; lia |].
    split; assumption.
Qed.

(** ** Reasoning about the device and the responses it has sent *)

Lemma holds_ret (Q : Device -> Prop) {A} (a : A) : holds Q (ret a).
Proof. intros d x d' HQ [= _ <-]. exact HQ. Qed.

Lemma holds_bind (Q : Device -> Prop) {A B} (m : M A) (k : A -> M B) :
  holds Q m -> (forall a, holds Q (k a)) -> holds Q (bind m k).
Proof.
  intros Hm Hk d b d' HQ H. apply bind_inv in H as (a & d1 & H1 & H2).
  exact (Hk a d1 b d' (Hm d a d1 HQ H1) H2).
Qed.

Lemma holds_read (Q : Device -> Prop) {A} (f : State -> A) : holds Q (read f).
Proof. intros d x d' HQ [= _ <-]. exact HQ. Qed.

Lemma holds_millis (Q : Device -> Prop) : holds Q millis.
Proof. intros d x d' HQ [= _ <-]. exact HQ. Qed.

Lemma holds_out_of_fuel (Q : Device -> Prop) {A} : holds Q (@out_of_fuel A).
Proof. intros d x d' _ [=]. Qed.

Lemma holds_apply (Q : Device -> Prop) {A} (m : M A) (d d' : Device) (a : A) :
  m d = Some (a, d') -> Q d -> holds Q m -> Q d'.
Proof. intros H HQ Hk. exact (Hk d a d' HQ H). Qed.

Section Responses.

Variable deserializeJson : string -> option JsonDocument.
Variable env : Env.

Lemma holds_assign (P : State -> Prop) (f : State -> State) :
  (forall s, P s -> P (f s)) -> holds (Inv deserializeJson P) (assign f).
Proof. intros Hf d x d' [HP Hlog] [= _ <-]. split; [now apply Hf | exact Hlog]. Qed.

Lemma holds_delay (P : State -> Prop) (ms : Z) :
  holds (Inv deserializeJson P) (delay ms).
Proof. intros d x d' HQ [= _ <-]. exact HQ. Qed.

Lemma holds_sensor_getIR (P : State -> Prop) :
  holds (Inv deserializeJson P) (sensor_getIR env).
Proof. intros d x d' HQ [= _ <-]. exact HQ. Qed.

Lemma holds_sensor_getRed (P : State -> Prop) :
  holds (Inv deserializeJson P) (sensor_getRed env).
Proof. intros d x d' HQ [= _ <-]. exact HQ. Qed.

Lemma holds_sensor_available (P : State -> Prop) :
  holds (Inv deserializeJson P) (sensor_available env).
Proof. intros d x d' HQ [= _ <-]. exact HQ. Qed.

Lemma Inv_weaken (P P' : State -> Prop) (d : Device) :
  (forall s, P s -> P' s) -> Inv deserializeJson P d -> Inv deserializeJson P' d.
Proof. intros H [HP Hlog]. split; [now apply H | exact Hlog]. Qed.

End Responses.

(** One step through a computation, towards [holds (Inv _ P)]. *)
Ltac holds_step :=
  first
    [ assumption
    | apply holds_ret | apply holds_read | apply holds_millis | apply holds_delay
    | apply holds_out_of_fuel
    | apply holds_sensor_getIR | apply holds_sensor_getRed
    | apply holds_sensor_available
    | apply holds_bind; [| intros ?]
    | match goal with
      | |- holds _ (if ?b then _ else _) => destruct b
      end ].

Section Observed.

Variable deserializeJson : string -> option JsonDocument.
Variable env : Env.
Variable P : State -> Prop.
Hypothesis HP : Serviceable deserializeJson P.

Lemma holds_handleClient :
  holds (Inv deserializeJson P) (handleClient deserializeJson env).
Proof.
  destruct HP as (P_sane & P_route & _).
  intros d x d' [Hd Hlog]. unfold handleClient.
  destruct (client env (clientCalls d)) as [r |].
  - pose proof (P_route r (globals d) Hd) as Hr.
    cbn [globals sent with_clock with_clientCalls].
    destruct (route deserializeJson r (globals d)) as [s resp] eqn:E.
    intros [= _ <-]. split; [exact Hr |].
    cbn [sent with_sent]. apply Forall_app. split; [exact Hlog |].
    constructor; [| constructor].
    exists r, (globals d). split; [now apply P_sane | now rewrite E].
  - intros [= _ <-]. split; assumption.
Qed.

Lemma holds_status (t : string) :
  holds (Inv deserializeJson P) (assign (set_statusMsg (snprintf 32 t))).
Proof. apply holds_assign. intros s. apply HP. Qed.

Lemma holds_yieldFor_from (fuel : nat) (start ms : Z) :
  holds (Inv deserializeJson P) (yieldFor_from deserializeJson env fuel start ms).
Proof.
  pose proof holds_handleClient as Hc.
  induction fuel as [| fuel IH]; cbn [yieldFor_from]; unfold yield; repeat holds_step.
Qed.

Lemma holds_yieldFor (fuel : nat) (ms : Z) :
  holds (Inv deserializeJson P) (yieldFor deserializeJson env fuel ms).
Proof.
  pose proof (holds_yieldFor_from fuel) as Hy. unfold yieldFor.
  holds_step; [holds_step | apply Hy].
Qed.

Lemma holds_awaitSample (fuel : nat) :
  holds (Inv deserializeJson P) (awaitSample deserializeJson env fuel).
Proof.
  pose proof holds_handleClient as Hc.
  induction fuel as [| fuel IH]; cbn [awaitSample];
    unfold yield, sensor_check; repeat holds_step.
Qed.

Lemma holds_interrupted : holds (Inv deserializeJson P) (interrupted env).
Proof. unfold interrupted, fingerPresent. repeat holds_step. Qed.

Lemma holds_collectSamples (fuel : nat) (todo : nat) :
  forall i, holds (Inv deserializeJson P) (collectSamples deserializeJson env fuel i todo).
Proof.
  pose proof holds_handleClient as Hc.
  pose proof (holds_awaitSample fuel) as Ha.
  pose proof holds_interrupted as Hi.
  induction todo as [| todo IH]; intros i; cbn [collectSamples];
    unfold yield, sensor_nextSample; repeat holds_step.
  - apply holds_assign. intros s. apply HP.
  - apply holds_assign. intros s. apply HP.
  - apply IH.
Qed.

Lemma holds_countdownSecond (fuel : nat) (t : Z) :
  holds (Inv deserializeJson P) (countdownSecond deserializeJson env fuel t).
Proof.
  pose proof holds_handleClient as Hc.
  induction fuel as [| fuel IH]; cbn [countdownSecond]; unfold yield; repeat holds_step.
Qed.

Lemma holds_interruptibleCountdown (fuel seconds : nat) :
  holds (Inv deserializeJson P) (interruptibleCountdown deserializeJson env fuel seconds).
Proof.
  pose proof (holds_countdownSecond fuel) as Hc.
  induction seconds as [| i IH]; cbn [interruptibleCountdown]; repeat holds_step.
  - apply holds_status.
  - apply Hc.
Qed.

Lemma holds_showResults (fuel : nat) (showUntil : Z) :
  holds (Inv deserializeJson P) (showResults deserializeJson env fuel showUntil).
Proof.
  pose proof holds_handleClient as Hc.
  induction fuel as [| fuel IH]; cbn [showResults]; unfold yield; repeat holds_step.
Qed.

Lemma holds_shouldRedisplay : holds (Inv deserializeJson P) shouldRedisplay.
Proof.
  unfold shouldRedisplay. repeat holds_step.
  apply holds_assign. intros s. apply HP.
Qed.

End Observed.

(** ** The states in which requests are served *)

Lemma Bounded_status (t : string) (s : State) :
  Bounded s -> Bounded (set_statusMsg (snprintf 32 t) s).
Proof.
  intros (_ & H2 & H3 & H4). repeat split; try assumption.
  cbn [statusMsg set_statusMsg]. apply (snprintf_length 32).
Qed.

Lemma Recorded_counts (i : nat) (s : State) :
  (i <= TOTAL_SAMPLES)%nat -> Recorded i s ->
  0 <= validHRCount s <= 5 /\ 0 <= validSpO2Count s <= 5.
Proof.
  intros Hi (_ & _ & _ & _ & _ & -> & ->).
  pose proof (length_accepted (take i (hrReadings s))) as H1.
  pose proof (length_accepted (take i (spo2Readings s))) as H2.
  rewrite length_take in H1, H2. unfold TOTAL_SAMPLES in Hi. lia.
Qed.

(** The averages of a session whose stages are all recorded go with its
    counters. *)
Lemma Recorded_Reports (s : State) :
  Recorded TOTAL_SAMPLES s ->
  Report 40 220 (validHRCount s) (avgHR (calculateAverages s))
  /\ Report 80 100 (validSpO2Count s) (avgSpO2 (calculateAverages s)).
Proof.
  intros HR.
  pose proof (averages_of_Recorded s HR) as H. cbv zeta in H.
  destruct H as ((Hf1 & Hn1 & Hz1 & Hp1 & _) & (Hf2 & Hn2 & Hz2 & Hp2 & _)).
  destruct HR as (_ & Hl1 & Hl2 & _).
  assert (Hhr : hrReadings (calculateAverages s) = hrReadings s) by reflexivity.
  assert (Hsp : spo2Readings (calculateAverages s) = spo2Readings s) by reflexivity.
  assert (Hc1' : validHRCount (calculateAverages s) = validHRCount s) by reflexivity.
  assert (Hc2' : validSpO2Count (calculateAverages s) = validSpO2Count s) by reflexivity.
  pose proof (length_accepted (hrReadings s)) as Hc1.
  pose proof (length_accepted (spo2Readings s)) as Hc2.
  rewrite Hl1 in Hc1. rewrite Hl2 in Hc2. unfold TOTAL_SAMPLES in Hc1, Hc2.
  rewrite Hhr, Hc1' in *. rewrite Hsp, Hc2' in *.
  split.
  - destruct (Z.eq_dec (validHRCount s) 0) as [Hz | Hnz].
    + left. split; [exact Hz | now apply Hz1].
    + right. rewrite Hn1 in *. split; [lia |].
      destruct (Hp1 ltac:(lia)) as [He _].
      exists (total (accepted (hrReadings s))). split; [| exact He].
      apply accepted_bounds; [lia | lia | exact Hf1].
  - destruct (Z.eq_dec (validSpO2Count s) 0) as [Hz | Hnz].
    + left. split; [exact Hz | now apply Hz2].
    + right. rewrite Hn2 in *. split; [lia |].
      destruct (Hp2 ltac:(lia)) as [He _].
      exists (total (accepted (spo2Readings s))). split; [| exact He].
      apply accepted_bounds; [lia | lia | exact Hf2].
Qed.

Section States.

Variable deserializeJson : string -> option JsonDocument.
Variable maxim : list Z -> Z -> list Z -> Z * Z * Z * Z.

Lemma Live_Sane (i : nat) (s : State) : (i <= TOTAL_SAMPLES)%nat -> Live i s -> Sane s.
Proof. intros Hi H. right. now exists i. Qed.

Lemma Between_Sane (s : State) : Between s -> Sane s.
Proof.
  intros [H | H]; [now left |]. right. exists 0%nat. split; [unfold TOTAL_SAMPLES; lia | exact H].
Qed.

Lemma Live_route (i : nat) (r : Request) (s : State) :
  Live i s -> Live i (fst (route deserializeJson r s)).
Proof.
  apply (route_running deserializeJson (Live i)).
  - now intros s' (_ & (H & _) & _).
  - intros s' H. exact H.
Qed.

(** A Begin that finds no session running starts one. *)
Lemma Rest_handleStart (body : option string) (s : State) :
  Rest s -> Live 0 (fst (handleStart deserializeJson body s)).
Proof.
  intros ((_ & _ & Hib & Hrb) & Hrun & _). unfold handleStart. rewrite Hrun.
  cbn [negb fst].
  destruct body as [text |]; [destruct (deserializeJson text) as [doc |];
                              [destruct (containsKey doc "name") |] |];
    unfold Live, Bounded, Recorded; cbn -[strlcpy];
    repeat split; try assumption; try lia; try apply Forall_nil; try exact I.
  apply (strlcpy_length _ 32).
Qed.

Lemma Between_route (r : Request) (s : State) :
  Between s -> Between (fst (route deserializeJson r s)).
Proof.
  intros [H | H]; [| right; now apply Live_route].
  unfold route.
  destruct (method r); try (now left).
  - destruct (String.eqb (uri r) "/data"); now left.
  - destruct (String.eqb (uri r) "/start"); [right; now apply Rest_handleStart |].
    destruct (String.eqb (uri r) "/cancel"); now left.
Qed.

Lemma Live_Serviceable (i : nat) :
  (i <= TOTAL_SAMPLES)%nat -> Serviceable deserializeJson (Live i).
Proof.
  intros Hi. unfold Serviceable.
  split; [intros s; now apply Live_Sane |].
  split; [intros r s; apply Live_route |].
  split; [| split; [| split; [| split]]].
  - intros s j v ((H1 & H2 & H3 & H4) & H). split; [| exact H].
    repeat split; try assumption. cbn. now rewrite length_insert.
  - intros s j v ((H1 & H2 & H3 & H4) & H). split; [| exact H].
    repeat split; try assumption. cbn. now rewrite length_insert.
  - intros s t (H & H'). split; [now apply Bounded_status | exact H'].
  - intros s v H. exact H.
  - intros s v H. exact H.
Qed.

Lemma Rest_status (t : string) (s : State) :
  Rest s -> Rest (set_statusMsg (snprintf 32 t) s).
Proof. intros (H & H'). split; [now apply Bounded_status | exact H']. Qed.

Lemma Between_Serviceable : Serviceable deserializeJson Between.
Proof.
  pose proof (Live_Serviceable 0 ltac:(unfold TOTAL_SAMPLES; lia))
    as (_ & _ & L1 & L2 & L3 & L4 & L5).
  unfold Serviceable.
  split; [apply Between_Sane |].
  split; [apply Between_route |].
  split; [| split; [| split; [| split]]].
  - intros s j v [((H1 & H2 & H3 & H4) & H) | H]; [left | right; now apply L1].
    split; [| exact H]. repeat split; try assumption. cbn. now rewrite length_insert.
  - intros s j v [((H1 & H2 & H3 & H4) & H) | H]; [left | right; now apply L2].
    split; [| exact H]. repeat split; try assumption. cbn. now rewrite length_insert.
  - intros s t [H | H]; [left; now apply Rest_status | right; now apply L3].
  - intros s v [H | H]; [now left | now right].
  - intros s v [H | H]; [now left | now right].
Qed.

Lemma Between_running (s : State) : Between s -> running s = true -> Live 0 s.
Proof. intros [(_ & H & _) | H] Hrun; [congruence | exact H]. Qed.

Lemma Between_stopped (s : State) : Between s -> running s = false -> Rest s.
Proof. intros [H | (_ & (H & _) & _)] Hrun; [exact H | congruence]. Qed.

(** What [resetMeasurement] and [displayIdle] make of a running session. *)
Lemma Live_reset (i : nat) (s : State) :
  Live i s -> Rest (displayIdle (resetMeasurement s)).
Proof.
  intros ((_ & _ & H3 & H4) & (_ & Hl1 & Hl2 & _) & Ha1 & Ha2).
  unfold Rest, Bounded, displayIdle, resetMeasurement. cbn.
  repeat split; try assumption; try lia; left; now split.
Qed.

Lemma Live_stored (i n : nat) (s : State) :
  (i < TOTAL_SAMPLES)%nat -> Live i s ->
  Live (S i) (storeReading i (estimate maxim n s)).
Proof.
  intros Hi ((H1 & H2 & H3 & H4) & HR & Ha1 & Ha2).
  pose proof (storeReading_rest i (estimate maxim n s)) as (_ & R2 & R3 & R4 & R5 & R6 & R7).
  assert (He : statusMsg (estimate maxim n s) = statusMsg s
               /\ patientName (estimate maxim n s) = patientName s
               /\ irBuffer (estimate maxim n s) = irBuffer s
               /\ redBuffer (estimate maxim n s) = redBuffer s
               /\ avgHR (estimate maxim n s) = avgHR s
               /\ avgSpO2 (estimate maxim n s) = avgSpO2 s).
  { unfold estimate. destruct (maxim _ _ _) as [[[sp spv] hr] hrv]. repeat split. }
  destruct He as (E1 & E2 & E3 & E4 & E5 & E6).
  split; [| split; [| split]].
  - unfold Bounded. rewrite R4, R5, R6, R7, E1, E2, E3, E4. repeat split; assumption.
  - apply storeReading_Recorded; [exact Hi |]. now apply Recorded_estimate.
  - now rewrite R2, E5.
  - now rewrite R3, E6.
Qed.

Lemma Live_completed (s : State) :
  Live TOTAL_SAMPLES s ->
  Rest (displayResults (set_running false (calculateAverages s))).
Proof.
  intros (HB & HR & _ & _).
  destruct (Recorded_Reports s HR) as [H1 H2].
  destruct HR as (_ & Hl1 & Hl2 & _).
  split; [| split; [reflexivity | split; [exact Hl1 | split; [exact Hl2 | split]]]].
  - unfold displayResults. apply Bounded_status. exact HB.
  - exact H1.
  - exact H2.
Qed.

Lemma Between_clear_name (s : State) :
  Between s -> Between (set_patientName EmptyString s).
Proof.
  intros [((H1 & _ & H3 & H4) & H) | ((H1 & _ & H3 & H4) & H)]; [left | right];
    (split; [| exact H]); repeat split; try assumption; cbn; lia.
Qed.

Lemma Rest_booted : Rest (globals booted).
Proof.
  unfold Rest, Bounded. cbn.
  repeat split; try lia; left; now split.
Qed.

End States.

(** ** Every pass of the loop, with the responses it sends *)

Section Passes.

Variable deserializeJson : string -> option JsonDocument.
Variable maxim : list Z -> Z -> list Z -> Z * Z * Z * Z.
Variable env : Env.

Lemma takeSingleReading_Inv (fuel i : nat) (d d' : Device) (b : bool) :
  (i < TOTAL_SAMPLES)%nat -> Inv deserializeJson (Live i) d ->
  takeSingleReading deserializeJson maxim env fuel i d = Some (b, d') ->
  Inv deserializeJson (Live (if b then S i else i)) d'.
Proof.
  intros Hi HI H.
  pose proof (holds_collectSamples deserializeJson env (Live i)
                (Live_Serviceable deserializeJson i ltac:(lia)) fuel) as Hc.
  apply takeSingleReading_inv in H as [[-> H] | (-> & d1 & H & ->)];
    apply (Hc _ _ d _ _ HI) in H; [exact H |].
  destruct H as [HL Hlog]. split; [| exact Hlog].
  cbn [globals with_globals]. now apply Live_stored.
Qed.

Lemma sampleStages_Inv (fuel : nat) (todo : nat) :
  forall (i : nat) (d d' : Device) (b : bool),
    (i + todo = TOTAL_SAMPLES)%nat -> Inv deserializeJson (Live i) d ->
    sampleStages deserializeJson maxim env fuel i todo d = Some (b, d') ->
    Inv deserializeJson (if b then Live TOTAL_SAMPLES else Rest) d'.
Proof.
  induction todo as [| todo IH]; intros i d d' b Hsum HI H.
  - cbn in H. injection H as <- <-. replace TOTAL_SAMPLES with i by lia. exact HI.
  - assert (HS : Serviceable deserializeJson (Live i))
      by (apply Live_Serviceable; lia).
    assert (HS' : Serviceable deserializeJson (Live (S i)))
      by (apply Live_Serviceable; lia).
    cbn [sampleStages] in H.
    apply bind_inv in H as ([] & d1 & H1 & H).
    apply (holds_status deserializeJson (Live i) HS _ d tt d1 HI) in H1.
    apply bind_inv in H as ([] & d2 & H2 & H).
    apply (holds_handleClient deserializeJson env (Live i) HS d1 tt d2 H1) in H2.
    apply bind_inv in H as (taken & d3 & H3 & H).
    apply (takeSingleReading_Inv fuel i d2 d3 taken ltac:(lia) H2) in H3.
    destruct taken; cbn [negb] in H.
    + apply bind_inv in H as ([] & d4 & H4 & H).
      apply (holds_handleClient deserializeJson env (Live (S i)) HS' d3 tt d4 H3) in H4.
      apply bind_inv in H as ([] & d5 & H5 & H).
      apply (holds_yieldFor deserializeJson env (Live (S i)) HS' fuel 300 d4 tt d5 H4) in H5.
      apply (IH (S i) d5 d' b); [lia | exact H5 | exact H].
    + unfold bind, assign, ret in H. injection H as <- <-.
      destruct H3 as [HL Hlog]. split; [| exact Hlog].
      cbn [globals with_globals]. now apply (Live_reset i).
Qed.

Lemma greet_Inv (fuel : nat) (d d' : Device) (b : bool) :
  Inv deserializeJson (Live 0) d ->
  greet deserializeJson env fuel d = Some (b, d') ->
  Inv deserializeJson (if b then Live 0 else Rest) d'.
Proof.
  assert (HS : Serviceable deserializeJson (Live 0))
    by (apply Live_Serviceable; unfold TOTAL_SAMPLES; lia).
  intros HI H. unfold greet in H.
  apply bind_inv in H as (h & d0 & [= <- <-] & H).
  destruct (hadFinger (globals d)); cbn [negb] in H; [now injection H as <- <- |].
  apply bind_inv in H as ([] & d1 & H1 & H).
  apply (holds_assign deserializeJson (Live 0) (set_hadFinger true)
           (fun s Hs => Hs) d tt d1 HI) in H1.
  apply bind_inv in H as ([] & d2 & H2 & H).
  apply (holds_status deserializeJson (Live 0) HS _ d1 tt d2 H1) in H2.
  apply bind_inv in H as ([] & d3 & H3 & H).
  apply (holds_yieldFor deserializeJson env (Live 0) HS fuel 800 d2 tt d3 H2) in H3.
  apply bind_inv in H as (counted & d4 & H4 & H).
  apply (holds_interruptibleCountdown deserializeJson env (Live 0) HS fuel 3 d3 _ d4 H3) in H4.
  destruct counted; cbn [negb] in H.
  - injection H as <- <-. exact H4.
  - unfold bind, assign, ret in H. injection H as <- <-.
    destruct H4 as [HL Hlog]. split; [| exact Hlog].
    cbn [globals with_globals]. now apply (Live_reset 0).
Qed.

Lemma Rest_Between (d : Device) :
  Inv deserializeJson Rest d -> Inv deserializeJson Between d.
Proof. apply Inv_weaken. intros s H. now left. Qed.

Lemma Live_Between (d : Device) :
  Inv deserializeJson (Live 0) d -> Inv deserializeJson Between d.
Proof. apply Inv_weaken. intros s H. now right. Qed.

Lemma measure_Inv (fuel : nat) (d d' : Device) (b : bool) :
  Inv deserializeJson Between d ->
  measure deserializeJson maxim env fuel d = Some (b, d') ->
  Inv deserializeJson (if b then Live TOTAL_SAMPLES else Between) d'.
Proof.
  pose proof (Between_Serviceable deserializeJson) as HB.
  assert (HS : Serviceable deserializeJson (Live 0))
    by (apply Live_Serviceable; unfold TOTAL_SAMPLES; lia).
  intros HI H. unfold measure, yield in H.
  apply bind_inv in H as ([] & d1 & H1 & H).
  apply (holds_handleClient deserializeJson env Between HB d tt d1 HI) in H1.
  apply bind_inv in H as ([] & ? & [= <-] & H).
  apply bind_inv in H as (r & ? & [= <- <-] & H).
  destruct (running (globals d1)) eqn:Hrun; cbn [negb] in H.
  2:{ apply bind_inv in H as (redraw & d2 & H2 & H).
      apply (holds_shouldRedisplay deserializeJson Between HB d1 _ d2 H1) in H2.
      apply bind_inv in H as ([] & d3 & H3 & H).
      assert (HI3 : Inv deserializeJson Between d3).
      { destruct redraw; cbn [when] in H3.
        - exact (holds_status deserializeJson Between HB _ d2 tt d3 H2 H3).
        - now injection H3 as <-. }
      apply bind_inv in H as ([] & d4 & [= <-] & H). injection H as <- <-.
      exact HI3. }
  assert (HL : Inv deserializeJson (Live 0) d1).
  { destruct H1 as [HBt Hlog]. split; [now apply Between_running | exact Hlog]. }
  apply bind_inv in H as (c & ? & [= <- <-] & H).
  destruct (cancelRequested (globals d1)).
  { unfold bind, assign, ret in H. injection H as <- <-.
    destruct HL as [HL Hlog]. split; [| exact Hlog]. left.
    cbn [globals with_globals]. now apply (Live_reset 0). }
  apply bind_inv in H as (p & d2 & H2 & H).
  assert (HL2 : Inv deserializeJson (Live 0) d2).
  { unfold fingerPresent, bind, sensor_getIR, ret in H2. now injection H2 as _ <-. }
  destruct p; cbn [negb] in H.
  2:{ apply bind_inv in H as ([] & d3 & H3 & H).
      apply (holds_assign deserializeJson (Live 0) (set_hadFinger false)
               (fun s Hs => Hs) d2 tt d3 HL2) in H3.
      apply bind_inv in H as (redraw & d4 & H4 & H).
      apply (holds_shouldRedisplay deserializeJson (Live 0) HS d3 _ d4 H3) in H4.
      apply bind_inv in H as ([] & d5 & H5 & H).
      assert (HI5 : Inv deserializeJson (Live 0) d5).
      { destruct redraw; cbn [when] in H5.
        - exact (holds_status deserializeJson (Live 0) HS _ d4 tt d5 H4 H5).
        - now injection H5 as <-. }
      apply bind_inv in H as ([] & d6 & H6 & H).
      apply (holds_handleClient deserializeJson env (Live 0) HS d5 tt d6 HI5) in H6.
      apply bind_inv in H as ([] & d7 & [= <-] & H). injection H as <- <-.
      now apply Live_Between. }
  apply bind_inv in H as (go_on & d3 & H3 & H).
  apply (greet_Inv fuel d2 d3 go_on HL2) in H3.
  destruct go_on; cbn [negb] in H.
  - apply (sampleStages_Inv fuel TOTAL_SAMPLES 0 d3 d' b eq_refl H3) in H.
    destruct b; [exact H | now apply Rest_Between].
  - injection H as <- <-. now apply Rest_Between.
Qed.

Lemma complete_Inv (fuel : nat) (d d' : Device) :
  Inv deserializeJson (Live TOTAL_SAMPLES) d ->
  complete deserializeJson env fuel d = Some (tt, d') ->
  Inv deserializeJson Between d'.
Proof.
  pose proof (Between_Serviceable deserializeJson) as HB.
  intros [HL Hlog] H. unfold complete in H.
  do 3 apply bind_inv in H as ([] & ? & [= <-] & H).
  apply bind_inv in H as (now & ? & [= <- <-] & H).
  apply bind_inv in H as ([] & d1 & H1 & H).
  apply (holds_showResults deserializeJson env Between HB fuel _ _ tt d1) in H1.
  2:{ split; [| exact Hlog]. left. cbn [globals with_globals]. now apply Live_completed. }
  apply bind_inv in H as ([] & d2 & H2 & H).
  apply (holds_assign deserializeJson Between _ Between_clear_name d1 tt d2 H1) in H2.
  exact (holds_status deserializeJson Between HB _ d2 tt d' H2 H).
Qed.

Lemma loop_Inv (fuel : nat) :
  holds (Inv deserializeJson Between) (loop deserializeJson maxim env fuel).
Proof.
  intros d [] d' HI H. unfold loop in H.
  apply bind_inv in H as (measured & d1 & H1 & H).
  apply (measure_Inv fuel d d1 measured HI) in H1.
  destruct measured; cbn [negb] in H.
  - exact (complete_Inv fuel d1 d' H1 H).
  - now injection H as <-.
Qed.

Lemma loops_Inv (fuel n : nat) :
  holds (Inv deserializeJson Between) (loops deserializeJson maxim env fuel n).
Proof.
  pose proof (loop_Inv fuel) as Hl.
  induction n as [| n IH]; cbn [loops]; repeat holds_step.
Qed.

Lemma Inv_booted : Inv deserializeJson Between booted.
Proof. split; [left; apply Rest_booted | constructor]. Qed.

End Passes.

(** ** The responses of a pass that has not returned *)

Lemma agrees_call {A} (m : M A) : agrees m (Trace.call m).
Proof. intros d. unfold Trace.call. destruct (m d) as [[a d'] |]; reflexivity. Qed.

Lemma agrees_ret {A} (a : A) : agrees (ret a) (Trace.ret a).
Proof. intros d. reflexivity. Qed.

Lemma agrees_out_of_fuel {A} : agrees (@out_of_fuel A) Trace.out_of_fuel.
Proof. intros d. reflexivity. Qed.

Lemma agrees_bind {A B} (m : M A) (t : Trace.T A) (k : A -> M B) (k' : A -> Trace.T B) :
  agrees m t -> (forall a, agrees (k a) (k' a)) -> agrees (bind m k) (Trace.bind t k').
Proof.
  intros Hm Hk d. unfold bind, Trace.bind. specialize (Hm d).
  destruct (m d) as [[a d1] |].
  - rewrite Hm. apply Hk.
  - destruct (t d) as [[a |] d1]; [discriminate Hm | reflexivity].
Qed.

(** One step through a computation and its copy, towards [agrees]. *)
Ltac agrees_step :=
  first
    [ match goal with
      | H : context [agrees] |- _ => apply H
      end
    | apply agrees_ret | apply agrees_out_of_fuel | apply agrees_call
    | apply agrees_bind; [| intros ?]
    | match goal with
      | |- agrees (if ?b then _ else _) (if ?b then _ else _) => destruct b
      end ].

Section Agreement.

Variable deserializeJson : string -> option JsonDocument.
Variable maxim : list Z -> Z -> list Z -> Z * Z * Z * Z.
Variable env : Env.

Lemma yieldFor_from_agrees (fuel : nat) (start ms : Z) :
  agrees (yieldFor_from deserializeJson env fuel start ms)
    (Trace.yieldFor_from deserializeJson env fuel start ms).
Proof.
  revert fuel. intros fuel.
  induction fuel as [| fuel IH]; cbn [yieldFor_from Trace.yieldFor_from];
    repeat agrees_step.
Qed.

Lemma yieldFor_agrees (fuel : nat) (ms : Z) :
  agrees (yieldFor deserializeJson env fuel ms) (Trace.yieldFor deserializeJson env fuel ms).
Proof.
  pose proof (yieldFor_from_agrees fuel) as H.
  unfold yieldFor, Trace.yieldFor. repeat agrees_step.
Qed.

Lemma countdownSecond_agrees (fuel : nat) (t : Z) :
  agrees (countdownSecond deserializeJson env fuel t)
    (Trace.countdownSecond deserializeJson env fuel t).
Proof.
  revert fuel. intros fuel.
  induction fuel as [| fuel IH]; cbn [countdownSecond Trace.countdownSecond];
    repeat agrees_step.
Qed.

Lemma interruptibleCountdown_agrees (fuel seconds : nat) :
  agrees (interruptibleCountdown deserializeJson env fuel seconds)
    (Trace.interruptibleCountdown deserializeJson env fuel seconds).
Proof.
  pose proof (countdownSecond_agrees fuel) as H.
  induction seconds as [| i IH];
    cbn [interruptibleCountdown Trace.interruptibleCountdown]; repeat agrees_step.
Qed.

Lemma awaitSample_agrees (fuel : nat) :
  agrees (awaitSample deserializeJson env fuel) (Trace.awaitSample deserializeJson env fuel).
Proof.
  revert fuel. intros fuel.
  induction fuel as [| fuel IH]; cbn [awaitSample Trace.awaitSample];
    repeat agrees_step.
Qed.

Lemma collectSamples_agrees (fuel todo : nat) :
  forall i,
    agrees (collectSamples deserializeJson env fuel i todo)
      (Trace.collectSamples deserializeJson env fuel i todo).
Proof.
  pose proof (awaitSample_agrees fuel) as H.
  induction todo as [| todo IH]; intros i;
    cbn [collectSamples Trace.collectSamples]; repeat agrees_step.
Qed.

Lemma takeSingleReading_agrees (fuel idx : nat) :
  agrees (takeSingleReading deserializeJson maxim env fuel idx)
    (Trace.takeSingleReading deserializeJson maxim env fuel idx).
Proof.
  pose proof (collectSamples_agrees fuel) as H.
  unfold takeSingleReading, Trace.takeSingleReading. cbv zeta. repeat agrees_step.
Qed.

Lemma sampleStages_agrees (fuel todo : nat) :
  forall i,
    agrees (sampleStages deserializeJson maxim env fuel i todo)
      (Trace.sampleStages deserializeJson maxim env fuel i todo).
Proof.
  pose proof (takeSingleReading_agrees fuel) as H.
  pose proof (yieldFor_agrees fuel) as Hy.
  induction todo as [| todo IH]; intros i;
    cbn [sampleStages Trace.sampleStages]; repeat agrees_step.
Qed.

Lemma showResults_agrees (fuel : nat) (showUntil : Z) :
  agrees (showResults deserializeJson env fuel showUntil)
    (Trace.showResults deserializeJson env fuel showUntil).
Proof.
  revert fuel. intros fuel.
  induction fuel as [| fuel IH]; cbn [showResults Trace.showResults];
    repeat agrees_step.
Qed.

Lemma greet_agrees (fuel : nat) :
  agrees (greet deserializeJson env fuel) (Trace.greet deserializeJson env fuel).
Proof.
  pose proof (yieldFor_agrees fuel) as Hy.
  pose proof (interruptibleCountdown_agrees fuel) as Hc.
  unfold greet, Trace.greet. repeat agrees_step.
Qed.

Lemma complete_agrees (fuel : nat) :
  agrees (complete deserializeJson env fuel) (Trace.complete deserializeJson env fuel).
Proof.
  pose proof (showResults_agrees fuel) as H.
  unfold complete, Trace.complete. repeat agrees_step.
Qed.

Lemma measure_agrees (fuel : nat) :
  agrees (measure deserializeJson maxim env fuel) (Trace.measure deserializeJson maxim env fuel).
Proof.
  pose proof (greet_agrees fuel) as Hg.
  pose proof (sampleStages_agrees fuel) as Hs.
  unfold measure, Trace.measure, when, Trace.when. repeat agrees_step.
Qed.

Lemma loop_agrees (fuel : nat) :
  agrees (loop deserializeJson maxim env fuel) (Trace.loop deserializeJson maxim env fuel).
Proof.
  pose proof (measure_agrees fuel) as Hm.
  pose proof (complete_agrees fuel) as Hc.
  unfold loop, Trace.loop. repeat agrees_step.
Qed.

(** The copy agrees with the firmware of the claims: passes that return
    there return here, with the same device. *)
Lemma loops_agrees (fuel n : nat) :
  agrees (loops deserializeJson maxim env fuel n) (Trace.loops deserializeJson maxim env fuel n).
Proof.
  pose proof (loop_agrees fuel) as Hl.
  induction n as [| n IH]; cbn [loops Trace.loops]; repeat agrees_step.
Qed.

End Agreement.

Section Watching.

Variable deserializeJson : string -> option JsonDocument.

Lemma watched_ret (P : Device -> Prop) {A} (a : A) (Q : A -> Device -> Prop) :
  (forall d, P d -> Q a d) -> watched deserializeJson P (Trace.ret a) Q.
Proof. intros H d HP. now apply H. Qed.

Lemma watched_bind (P : Device -> Prop) {A B} (t : Trace.T A) (k : A -> Trace.T B)
    (Q1 : A -> Device -> Prop) (Q : B -> Device -> Prop) :
  watched deserializeJson P t Q1 -> (forall a, watched deserializeJson (Q1 a) (k a) Q) ->
  watched deserializeJson P (Trace.bind t k) Q.
Proof.
  intros Ht Hk d HP. unfold Trace.bind. specialize (Ht d HP).
  destruct (t d) as [[a |] d1]; [now apply Hk | exact Ht].
Qed.

Lemma watched_then (I : Device -> Prop) {A B} (t : Trace.T A) (k : A -> Trace.T B)
    (Q : B -> Device -> Prop) :
  watched deserializeJson I t (fun _ => I) -> (forall a, watched deserializeJson I (k a) Q) ->
  watched deserializeJson I (Trace.bind t k) Q.
Proof. intros Ht Hk. now apply (watched_bind I t k (fun _ => I)). Qed.

Lemma watched_pre (P P' : Device -> Prop) {A} (t : Trace.T A)
    (Q : A -> Device -> Prop) :
  (forall d, P' d -> P d) -> watched deserializeJson P t Q ->
  watched deserializeJson P' t Q.
Proof. intros H Ht d HP. apply Ht. now apply H. Qed.

Lemma watched_weaken (P : Device -> Prop) {A} (t : Trace.T A)
    (Q Q' : A -> Device -> Prop) :
  watched deserializeJson P t Q -> (forall a d, Q a d -> Q' a d) ->
  watched deserializeJson P t Q'.
Proof.
  intros Ht HQ d HP. specialize (Ht d HP).
  destruct (t d) as [[a |] d1]; [now apply HQ | exact Ht].
Qed.

(** What [holds] of a computation without a loop is kept by its copy. *)
Lemma watched_call (P : State -> Prop) {A} (m : M A) :
  holds (Inv deserializeJson P) m ->
  watched deserializeJson (Inv deserializeJson P) (Trace.call m)
    (fun _ => Inv deserializeJson P).
Proof.
  intros Hm d HI. unfold Trace.call.
  destruct (m d) as [[a d'] |] eqn:E; [exact (Hm d a d' HI E) | apply HI].
Qed.

Lemma watched_out_of_fuel (P : State -> Prop) {A} (Q : A -> Device -> Prop) :
  watched deserializeJson (Inv deserializeJson P) Trace.out_of_fuel Q.
Proof. intros d HI. apply HI. Qed.

Lemma watched_assign (P P' : State -> Prop) (f : State -> State) :
  (forall s, P s -> P' (f s)) ->
  watched deserializeJson (Inv deserializeJson P) (Trace.assign f)
    (fun _ => Inv deserializeJson P').
Proof. intros Hf d [HP Hlog]. split; [now apply Hf | exact Hlog]. Qed.

Lemma watched_read (P : State -> Prop) {A} (f : State -> A) :
  watched deserializeJson (Inv deserializeJson P) (Trace.read f)
    (fun a d => Inv deserializeJson P d /\ a = f (globals d)).
Proof. intros d HI. now split. Qed.

End Watching.

(** One step through a copy, towards
    [watched _ (Inv _ P) _ (fun _ => Inv _ P)]. *)
Ltac watched_step :=
  first
    [ match goal with
      | H : context [watched] |- _ => apply H
      end
    | apply watched_ret; intros ? ?; assumption
    | apply watched_out_of_fuel
    | apply watched_call;
      first [ apply holds_read | apply holds_millis | apply holds_delay
            | apply holds_ret
            | apply holds_sensor_getIR | apply holds_sensor_getRed
            | apply holds_sensor_available ]
    | apply watched_then; [| intros ?]
    | match goal with
      | |- watched _ _ (if ?b then _ else _) _ => destruct b
      end ].

Section Watched.

Variable deserializeJson : string -> option JsonDocument.
Variable env : Env.
Variable P : State -> Prop.
Hypothesis HP : Serviceable deserializeJson P.

Lemma watched_handleClient : watched deserializeJson (Inv deserializeJson P)
    (Trace.handleClient deserializeJson env)
    (fun _ => Inv deserializeJson P).
Proof. apply watched_call. now apply holds_handleClient. Qed.

Lemma watched_status (t : string) :
  watched deserializeJson (Inv deserializeJson P)
    (Trace.assign (set_statusMsg (snprintf 32 t)))
    (fun _ => Inv deserializeJson P).
Proof. apply watched_call. now apply holds_status. Qed.

Lemma watched_interrupted : watched deserializeJson (Inv deserializeJson P)
    (Trace.interrupted env)
    (fun _ => Inv deserializeJson P).
Proof. apply watched_call. apply holds_interrupted. Qed.

Lemma watched_shouldRedisplay : watched deserializeJson (Inv deserializeJson P)
    Trace.shouldRedisplay
    (fun _ => Inv deserializeJson P).
Proof. apply watched_call. now apply holds_shouldRedisplay. Qed.

Lemma watched_yieldFor_from (fuel : nat) (start ms : Z) :
  watched deserializeJson (Inv deserializeJson P)
    (Trace.yieldFor_from deserializeJson env fuel start ms)
    (fun _ => Inv deserializeJson P).
Proof.
  pose proof watched_handleClient as Hc.
  revert fuel. intros fuel.
  induction fuel as [| fuel IH]; cbn [Trace.yieldFor_from];
    unfold Trace.yield, Trace.millis, Trace.delay, yield; repeat watched_step.
Qed.

Lemma watched_yieldFor (fuel : nat) (ms : Z) :
  watched deserializeJson (Inv deserializeJson P)
    (Trace.yieldFor deserializeJson env fuel ms)
    (fun _ => Inv deserializeJson P).
Proof.
  pose proof (watched_yieldFor_from fuel) as Hy.
  unfold Trace.yieldFor, Trace.millis. repeat watched_step.
Qed.

Lemma watched_awaitSample (fuel : nat) :
  watched deserializeJson (Inv deserializeJson P)
    (Trace.awaitSample deserializeJson env fuel)
    (fun _ => Inv deserializeJson P).
Proof.
  pose proof watched_handleClient as Hc.
  revert fuel. intros fuel.
  induction fuel as [| fuel IH]; cbn [Trace.awaitSample];
    unfold Trace.yield, Trace.sensor_check, Trace.sensor_available, Trace.read,
      yield, sensor_check;
    repeat watched_step.
Qed.

Lemma watched_collectSamples (fuel : nat) (todo : nat) :
  forall i, watched deserializeJson (Inv deserializeJson P)
    (Trace.collectSamples deserializeJson env fuel i todo)
    (fun _ => Inv deserializeJson P).
Proof.
  pose proof watched_handleClient as Hc.
  pose proof (watched_awaitSample fuel) as Ha.
  pose proof watched_interrupted as Hi.
  induction todo as [| todo IH]; intros i; cbn [Trace.collectSamples];
    unfold Trace.yield, Trace.sensor_nextSample, Trace.sensor_getRed,
      Trace.sensor_getIR, yield, sensor_nextSample;
    repeat watched_step.
  - apply watched_assign. intros s. apply HP.
  - apply watched_assign. intros s. apply HP.
Qed.

Lemma watched_countdownSecond (fuel : nat) (t : Z) :
  watched deserializeJson (Inv deserializeJson P)
    (Trace.countdownSecond deserializeJson env fuel t)
    (fun _ => Inv deserializeJson P).
Proof.
  pose proof watched_handleClient as Hc.
  revert fuel. intros fuel.
  induction fuel as [| fuel IH]; cbn [Trace.countdownSecond];
    unfold Trace.yield, Trace.millis, Trace.delay, Trace.read, yield;
    repeat watched_step.
Qed.

Lemma watched_interruptibleCountdown (fuel seconds : nat) :
  watched deserializeJson (Inv deserializeJson P)
    (Trace.interruptibleCountdown deserializeJson env fuel seconds)
    (fun _ => Inv deserializeJson P).
Proof.
  pose proof (watched_countdownSecond fuel) as Hc.
  pose proof watched_status as Hs.
  induction seconds as [| i IH]; cbn [Trace.interruptibleCountdown];
    unfold Trace.millis; repeat watched_step.
Qed.

Lemma watched_showResults (fuel : nat) (showUntil : Z) :
  watched deserializeJson (Inv deserializeJson P)
    (Trace.showResults deserializeJson env fuel showUntil)
    (fun _ => Inv deserializeJson P).
Proof.
  pose proof watched_handleClient as Hc.
  revert fuel. intros fuel.
  induction fuel as [| fuel IH]; cbn [Trace.showResults];
    unfold Trace.yield, Trace.millis, Trace.delay, yield; repeat watched_step.
Qed.

End Watched.

(** Running a copy that is made of assignments only. *)
Ltac assigned :=
  unfold Trace.bind, Trace.assign, Trace.call, assign, Trace.ret;
  cbn [globals with_globals sent].

Section Followed.

Variable deserializeJson : string -> option JsonDocument.
Variable maxim : list Z -> Z -> list Z -> Z * Z * Z * Z.
Variable env : Env.

Lemma takeSingleReading_watched (fuel i : nat) :
  (i < TOTAL_SAMPLES)%nat ->
  watched deserializeJson (Inv deserializeJson (Live i))
    (Trace.takeSingleReading deserializeJson maxim env fuel i)
    (fun b => Inv deserializeJson (Live (if b then S i else i))).
Proof.
  intros Hi. unfold Trace.takeSingleReading. cbv zeta.
  apply watched_bind with (Q1 := fun _ => Inv deserializeJson (Live i)).
  - apply watched_collectSamples. apply Live_Serviceable. lia.
  - intros filled. destruct filled; cbn [negb].
    + intros d [HL Hlog]. assigned. split; [| exact Hlog]. now apply Live_stored.
    + apply watched_ret. intros d H. exact H.
Qed.

Lemma sampleStages_watched (fuel : nat) (todo : nat) :
  forall i, (i + todo = TOTAL_SAMPLES)%nat ->
    watched deserializeJson (Inv deserializeJson (Live i))
      (Trace.sampleStages deserializeJson maxim env fuel i todo)
      (fun b => Inv deserializeJson (if b then Live TOTAL_SAMPLES else Rest)).
Proof.
  induction todo as [| todo IH]; intros i Hsum; cbn [Trace.sampleStages].
  - apply watched_ret. intros d H. replace TOTAL_SAMPLES with i by lia. exact H.
  - assert (HS : Serviceable deserializeJson (Live i))
      by (apply Live_Serviceable; lia).
    assert (HS' : Serviceable deserializeJson (Live (S i)))
      by (apply Live_Serviceable; lia).
    apply watched_then; [now apply watched_status | intros _].
    apply watched_then; [now apply watched_handleClient | intros _].
    apply watched_bind with (Q1 := fun b : bool => Inv deserializeJson (Live (if b then S i else i)));
      [apply takeSingleReading_watched; lia | intros taken].
    destruct taken; cbn [negb].
    + apply watched_then; [now apply watched_handleClient | intros _].
      apply watched_then; [now apply watched_yieldFor | intros _].
      apply IH. lia.
    + intros d [HL Hlog]. assigned. split; [| exact Hlog]. now apply (Live_reset i).
Qed.

Lemma greet_watched (fuel : nat) :
  watched deserializeJson (Inv deserializeJson (Live 0))
    (Trace.greet deserializeJson env fuel)
    (fun b => Inv deserializeJson (if b then Live 0 else Rest)).
Proof.
  assert (HS : Serviceable deserializeJson (Live 0))
    by (apply Live_Serviceable; unfold TOTAL_SAMPLES; lia).
  unfold Trace.greet.
  apply watched_bind with (Q1 := fun _ => Inv deserializeJson (Live 0)).
  { apply watched_call. apply holds_read. }
  intros h. destruct h; cbn [negb].
  - apply watched_ret. intros d H. exact H.
  - apply watched_then; [apply watched_assign; intros s H; exact H | intros _].
    apply watched_then; [now apply watched_status | intros _].
    apply watched_then; [now apply watched_yieldFor | intros _].
    apply watched_bind with (Q1 := fun _ => Inv deserializeJson (Live 0));
      [now apply watched_interruptibleCountdown | intros counted].
    destruct counted; cbn [negb].
    + apply watched_ret. intros d H. exact H.
    + intros d [HL Hlog]. assigned. split; [| exact Hlog]. now apply (Live_reset 0).
Qed.

Lemma when_watched (P : State -> Prop) (HP : Serviceable deserializeJson P)
    (b : bool) (t : string) :
  watched deserializeJson (Inv deserializeJson P)
    (Trace.when b (Trace.assign (set_statusMsg (snprintf 32 t))))
    (fun _ => Inv deserializeJson P).
Proof.
  destruct b; cbn [Trace.when]; [now apply watched_status |].
  apply watched_ret. intros d H. exact H.
Qed.

Lemma measure_watched (fuel : nat) :
  watched deserializeJson (Inv deserializeJson Between)
    (Trace.measure deserializeJson maxim env fuel)
    (fun b => Inv deserializeJson (if b then Live TOTAL_SAMPLES else Between)).
Proof.
  pose proof (Between_Serviceable deserializeJson) as HB.
  assert (HS : Serviceable deserializeJson (Live 0))
    by (apply Live_Serviceable; unfold TOTAL_SAMPLES; lia).
  unfold Trace.measure.
  apply watched_then; [now apply watched_handleClient | intros _].
  apply watched_then; [apply watched_call, holds_ret | intros _].
  apply watched_bind
    with (Q1 := fun r d => Inv deserializeJson Between d /\ r = running (globals d));
    [apply watched_read | intros r].
  destruct r; cbn [negb].
  2:{ apply watched_pre with (P := Inv deserializeJson Between); [now intros d [H _] |].
      apply watched_then; [now apply watched_shouldRedisplay | intros b].
      apply watched_then; [now apply when_watched | intros _].
      apply watched_then; [apply watched_call, holds_delay | intros _].
      apply watched_ret. intros d H. exact H. }
  apply watched_pre with (P := Inv deserializeJson (Live 0)).
  { intros d [[HBt Hlog] Hr]. split; [now apply Between_running | exact Hlog]. }
  apply watched_bind
    with (Q1 := fun c d => Inv deserializeJson (Live 0) d /\ c = cancelRequested (globals d));
    [apply watched_read | intros c].
  apply watched_pre with (P := Inv deserializeJson (Live 0)); [now intros d [H _] |].
  destruct c.
  { intros d [HL Hlog]. assigned. split; [| exact Hlog]. left. now apply (Live_reset 0). }
  apply watched_then;
    [apply watched_call; unfold fingerPresent; repeat holds_step | intros p].
  destruct p; cbn [negb].
  2:{ apply watched_then; [apply watched_assign; intros s H; exact H | intros _].
      apply watched_then; [now apply watched_shouldRedisplay | intros b].
      apply watched_then; [now apply when_watched | intros _].
      apply watched_then; [now apply watched_handleClient | intros _].
      apply watched_then; [apply watched_call, holds_delay | intros _].
      apply watched_ret. intros d H. now apply Live_Between. }
  apply watched_bind with (Q1 := fun b : bool => Inv deserializeJson (if b then Live 0 else Rest));
    [apply greet_watched | intros go_on].
  destruct go_on; cbn [negb].
  - apply watched_weaken
      with (Q := fun b : bool => Inv deserializeJson (if b then Live TOTAL_SAMPLES else Rest)).
    + now apply sampleStages_watched.
    + intros b d H. destruct b; [exact H | now apply Rest_Between].
  - apply watched_ret. intros d H. now apply Rest_Between.
Qed.

Lemma complete_watched (fuel : nat) :
  watched deserializeJson (Inv deserializeJson (Live TOTAL_SAMPLES))
    (Trace.complete deserializeJson env fuel)
    (fun _ => Inv deserializeJson Between).
Proof.
  pose proof (Between_Serviceable deserializeJson) as HB.
  intros d [HL Hlog]. unfold Trace.complete.
  unfold Trace.bind, Trace.assign, Trace.millis, Trace.call, assign, millis.
  cbn [globals with_globals sent clock].
  match goal with
  | |- context [Trace.showResults _ _ _ ?u ?d2] =>
      pose proof (watched_showResults deserializeJson env Between HB fuel u d2) as H;
      destruct (Trace.showResults deserializeJson env fuel u d2) as [[[] |] d3]
  end.
  - destruct H as [H3 Hlog3].
    + split; [| exact Hlog]. left. now apply Live_completed.
    + split; [| exact Hlog3]. cbn [globals with_globals].
      destruct HB as (_ & _ & _ & _ & Hstatus & _).
      unfold displayIdle. apply Hstatus. now apply Between_clear_name.
  - apply H. split; [| exact Hlog]. left. now apply Live_completed.
Qed.

Lemma loop_watched (fuel : nat) :
  watched deserializeJson (Inv deserializeJson Between)
    (Trace.loop deserializeJson maxim env fuel)
    (fun _ => Inv deserializeJson Between).
Proof.
  unfold Trace.loop.
  apply watched_bind
    with (Q1 := fun b : bool => Inv deserializeJson (if b then Live TOTAL_SAMPLES else Between));
    [apply measure_watched | intros measured].
  destruct measured; cbn [negb].
  - apply complete_watched.
  - apply watched_ret. intros d H. exact H.
Qed.

Lemma loops_watched (fuel n : nat) :
  watched deserializeJson (Inv deserializeJson Between)
    (Trace.loops deserializeJson maxim env fuel n)
    (fun _ => Inv deserializeJson Between).
Proof.
  pose proof (loop_watched fuel) as Hl.
  induction n as [| n IH]; cbn [Trace.loops]; repeat watched_step.
Qed.

(** Whether the passes have returned or not, every response sent is an
    [Answer]. *)
Lemma loops_Log (fuel n : nat) :
  Log deserializeJson (snd (Trace.loops deserializeJson maxim env fuel n booted)).
Proof.
  pose proof (loops_watched fuel n booted (Inv_booted deserializeJson)) as H.
  destruct (Trace.loops deserializeJson maxim env fuel n booted) as [[[] |] d];
    cbn [snd]; [apply H | exact H].
Qed.

End Followed.

(** ** What the served snapshots say *)

Lemma handleJSON_text (s : State) : handleJSON_json s = App.render (handleJSON_data s).
Proof.
  unfold handleJSON_json, App.render, handleJSON_data, render_object, render_fields,
    render_field, render_value. cbn [fst snd App.heartRate App.spo2 App.hrValid
    App.spo2Valid App.totalSamples App.running App.status].
  rewrite !append_assoc. cbn. reflexivity.
Qed.

Lemma Live_Contract (i : nat) (s : State) :
  (i <= TOTAL_SAMPLES)%nat -> Live i s -> Contract (handleJSON_data s).
Proof.
  intros Hi (_ & HR & Ha1 & Ha2).
  destruct (Recorded_counts i s Hi HR) as [Hc1 Hc2].
  destruct HR as (Hrun & _).
  unfold Contract, handleJSON_data, handleJSON_status.
  cbn [App.heartRate App.spo2 App.hrValid App.spo2Valid App.totalSamples
       App.running App.status].
  rewrite Hrun, Ha1, Ha2. cbn [negb andb].
  split; [reflexivity |]. split; [exact Hc1 |]. split; [exact Hc2 |].
  split; [intros _; repeat split | discriminate].
Qed.

Lemma Rest_Contract (s : State) : Rest s -> Contract (handleJSON_data s).
Proof.
  intros (_ & Hrun & _ & _ & H1 & H2).
  apply Report_hr in H1 as (Hc1 & Hv1 & He1 & _ & Hg1 & Hl1).
  apply Report_spo2 in H2 as (Hc2 & Hv2 & He2 & _ & Hg2 & Hg2').
  unfold Contract, handleJSON_data, handleJSON_status.
  cbn [App.heartRate App.spo2 App.hrValid App.spo2Valid App.totalSamples
       App.running App.status].
  rewrite Hrun, He1, He2, Hg1, Hg2, Hg2'. cbn [negb andb].
  split; [reflexivity |]. split; [exact Hc1 |]. split; [exact Hc2 |].
  split; [discriminate |]. intros _.
  split; [exact Hv1 |]. split; [exact Hv2 |].
  destruct (Z.eqb_spec (validHRCount s) 0) as [Hz1 | Hz1];
    destruct (Z.eqb_spec (validSpO2Count s) 0) as [Hz2 | Hz2]; cbn [andb];
    try (split; [cbn; tauto |];
         split; [tauto |];
         split; [discriminate |]; split; discriminate);
    destruct (Z.leb_spec 95 (F32.to_int (avgSpO2 s)));
    destruct (Z.leb_spec 60 (F32.to_int (avgHR s)));
    destruct (F32.leb (avgHR s) (F32.of_int 100)) eqn:E100; cbn [andb];
    try (specialize (Hl1 eq_refl));
    try destruct (Z.leb_spec 90 (F32.to_int (avgSpO2 s)));
    (split; [cbn; tauto |]);
    (split; [split; [discriminate | intros [? ?]; lia] |]);
    (split; [try discriminate; intros _; lia |]);
    (split; [try discriminate; intros _; lia |]);
    try discriminate; intros _; lia.
Qed.

Lemma Sane_Contract (s : State) : Sane s -> Contract (handleJSON_data s).
Proof.
  intros [H | (i & Hi & H)]; [now apply Rest_Contract | now apply (Live_Contract i)].
Qed.

Section Served.

Variable deserializeJson : string -> option JsonDocument.
Variable maxim : list Z -> Z -> list Z -> Z * Z * Z * Z.
Variable env : Env.

(** An answer is one of the three fixed ones, or a snapshot that keeps the
    contract. *)
Lemma Answer_cases (resp : Response) :
  Answer deserializeJson resp ->
  resp = acknowledgement \/ resp = handleOptions \/ resp = not_found
  \/ exists e,
       resp = mkResponse 200 addCORS "application/json" (App.render e) /\ Contract e.
Proof.
  intros (r & s & HS & ->). unfold route.
  destruct (method r).
  - destruct (String.eqb (uri r) "/data"); [| now right; right; left].
    right. right. right. exists (handleJSON_data s).
    split; [| now apply Sane_Contract].
    unfold handleJSON. cbn [snd]. now rewrite handleJSON_text.
  - destruct (String.eqb (uri r) "/start"); [now left |].
    destruct (String.eqb (uri r) "/cancel"); [now left | now right; right; left].
  - now right; left.
  - now right; right; left.
Qed.

(** X13: whatever is requested and whatever the sensor and the estimator
    report, every response the device has sent since [setup], by the passes
    of [loop] that have returned and by one that has not (as when the
    sensor never has a sample and the stage waits for it), is the
    acknowledgement, the preflight answer, "404 Not found", or a snapshot
    that keeps the contract: [totalSamples] is 5 and both counters are
    within 0..5; while a session runs both values are 0 and the status is
    "measuring"; otherwise a value is 0 when its counter is 0 and within
    40..220 (heart rate) or 80..100 (saturation) when it is not, the status
    is "idle" exactly when both counters are 0, "Critical" only with a
    saturation below 90, "Warning" only with one of at least 90 and
    "Normal" only with a saturation of at least 95 and a heart rate within
    60..100.  The device is the one [Trace.loops] ends with, whether or not
    its loops have returned within [fuel] rounds each; by [loops_agrees] it
    is the device of [loops] where that returns. *)
Theorem served_responses (fuel n : nat) :
  Forall
    (fun resp =>
       resp = acknowledgement \/ resp = handleOptions \/ resp = not_found
       \/ exists e,
            resp = mkResponse 200 addCORS "application/json" (App.render e)
            /\ Contract e)
    (sent (snd (Trace.loops deserializeJson maxim env fuel n booted))).
Proof.
  eapply Forall_impl; [apply loops_Log |]. intros resp. apply Answer_cases.
Qed.

(** X14: after any number of passes of [loop] since [setup] nothing has
    outgrown its memory: the status line and the name have at most 31
    characters, the sample buffers 90 entries, the reading arrays 5, both
    counters are within 0..5, and a session that is running between two
    passes has counted nothing yet. *)
Theorem globals_between_passes (fuel n : nat) (d : Device)
    (Hrun : loops deserializeJson maxim env fuel n booted = Some (tt, d)) :
  let s := globals d in
  (String.length (statusMsg s) <= 31)%nat
  /\ (String.length (patientName s) <= 31)%nat
  /\ length (irBuffer s) = MAX_BUFFER
  /\ length (redBuffer s) = MAX_BUFFER
  /\ length (hrReadings s) = TOTAL_SAMPLES
  /\ length (spo2Readings s) = TOTAL_SAMPLES
  /\ 0 <= validHRCount s <= 5
  /\ 0 <= validSpO2Count s <= 5
  /\ (running s = true ->
      validHRCount s = 0 /\ validSpO2Count s = 0
      /\ avgHR s = F32.zero /\ avgSpO2 s = F32.zero).
Proof.
  destruct (loops_Inv deserializeJson maxim env fuel n booted tt d
              (Inv_booted deserializeJson) Hrun) as [HB _].
  cbv zeta.
  destruct HB as [((B1 & B2 & B3 & B4) & Hr & L1 & L2 & R1 & R2)
                 | ((B1 & B2 & B3 & B4) & HR & A1 & A2)].
  - apply Report_hr in R1 as (C1 & _). apply Report_spo2 in R2 as (C2 & _).
    repeat split; try assumption; try lia; congruence.
  - destruct (Recorded_counts 0 _ ltac:(unfold TOTAL_SAMPLES; lia) HR) as [C1 C2].
    destruct HR as (_ & L1 & L2 & _ & _ & N1 & N2).
    cbn in N1, N2.
    repeat split; try assumption; try lia.
Qed.

End Served.

(** X15: the result screen prints for each metric the integer the snapshot
    reports, with its unit, when at least one reading of the metric was
    accepted in the five stages, and "--" when none was; the integers are
    within 40..220 and 80..100. *)
Theorem result_screen_values (s0 : State)
    (HR : Recorded TOTAL_SAMPLES s0) :
  let s := displayResults (set_running false (calculateAverages s0)) in
  let e := handleJSON_data s in
  (validHRCount s = 0 -> displayResults_hr s = "--" /\ App.heartRate e = 0)
  /\ (0 < validHRCount s ->
      displayResults_hr s = string_of_Z (App.heartRate e) ++ " bpm"
      /\ 40 <= App.heartRate e <= 220)
  /\ (validSpO2Count s = 0 -> displayResults_spo2 s = "--" /\ App.spo2 e = 0)
  /\ (0 < validSpO2Count s ->
      displayResults_spo2 s = string_of_Z (App.spo2 e) ++ " %"
      /\ 80 <= App.spo2 e <= 100).
Proof.
  destruct (Recorded_Reports s0 HR) as [H1 H2].
  apply Report_hr in H1 as (_ & Hv1 & _ & Hg1 & _).
  apply Report_spo2 in H2 as (_ & Hv2 & _ & Hg2 & _).
  cbv zeta. unfold displayResults_hr, displayResults_spo2, handleJSON_data.
  cbn [App.heartRate App.spo2 avgHR avgSpO2 validHRCount validSpO2Count displayResults
       set_statusMsg set_running].
  change (validHRCount (calculateAverages s0)) with (validHRCount s0).
  change (validSpO2Count (calculateAverages s0)) with (validSpO2Count s0).
  rewrite Hg1, Hg2.
  split; [| split; [| split]].
  - intros Hz. rewrite Hz. cbn [Z.ltb Z.compare]. split; [reflexivity | lia].
  - intros Hp. destruct (Z.ltb_spec 0 (validHRCount s0)); [| lia].
    split; [reflexivity | lia].
  - intros Hz. rewrite Hz. cbn [Z.ltb Z.compare]. split; [reflexivity | lia].
  - intros Hp. destruct (Z.ltb_spec 0 (validSpO2Count s0)); [| lia].
    split; [reflexivity | lia].
Qed.

(** ** The app *)

(** What a valid reading that keeps the contract looks like. *)
Lemma Contract_valid (e : App.ESPData) :
  Contract e -> App.isReadingValid e = true ->
  App.running e = false
  /\ 40 <= App.heartRate e <= 220 /\ 80 <= App.spo2 e <= 100
  /\ 1 <= App.hrValid e <= 5 /\ 1 <= App.spo2Valid e <= 5
  /\ App.totalSamples e = 5
  /\ ((App.status e = "Normal" /\ 95 <= App.spo2 e /\ 60 <= App.heartRate e <= 100)
      \/ (App.status e = "Warning" /\ 90 <= App.spo2 e)
      \/ (App.status e = "Critical" /\ App.spo2 e < 90)).
Proof.
  intros (Ht & Hc1 & Hc2 & Hrun & Hrest) Hv. unfold App.isReadingValid in Hv.
  apply andb_prop in Hv as [Hv V4]. apply andb_prop in Hv as [Hv V3].
  apply andb_prop in Hv as [V1 V2].
  destruct (App.running e) eqn:Er.
  { destruct (Hrun eq_refl) as (Hz & _). lia. }
  destruct (Hrest eq_refl) as (Hh & Hs & Hin & Hidle & Hcr & Hw & Hn).
  split; [reflexivity |].
  split; [lia |]. split; [lia |]. split; [lia |]. split; [lia |].
  split; [exact Ht |].
  destruct Hin as [E | [E | [E | [E | []]]]]; symmetry in E.
  - apply Hidle in E. lia.
  - left. split; [exact E |]. now apply Hn.
  - right. left. split; [exact E |]. now apply Hw.
  - right. right. split; [exact E |]. now apply Hcr.
Qed.

(** X16: for a snapshot that keeps the contract, the app stops polling
    exactly when no session is running; it takes the reading for valid
    exactly when, besides, both counters are positive; and what it saves to
    the records is then a heart rate within 40..220, a saturation within
    80..100 and one of the three classifications, never "idle" or
    "measuring", and only for a signed-in user. *)
Theorem app_saves_completed_readings (e : App.ESPData)
    (He : Contract e) :
  App.pollData_stops e = negb (App.running e)
  /\ (App.isReadingValid e = true <->
      App.running e = false /\ 0 < App.hrValid e /\ 0 < App.spo2Valid e)
  /\ (forall signedIn doc,
        App.autoSave_document signedIn e = Some doc ->
        signedIn = true
        /\ 40 <= App.record_heartRate doc <= 220
        /\ 80 <= App.record_spo2 doc <= 100
        /\ 1 <= App.record_hrValid doc <= 5
        /\ 1 <= App.record_spo2Valid doc <= 5
        /\ App.record_totalSamples doc = 5
        /\ In (App.record_status doc) ["Normal"; "Warning"; "Critical"]).
Proof.
  split; [| split].
  - destruct He as (Ht & _). unfold App.pollData_stops. rewrite Ht.
    now destruct (App.running e).
  - split.
    + intros Hv. destruct (Contract_valid e He Hv) as (Hr & _ & _ & H1 & H2 & _).
      split; [exact Hr |]. lia.
    + intros (Hr & H1 & H2). destruct He as (_ & _ & _ & _ & Hrest).
      destruct (Hrest Hr) as (Hh & Hs & _).
      unfold App.isReadingValid.
      repeat (apply andb_true_intro; split); lia.
  - intros signedIn doc Hdoc. unfold App.autoSave_document in Hdoc.
    destruct signedIn; cbn [negb] in Hdoc; [| discriminate].
    destruct (App.isReadingValid e) eqn:Hv; cbn [negb] in Hdoc; [| discriminate].
    injection Hdoc as <-.
    destruct (Contract_valid e He Hv) as (_ & H1 & H2 & H3 & H4 & H5 & Hst).
    cbn [App.record_heartRate App.record_spo2 App.record_hrValid App.record_spo2Valid
         App.record_totalSamples App.record_status].
    repeat (split; [assumption || reflexivity |]).
    destruct Hst as [[-> _] | [[-> _] | [-> _]]]; cbn; auto.
Qed.

(** X17: the app's assessment of a valid reading that keeps the contract
    never contradicts the device: a status of "Critical" is assessed urgent,
    as dangerously low oxygen; a status of "Normal" is assessed not urgent,
    as Normal or Monitor Closely; whatever is assessed urgent has the status
    "Critical" or "Warning"; and the assessment "Dangerously low heart
    rate" is never reached, since the device accepts no heart rate below
    40. *)
Theorem app_assessment_agrees (e : App.ESPData) (a : App.Assessment)
    (He : Contract e)
    (Ha : App.assessment (Some e) = Some a) :
  (App.status e = "Critical" ->
   App.urgent a = true
   /\ App.detail a
      = "Dangerously low oxygen saturation. Seek emergency care immediately.")
  /\ (App.status e = "Normal" ->
      App.urgent a = false
      /\ (App.label a = "🟢 Normal" \/ App.label a = "🟡 Monitor Closely"))
  /\ (App.urgent a = true -> App.status e = "Critical" \/ App.status e = "Warning")
  /\ App.detail a <> "Dangerously low heart rate. Seek emergency care immediately.".
Proof.
  unfold App.assessment in Ha.
  destruct (App.isReadingValid e) eqn:Hv; [| discriminate]. injection Ha as <-.
  destruct (Contract_valid e He Hv) as (_ & H1 & H2 & _ & _ & _ & Hst).
  unfold App.assess.
  destruct (Z.ltb_spec (App.spo2 e) 90);
    [| destruct (Z.ltb_spec (App.spo2 e) 94);
       [| destruct (Z.gtb_spec (App.heartRate e) 150);
          [| destruct (Z.ltb_spec (App.heartRate e) 40);
             [| destruct (Z.gtb_spec (App.heartRate e) 100);
                [| destruct (Z.ltb_spec (App.heartRate e) 60);
                   [| destruct (Z.ltb_spec (App.spo2 e) 96)]]]]]];
    cbn [App.urgent App.detail App.label];
    destruct Hst as [(-> & ? & ?) | [(-> & ?) | (-> & ?)]];
    try lia;
    (split; [intros Hs; first [discriminate Hs | split; reflexivity] |]);
    (split; [intros Hs; first [discriminate Hs | split; [reflexivity | auto]] |]);
    (split; [intros Hs; first [discriminate Hs | auto] |]);
    discriminate.
Qed.

(** ** A session that is left alone runs to its result *)

Lemma storeReading_flags (idx : nat) (s : State) :
  running (storeReading idx s) = running s
  /\ cancelRequested (storeReading idx s) = cancelRequested s.
Proof.
  unfold storeReading.
  destruct (negb (hrValid s =? 0) && (heartRate s >=? 40) && (heartRate s <=? 220));
    cbn -[F32.of_int int_incr];
    destruct (negb (spo2Valid s =? 0) && (spo2 s >=? 80) && (spo2 s <=? 100));
    cbn -[F32.of_int int_incr]; split; reflexivity.
Qed.

Section LeftAlone.

Variable deserializeJson : string -> option JsonDocument.
Variable maxim : list Z -> Z -> list Z -> Z * Z * Z * Z.
Variable env : Env.
Variable L : Z.















End LeftAlone.

(** ** Passes that change nothing *)

Section Waiting.

Variable deserializeJson : string -> option JsonDocument.
Variable maxim : list Z -> Z -> list Z -> Z * Z * Z * Z.
Variable env : Env.

Lemma no_finger_pass (fuel : nat) (d : Device) :
  Steady (globals d) ->
  client env (clientCalls d) = None -> client env (S (clientCalls d)) = None ->
  getIR env (irCalls d) <= IR_FINGER_THRESHOLD ->
  exists d',
    loop deserializeJson maxim env fuel d = Some (tt, d')
    /\ Steady (globals d')
    /\ hadFinger (globals d') = false
    /\ handleJSON_data (globals d') = handleJSON_data (globals d)
    /\ hrReadings (globals d') = hrReadings (globals d)
    /\ spo2Readings (globals d') = spo2Readings (globals d)
    /\ patientName (globals d') = patientName (globals d)
    /\ clientCalls d' = S (S (clientCalls d))
    /\ irCalls d' = S (irCalls d).
Proof.
  intros [Hrun Hcan] Hc0 Hc1 Hoff.
  assert (Hle : (getIR env (irCalls d) >? IR_FINGER_THRESHOLD) = false) by lia.
  unfold loop, measure, yield, fingerPresent, shouldRedisplay, when, handleClient,
    bind, ret, read, assign, millis, delay, sensor_getIR.
  rewrite Hc0. cbv beta iota. cbn [globals clientCalls irCalls clock with_clock with_clientCalls].
  rewrite Hrun. cbn [negb]. cbv beta iota.
  cbn [globals clientCalls irCalls clock with_clock with_clientCalls].
  rewrite Hcan. cbv beta iota.
  cbn [globals clientCalls irCalls clock with_clock with_clientCalls with_irCalls].
  rewrite Hle. cbn [negb]. cbv beta iota.
  cbn [globals clientCalls irCalls clock with_clock with_clientCalls with_irCalls
       with_globals lastDisplayMs set_hadFinger].
  destruct (usub _ _ >=? DISPLAY_INTERVAL); cbv beta iota;
    cbn [globals clientCalls irCalls clock with_clock with_clientCalls with_irCalls
         with_globals];
    rewrite Hc1; cbv beta iota;
    (eexists; split; [reflexivity |]);
    cbn -[Z.pow Z.add Z.modulo usub]; unfold Steady, handleJSON_data, handleJSON_status;
    cbn -[Z.pow Z.add Z.modulo usub F32.of_int F32.to_int F32.eqb F32.geb F32.leb];
    repeat split; assumption.
Qed.

(** X19: there is no timeout for the finger.  While no request arrives and
    the infrared value stays at or below the threshold, every pass of
    [loop] returns (none of them waits, so none needs fuel) and leaves the
    session running, with nothing recorded and the snapshot as it was;
    each pass calls the server twice and reads the sensor once. *)
Theorem no_finger_no_timeout (fuel n : nat) :
  forall (d : Device)
    (Hsteady : Steady (globals d))
    (Hnone : forall k, (clientCalls d <= k)%nat -> client env k = None)
    (Hoff : forall k, (irCalls d <= k)%nat -> getIR env k <= IR_FINGER_THRESHOLD),
  exists d',
    loops deserializeJson maxim env fuel n d = Some (tt, d')
    /\ Steady (globals d')
    /\ ((0 < n)%nat -> hadFinger (globals d') = false)
    /\ handleJSON_data (globals d') = handleJSON_data (globals d)
    /\ hrReadings (globals d') = hrReadings (globals d)
    /\ spo2Readings (globals d') = spo2Readings (globals d)
    /\ patientName (globals d') = patientName (globals d)
    /\ clientCalls d' = (clientCalls d + 2 * n)%nat
    /\ irCalls d' = (irCalls d + n)%nat.
Proof.
  induction n as [| n IH]; intros d Hsteady Hnone Hoff.
  - exists d. cbn [loops]. unfold ret.
    repeat split; try assumption; try lia; apply Hsteady.
  - destruct (no_finger_pass fuel d Hsteady (Hnone (clientCalls d) ltac:(lia))
                (Hnone (S (clientCalls d)) ltac:(lia)) (Hoff (irCalls d) ltac:(lia)))
      as (d1 & H1 & HS1 & Hh1 & Hd1 & Hr1 & Hs1 & Hn1 & Hc1 & Hi1).
    destruct (IH d1 HS1) as (d' & Hl & HS & Hh & Hd & Hr & Hs & Hn & Hc & Hi).
    { intros k Hk. apply Hnone. lia. }
    { intros k Hk. apply Hoff. lia. }
    exists d'. cbn [loops]. unfold bind at 1. rewrite H1.
    split; [exact Hl |]. split; [exact HS |].
    split; [intros _; destruct n as [| n]; [| apply Hh; lia] |].
    { cbn [loops] in Hl. injection Hl as <-. exact Hh1. }
    repeat split; try congruence; lia.
Qed.



Lemma route_idle (r : Request) (s : State) :
  running s = false -> ~ (method r = HTTP_POST /\ uri r = "/start") ->
  let s' := fst (route deserializeJson r s) in
  running s' = false
  /\ handleJSON_data s' = handleJSON_data s
  /\ hrReadings s' = hrReadings s
  /\ spo2Readings s' = spo2Readings s.
Proof.
  intros Hrun Hr. cbv zeta. unfold route.
  destruct (method r) eqn:Hm; try (cbn [fst]; now repeat split).
  - destruct (String.eqb (uri r) "/data"); cbn [fst handleJSON]; now repeat split.
  - destruct (String.eqb (uri r) "/start") eqn:Hs.
    + apply String.eqb_eq in Hs. elim Hr. now split.
    + destruct (String.eqb (uri r) "/cancel"); cbn [fst handleCancel]; now repeat split.
Qed.

Lemma idle_pass (fuel : nat) (d : Device) :
  running (globals d) = false ->
  (forall r, client env (clientCalls d) = Some r ->
             ~ (method r = HTTP_POST /\ uri r = "/start")) ->
  exists d',
    loop deserializeJson maxim env fuel d = Some (tt, d')
    /\ running (globals d') = false
    /\ handleJSON_data (globals d') = handleJSON_data (globals d)
    /\ hrReadings (globals d') = hrReadings (globals d)
    /\ spo2Readings (globals d') = spo2Readings (globals d)
    /\ clientCalls d' = S (clientCalls d)
    /\ irCalls d' = irCalls d.
Proof.
  intros Hrun Hreq.
  destruct (handleClient_total deserializeJson env d) as [d1 H1].
  destruct (handleClient_counters deserializeJson env d d1 H1) as (_ & Hn1 & Hi1 & _).
  assert (Hg1 : running (globals d1) = false
                /\ handleJSON_data (globals d1) = handleJSON_data (globals d)
                /\ hrReadings (globals d1) = hrReadings (globals d)
                /\ spo2Readings (globals d1) = spo2Readings (globals d)).
  { unfold handleClient in H1. destruct (client env (clientCalls d)) as [r |] eqn:Hc.
    - pose proof (route_idle r (globals d) Hrun (Hreq r eq_refl)) as Hr. cbv zeta in Hr.
      cbn [globals with_clock with_clientCalls] in H1.
      destruct (route deserializeJson r (globals d)) as [s resp].
      injection H1 as <-. exact Hr.
    - injection H1 as <-. now repeat split. }
  destruct Hg1 as (Hrun1 & Hd1 & Hr1 & Hs1).
  unfold loop, measure. unfold bind at 1. unfold bind at 1. rewrite H1.
  unfold yield, shouldRedisplay, when, bind, ret, read, assign, millis, delay.
  rewrite Hrun1. cbn [negb]. cbv beta iota.
  destruct (usub _ _ >=? DISPLAY_INTERVAL); cbv beta iota;
    (eexists; split; [reflexivity |]);
    cbn -[Z.pow Z.add Z.modulo usub]; unfold handleJSON_data, handleJSON_status;
    cbn -[Z.pow Z.add Z.modulo usub F32.of_int F32.to_int F32.eqb F32.geb F32.leb];
    unfold handleJSON_data, handleJSON_status in Hd1;
    repeat split; assumption.
Qed.

(** X20: the last result stays available.  While no session is running
    and no Begin arrives, whatever else is requested, every pass of [loop]
    returns (it needs no fuel) and the snapshot and the readings stay as
    they were; each pass calls the server once and never reads the
    sensor. *)
Theorem results_persist (fuel n : nat) :
  forall (d : Device)
    (Hidle : running (globals d) = false)
    (Hreq : forall k r, (clientCalls d <= k)%nat -> client env k = Some r ->
                        ~ (method r = HTTP_POST /\ uri r = "/start")),
  exists d',
    loops deserializeJson maxim env fuel n d = Some (tt, d')
    /\ running (globals d') = false
    /\ handleJSON_data (globals d') = handleJSON_data (globals d)
    /\ hrReadings (globals d') = hrReadings (globals d)
    /\ spo2Readings (globals d') = spo2Readings (globals d)
    /\ clientCalls d' = (clientCalls d + n)%nat
    /\ irCalls d' = irCalls d.
Proof.
  induction n as [| n IH]; intros d Hidle Hreq.
  - exists d. cbn [loops]. unfold ret. repeat split; try assumption; lia.
  - destruct (idle_pass fuel d Hidle (fun r => Hreq (clientCalls d) r ltac:(lia)))
      as (d1 & H1 & Hrun1 & Hd1 & Hr1 & Hs1 & Hn1 & Hi1).
    destruct (IH d1 Hrun1) as (d' & Hl & Hrun & Hd & Hr & Hs & Hn & Hi).
    { intros k r Hk. apply Hreq. lia. }
    exists d'. cbn [loops]. unfold bind at 1. rewrite H1.
    split; [exact Hl |]. split; [exact Hrun |].
    repeat split; try congruence; lia.
Qed.

End Waiting.

(** ** Where a cancellation can be missed *)

Section Missed.

Variable deserializeJson : string -> option JsonDocument.
Variable maxim : list Z -> Z -> list Z -> Z * Z * Z * Z.
Variable env : Env.

Lemma awaitSample_ready :
  forall (fuel : nat) (d d' : Device),
    awaitSample deserializeJson env fuel d = Some (true, d') ->
    cancelRequested (globals d) = false -> cancelRequested (globals d') = false.
Proof.
  intros fuel. induction fuel as [| fuel IH]; intros d d' H Hcan; [discriminate |].
  cbn [awaitSample] in H.
  apply bind_inv in H as (a & d0 & [= <- <-] & H).
  destruct (available env (availableCalls d)); cbn [negb] in H.
  - injection H as <-. exact Hcan.
  - unfold sensor_check, yield in H.
    apply bind_inv in H as ([] & d0 & [= <-] & H).
    apply bind_inv in H as ([] & d1 & H1 & H).
    apply bind_inv in H as ([] & d1' & [= <-] & H).
    apply bind_inv in H as (c & d1' & [= <- <-] & H).
    destruct (cancelRequested (globals d1)) eqn:Hc; [discriminate |].
    exact (IH _ _ H Hc).
Qed.

Lemma collectSamples_filled (fuel : nat) :
  forall (todo i : nat) (d d' : Device),
    collectSamples deserializeJson env fuel i (S todo) d = Some (true, d') ->
    cancelRequested (globals d') = false.
Proof.
  induction todo as [| todo IH]; intros i d d' H;
    cbn [collectSamples] in H; unfold yield, sensor_nextSample in H;
    apply bind_inv in H as ([] & d1 & H1 & H);
    apply bind_inv in H as ([] & d1' & [= <-] & H);
    apply bind_inv in H as (stop & d2 & H2 & H);
    (destruct stop; [discriminate |]);
    unfold interrupted in H2;
    apply bind_inv in H2 as (c & d1' & [= <- <-] & H2);
    (destruct (cancelRequested (globals d1)) eqn:Hc; [discriminate |]);
    apply bind_inv in H2 as (p & d1' & [= <- <-] & [= _ <-]);
    apply bind_inv in H as (ready & d3 & H3 & H);
    (destruct ready; cbn [negb] in H; [| discriminate]);
    apply awaitSample_ready in H3; [| exact Hc | | exact Hc];
    apply bind_inv in H as (red & d4 & [= <- <-] & H);
    apply bind_inv in H as ([] & d5 & [= <-] & H);
    apply bind_inv in H as (ir & d6 & [= <- <-] & H);
    apply bind_inv in H as ([] & d7 & [= <-] & H);
    apply bind_inv in H as ([] & d8 & [= <-] & H).
  - injection H as <-. exact H3.
  - exact (IH _ _ _ H).
Qed.

Lemma window_not_empty (idx : nat) :
  (idx < TOTAL_SAMPLES)%nat -> (0 < nth idx sampleCounts 0)%nat.
Proof.
  unfold TOTAL_SAMPLES. intros H.
  do 5 (destruct idx as [| idx]; [cbn; lia |]). lia.
Qed.

(** X21: a stage that returns [true] leaves no cancellation pending.
    Hence when the stage loop has come to its end, the last stage returned
    with [cancelRequested] clear and only the pause that follows it (one
    call of the server and [yieldFor(300)]) lies between that moment and
    the averaging: a cancellation that a completed session has not honoured
    was requested in that pause. *)
Theorem cancellation_missed_only_in_last_pause (fuel : nat) :
  (forall (idx : nat) (d d' : Device),
     (idx < TOTAL_SAMPLES)%nat ->
     takeSingleReading deserializeJson maxim env fuel idx d = Some (true, d') ->
     cancelRequested (globals d') = false)
  /\ (forall (todo i : nat) (d d' : Device),
        (i + S todo <= TOTAL_SAMPLES)%nat ->
        sampleStages deserializeJson maxim env fuel i (S todo) d = Some (true, d') ->
        exists d0 d1 d2,
          takeSingleReading deserializeJson maxim env fuel (i + todo) d0 = Some (true, d1)
          /\ cancelRequested (globals d1) = false
          /\ handleClient deserializeJson env d1 = Some (tt, d2)
          /\ yieldFor deserializeJson env fuel 300 d2 = Some (tt, d')).
Proof.
  assert (Hstage : forall (idx : nat) (d d' : Device),
            (idx < TOTAL_SAMPLES)%nat ->
            takeSingleReading deserializeJson maxim env fuel idx d = Some (true, d') ->
            cancelRequested (globals d') = false).
  { intros idx d d' Hn H. apply window_not_empty in Hn.
    apply takeSingleReading_inv in H as [[[=] _] | (_ & d1 & H & ->)].
    destruct (nth idx sampleCounts 0%nat) as [| n]; [lia |].
    apply collectSamples_filled in H. cbn [globals with_globals].
    destruct (storeReading_flags idx (estimate maxim (S n) (globals d1))) as [_ ->].
    unfold estimate. destruct (maxim _ _ _) as [[[sp spv] hr] hrv]. exact H. }
  split; [exact Hstage |].
  induction todo as [| todo IH]; intros i d d' Hn H;
    cbn [sampleStages] in H;
    apply bind_inv in H as ([] & d1 & _ & H);
    apply bind_inv in H as ([] & d2 & _ & H);
    apply bind_inv in H as (taken & d3 & H3 & H);
    (destruct taken; cbn [negb] in H;
     [| unfold bind, assign, ret in H; discriminate H]);
    apply bind_inv in H as ([] & d4 & H4 & H);
    apply bind_inv in H as ([] & d5 & H5 & H).
  - injection H as <-. exists d2, d3, d4. rewrite Nat.add_0_r.
    split; [exact H3 |]. split; [| split; assumption].
    apply (Hstage i d2 d3); [lia | exact H3].
  - destruct (IH (S i) d5 d') as (e0 & e1 & e2 & E1 & E2 & E3 & E4).
    + lia.
    + exact H.
    + exists e0, e1, e2. replace (i + S todo)%nat with (S i + todo)%nat by lia.
      repeat split; assumption.
Qed.

End Missed.

(** ** Device and app side by side *)

(** X22: the device and the app can still differ on a reading that is not
    urgent.  Heart rates of 100, 101, 101, 101 and 101 bpm average to
    100.8: the device, comparing the average with 100, reports "Warning",
    and the snapshot carries the integer part 100, which the app, with a
    saturation of 98, assesses as Normal and not urgent. *)
Theorem device_warning_app_normal :
  let run :=
    loop parse_ann estimate_100_101
      (finger_on [(0, post_start); (380, get_data)]) fuel booted in
  replies run = Some [ok_json; App.render (App.mkESPData 100 98 5 5 5 false "Warning")]
  /\ App.label (App.assess 100 98) = "🟢 Normal"
  /\ App.urgent (App.assess 100 98) = false.
Proof. vm_compute. repeat split. Qed.

(** ** The paths around the measurement *)

Section Around.

Variable deserializeJson : string -> option JsonDocument.
Variable maxim : list Z -> Z -> list Z -> Z * Z * Z * Z.
Variable env : Env.

(** X23: a device whose sensor did not start serves requests and nothing
    else.  Every round of the loop that [setup] ends in returns, the sensor
    is never read, and a session begun there is never ended: it is still
    running after any number of rounds, with its snapshot ("measuring",
    both values and both counters zero or as they were) unchanged, whatever
    is requested, a Cancel included. *)
Theorem sensor_error_serves_only (n : nat) :
  forall d : Device,
  exists d',
    sensorError deserializeJson env n d = Some (tt, d')
    /\ irCalls d' = irCalls d /\ redCalls d' = redCalls d
    /\ availableCalls d' = availableCalls d
    /\ clientCalls d' = (clientCalls d + n)%nat
    /\ (running (globals d) = true ->
        running (globals d') = true
        /\ handleJSON_data (globals d') = handleJSON_data (globals d)
        /\ handleJSON_status (globals d') = "measuring").
Proof.
  induction n as [| n IH]; intros d.
  - exists d. cbn [sensorError]. unfold ret.
    do 4 (split; [reflexivity |]). split; [lia |].
    intros Hlive. split; [exact Hlive |]. split; [reflexivity |].
    unfold handleJSON_status. now rewrite Hlive.
  - destruct (handleClient_total deserializeJson env d) as [d1 H1].
    destruct (handleClient_counters deserializeJson env d d1 H1) as (_ & Hn & Hi & Hr & Ha).
    cbn [sensorError]. unfold bind at 1. rewrite H1.
    unfold yield, delay, bind at 1, ret at 1. unfold bind at 1.
    set (d2 := with_clock _ d1).
    destruct (IH d2) as (d' & Hrun & Hi' & Hr' & Ha' & Hn' & Hkeep).
    exists d'. split; [exact Hrun |].
    subst d2. cbn [irCalls redCalls availableCalls clientCalls globals with_clock] in *.
    split; [congruence |]. split; [congruence |]. split; [congruence |].
    split; [lia |].
    intros Hlive.
    assert (H1' : running (globals d1) = true
                  /\ handleJSON_data (globals d1) = handleJSON_data (globals d)).
    { set (P := fun s => running s = true
                         /\ handleJSON_data s = handleJSON_data (globals d)).
      assert (HP : forall r s, P s -> P (fst (route deserializeJson r s))).
      { apply route_running; [now intros s [H _] | intros s H; exact H]. }
      apply (keeps_handleClient deserializeJson env P HP d tt d1); [now split | exact H1]. }
    destruct H1' as [Hlive1 Hdata1].
    destruct (Hkeep Hlive1) as (Hl & Hd & Hs).
    split; [exact Hl |]. split; [congruence | exact Hs].
Qed.

(** X24: the hold ends without a name.  Whenever the pass of [loop] has
    held a result, the name is empty and the status line reads "Idle" when
    it returns, also when a Begin that carried a name was served during the
    hold and its session is running: that session greets with "Hello!". *)
Theorem hold_ends_nameless (fuel : nat) (d d' : Device)
    (Hrun : complete deserializeJson env fuel d = Some (tt, d')) :
  patientName (globals d') = EmptyString
  /\ statusMsg (globals d') = "Idle"
  /\ displayGreeting_line (globals d') = "Hello!"
  /\ displayResults_nameLine (globals d') = "Result".
Proof.
  unfold complete in Hrun.
  do 3 apply bind_inv in Hrun as ([] & ? & [= <-] & Hrun).
  apply bind_inv in Hrun as (now & ? & [= <- <-] & Hrun).
  apply bind_inv in Hrun as ([] & d1 & _ & Hrun).
  unfold bind, assign in Hrun. injection Hrun as <-.
  repeat split.
Qed.

(** X25: a cancellation that is pending in a running session is honoured
    at the next check.  No request clears it; a pass of [loop] that finds
    it resets the session; so does a stage that is entered with it, without
    taking a sample; a countdown that is entered with it returns [false] at
    its first look; and the pauses hand it on. *)
Theorem cancellation_honoured (fuel : nat) (d : Device)
    (Hcancel : Cancelling (globals d)) :
  (forall r, Cancelling (fst (route deserializeJson r (globals d))))
  /\ (exists d', loop deserializeJson maxim env fuel d = Some (tt, d')
                 /\ Reset (globals d'))
  /\ (forall i todo, (i < TOTAL_SAMPLES)%nat ->
        exists d', sampleStages deserializeJson maxim env fuel i (S todo) d = Some (false, d')
                   /\ Reset (globals d'))
  /\ (forall seconds,
        exists d', interruptibleCountdown deserializeJson env (S fuel) (S seconds) d
                   = Some (false, d')
                   /\ Cancelling (globals d'))
  /\ (forall ms d',
        yieldFor deserializeJson env fuel ms d = Some (tt, d') ->
        Cancelling (globals d')).
Proof.
  split; [| split; [| split; [| split]]].
  - intros r. now apply Cancelling_route.
  - now apply pending_cancel_resets.
  - intros i todo Hi. apply pending_cancel_aborts_stage; [exact Hcancel |].
    now apply window_not_empty.
  - intros seconds. now apply pending_cancel_stops_countdown.
  - intros ms d' H.
    exact (keeps_yieldFor deserializeJson env Cancelling
             (Cancelling_route deserializeJson) fuel ms d tt d' Hcancel H).
Qed.

End Around.

(** ** The hold across the wrap-around of the clock *)

Section Overrun.

Variable deserializeJson : string -> option JsonDocument.
Variable env : Env.

Lemma showResults_starves (L showUntil : Z)
    (Hlat : forall n, 0 <= latency env n <= L) (Huntil : showUntil <= 2 ^ 32) :
  forall (fuel : nat) (d : Device),
    0 <= clock d -> clock d + Z.of_nat fuel * (L + 10) < showUntil ->
    showResults deserializeJson env fuel showUntil d = None.
Proof.
  intros fuel. induction fuel as [| fuel IH]; intros d Hclock Hfar; [reflexivity |].
  pose proof (Hlat (clientCalls d)) as HL.
  assert (Hpos : 0 <= Z.of_nat fuel * (L + 10)) by nia.
  rewrite Nat2Z.inj_succ in Hfar.
  replace (Z.succ (Z.of_nat fuel) * (L + 10))
    with (Z.of_nat fuel * (L + 10) + (L + 10)) in Hfar by lia.
  cbn [showResults]. unfold bind at 1, millis at 1.
  destruct (Z.ltb_spec (clock d) showUntil) as [_ | Hge]; [| lia].
  destruct (handleClient_total deserializeJson env d) as [d1 H1].
  destruct (handleClient_counters deserializeJson env d d1 H1) as (Hc & _).
  unfold bind at 1. rewrite H1. unfold yield, delay, bind at 1, ret at 1.
  unfold bind at 1.
  apply IH; cbn [clock with_clock]; rewrite Hc;
    rewrite (Z.mod_small (clock d + _)) by lia; rewrite Z.mod_small by lia; lia.
Qed.

(** X26: when [millis()] wraps around during the hold, the hold does not
    end after ten seconds.  If the clock is below [showUntil] and the next
    round of [while (millis() < showUntil)] carries it past 2^32, the
    clock restarts near zero, below [showUntil] again, and the loop has not
    returned after any number of further rounds whose time, at [L] + 10 ms
    each, does not reach [showUntil]: it goes on until the clock has come
    round, up to 49.7 days later. *)
Theorem hold_overruns (L showUntil : Z) (fuel : nat) (d : Device)
    (Hlat : forall n, 0 <= latency env n <= L)
    (Hclock : 0 <= clock d < showUntil)
    (Huntil : showUntil <= 2 ^ 32)
    (Hwrap : 2 ^ 32 <= clock d + latency env (clientCalls d) + 10)
    (Hfar : clock d + latency env (clientCalls d) + 10 - 2 ^ 32
            + Z.of_nat fuel * (L + 10) < showUntil) :
  showResults deserializeJson env (S fuel) showUntil d = None.
Proof.
  pose proof (Hlat (clientCalls d)) as HL.
  assert (Hpos : 0 <= Z.of_nat fuel * (L + 10)) by nia.
  cbn [showResults]. unfold bind at 1, millis at 1.
  destruct (Z.ltb_spec (clock d) showUntil) as [_ | Hge]; [| lia].
  destruct (handleClient_total deserializeJson env d) as [d1 H1].
  destruct (handleClient_counters deserializeJson env d d1 H1) as (Hc & _).
  unfold bind at 1. rewrite H1. unfold yield, delay, bind at 1, ret at 1.
  unfold bind at 1.
  set (d2 := with_clock _ d1).
  assert (Hc2 : clock d2 = clock d + latency env (clientCalls d) + 10 - 2 ^ 32).
  { subst d2. cbn [clock with_clock]. rewrite Hc, Zplus_mod_idemp_l.
    symmetry. apply (Z.mod_unique_pos _ _ 1); lia. }
  apply (showResults_starves L showUntil Hlat Huntil); rewrite Hc2; lia.
Qed.

End Overrun.

(** ** Instances of the further properties *)

Lemma begin_label_witness :
  patientName (fst (handleStart parse_ann (Some ann_body) power_on)) = "Ann".
Proof.
  apply (begin_label parse_ann ann_body "Ann" [("name", JsonString "Ann")] power_on
           eq_refl eq_refl eq_refl).
  - cbn. intuition discriminate.
  - cbn. lia.
Defined.

Lemma name_lines_witness :
  displayResults_nameLine (set_patientName name31 power_on)
  = "Bartholomew Featherstonehaugh 3 - Resul".
Proof.
  apply (name_lines (set_patientName name31 power_on)).
  - cbn. lia.
  - reflexivity.
Defined.

Lemma yieldFor_waits_witness :
  exists d',
    yieldFor parse_ann (finger_on []) 301 300 booted = Some (tt, d')
    /\ 300 <= usub (clock d') (clock booted) <= 300 + 400.
Proof.
  destruct (yieldFor_waits parse_ann (finger_on []) 400 300 301 booted)
    as (d' & Hrun & Hwait & _).
  - lia.
  - intros n. cbn. lia.
  - lia.
  - lia.
  - exists d'. split; assumption.
Defined.

Lemma redisplay_throttle_witness :
  shouldRedisplay (with_clock 900 (with_globals (set_lastDisplayMs 600 power_on) booted))
  = Some (false, with_clock 900 (with_globals (set_lastDisplayMs 600 power_on) booted)).
Proof.
  apply (proj2 (redisplay_throttle (with_clock 600 (with_globals power_on booted))
                  (with_clock 600 (with_globals (set_lastDisplayMs 600 power_on) booted))
                  true eq_refl) eq_refl).
  - reflexivity.
  - reflexivity.
Defined.

Lemma hold_lasts_witness :
  exists d',
    complete parse_ann (finger_on []) 1001 booted = Some (tt, d')
    /\ 10000 <= clock d' <= 10409.
Proof.
  destruct (hold_lasts parse_ann (finger_on []) 400 1001 booted)
    as (d' & Hrun & Hwait & _).
  - cbn. lia.
  - intros n. cbn. lia.
  - cbn. lia.
  - lia.
  - exists d'. split; [exact Hrun |]. cbn in Hwait. lia.
Defined.

Lemma hold_skipped_witness :
  (fun r => clientCalls (snd r)) <$>
    complete parse_ann (finger_on []) 1 (with_clock (2 ^ 32 - 5000) booted)
  = Some 0%nat.
Proof.
  rewrite (hold_skipped parse_ann (finger_on []) 1 (with_clock (2 ^ 32 - 5000) booted)).
  - reflexivity.
  - cbn. lia.
  - cbn. lia.
  - lia.
Defined.

Lemma countdown_result_witness :
  match interruptibleCountdown parse_ann (finger_on []) fuel 3 begun with
  | Some (true, d') => cancelRequested (globals d') = false
  | _ => False
  end.
Proof.
  destruct (interruptibleCountdown parse_ann (finger_on []) fuel 3 begun)
    as [[[|] d'] |] eqn:E.
  - apply (proj2 (countdown_result parse_ann (finger_on []) fuel 3 begun d' true E) eq_refl).
    lia.
  - vm_compute in E. discriminate E.
  - vm_compute in E. discriminate E.
Defined.

Lemma stage_interrupted_for_a_reason_witness :
  match takeSingleReading parse_ann estimate_72_98 cancel_while_waiting fuel 0 begun with
  | Some (false, d') =>
      cancelRequested (globals d') = true
      \/ exists k, (irCalls begun <= k < irCalls d')%nat
                   /\ getIR cancel_while_waiting k <= IR_FINGER_THRESHOLD
  | _ => False
  end.
Proof.
  destruct (takeSingleReading parse_ann estimate_72_98 cancel_while_waiting fuel 0 begun)
    as [[[|] d'] |] eqn:E.
  - vm_compute in E. discriminate E.
  - exact (stage_interrupted_for_a_reason parse_ann estimate_72_98 cancel_while_waiting
             fuel 0 begun d' E).
  - vm_compute in E. discriminate E.
Defined.

Lemma window_samples_witness :
  match collectSamples parse_ann (finger_on []) fuel 0 2 booted with
  | Some (true, d') =>
      irBuffer (globals d') !! 1%nat = Some 60000
      /\ redBuffer (globals d') !! 1%nat = Some 40000
      /\ irCalls d' = 4%nat
  | _ => False
  end.
Proof.
  destruct (collectSamples parse_ann (finger_on []) fuel 0 2 booted)
    as [[[|] d'] |] eqn:E.
  - destruct (window_samples parse_ann (finger_on []) fuel 2 0 booted d'
                eq_refl eq_refl ltac:(unfold MAX_BUFFER; lia) E)
      as (Hk & _ & _ & _ & Hc & _).
    destruct (Hk 1%nat ltac:(lia)) as (Hi & Hr & _).
    split; [exact Hi |]. split; [exact Hr | exact Hc].
  - vm_compute in E. discriminate E.
  - vm_compute in E. discriminate E.
Defined.

Lemma stage_frame_witness :
  match takeSingleReading parse_ann estimate_72_98 (finger_on []) fuel 0 begun with
  | Some (true, d') =>
      running (globals d') = true
      /\ hrReadings (globals d') !! 1%nat = Some F32.zero
  | _ => False
  end.
Proof.
  destruct (takeSingleReading parse_ann estimate_72_98 (finger_on []) fuel 0 begun)
    as [[[|] d'] |] eqn:E.
  - destruct (stage_frame parse_ann estimate_72_98 (finger_on []) fuel 0 begun d' true
                eq_refl E) as (Hrun & _ & _ & _ & _ & Hothers).
    split; [exact Hrun |].
    destruct (Hothers eq_refl 1%nat ltac:(lia)) as [-> _]. reflexivity.
  - vm_compute in E. discriminate E.
  - vm_compute in E. discriminate E.
Defined.

(** A pass that does not return: a Begin, then the sensor never has a
    sample while the device is asked for its data twice. *)
Lemma served_responses_witness :
  let env := sensor_stalled [(0, post_start); (14, get_data); (20, get_data)] in
  let run := Trace.loops parse_ann estimate_72_98 env 30 1 booted in
  loops parse_ann estimate_72_98 env 30 1 booted = None
  /\ fst run = None
  /\ map content (sent (snd run))
     = [ok_json; snapshot 0 0 0 0 true "measuring"; snapshot 0 0 0 0 true "measuring"]
  /\ Forall
       (fun resp =>
          resp = acknowledgement \/ resp = handleOptions \/ resp = not_found
          \/ exists e,
               resp = mkResponse 200 addCORS "application/json" (App.render e)
               /\ Contract e)
       (sent (snd run)).
Proof.
  cbv zeta. split; [vm_compute; reflexivity |].
  split; [vm_compute; reflexivity |].
  split; [vm_compute; reflexivity |].
  exact (served_responses parse_ann estimate_72_98
           (sensor_stalled [(0, post_start); (14, get_data); (20, get_data)]) 30 1).
Defined.

Lemma globals_between_passes_witness :
  match loops parse_ann estimate_72_98 (finger_on [(0, post_start)]) fuel 1 booted with
  | Some (_, d) =>
      (String.length (statusMsg (globals d)) <= 31)%nat
      /\ 0 <= validHRCount (globals d) <= 5
  | None => False
  end.
Proof.
  destruct (loops parse_ann estimate_72_98 (finger_on [(0, post_start)]) fuel 1 booted)
    as [[[] d] |] eqn:E.
  - destruct (globals_between_passes parse_ann estimate_72_98
                (finger_on [(0, post_start)]) fuel 1 d E)
      as (H1 & _ & _ & _ & _ & _ & H2 & _).
    split; assumption.
  - vm_compute in E. discriminate E.
Defined.

Lemma Recorded_72_75 : Recorded TOTAL_SAMPLES recorded_72_75.
Proof.
  unfold Recorded. cbn -[F32.of_int accepted].
  split; [reflexivity |]. split; [reflexivity |]. split; [reflexivity |].
  split; [| split; [| split; reflexivity]].
  - repeat (constructor;
            [first [now left | right; eexists; (split; [| reflexivity]); lia] |]).
    constructor.
  - repeat (constructor; [now left |]). constructor.
Qed.

Lemma result_screen_values_witness :
  displayResults_hr
    (displayResults (set_running false (calculateAverages recorded_72_75)))
  = "73 bpm"
  /\ displayResults_spo2
       (displayResults (set_running false (calculateAverages recorded_72_75)))
     = "--".
Proof.
  destruct (result_screen_values recorded_72_75 Recorded_72_75) as (_ & H1 & H2 & _).
  split.
  - rewrite (proj1 (H1 ltac:(cbn; lia))). reflexivity.
  - exact (proj1 (H2 eq_refl)).
Defined.

Lemma Contract_72_98 : Contract data_72_98.
Proof.
  unfold Contract, data_72_98. cbn.
  repeat split; try lia; try discriminate; auto;
    try (intros [H | [H | [H | H]]]; discriminate H).
Qed.

Lemma app_saves_completed_readings_witness :
  App.pollData_stops data_72_98 = true
  /\ App.isReadingValid data_72_98 = true.
Proof.
  destruct (app_saves_completed_readings data_72_98 Contract_72_98) as (H1 & H2 & _).
  split; [exact H1 |]. apply H2. cbn. repeat split; lia.
Defined.

Lemma app_assessment_agrees_witness :
  App.urgent (App.assess 72 98) = false.
Proof.
  exact (proj1 (proj1 (proj2 (app_assessment_agrees data_72_98 (App.assess 72 98)
                               Contract_72_98 eq_refl)) eq_refl)).
Defined.



Lemma no_finger_no_timeout_witness :
  exists d',
    loops parse_ann estimate_72_98 finger_lifted 0 3 (with_irCalls 1 begun) = Some (tt, d')
    /\ running (globals d') = true
    /\ clientCalls d' = 6%nat.
Proof.
  destruct (no_finger_no_timeout parse_ann estimate_72_98 finger_lifted 0 3
              (with_irCalls 1 begun))
    as (d' & Hl & [Hrun _] & _ & _ & _ & _ & _ & Hc & _).
  - split; reflexivity.
  - intros k _. reflexivity.
  - intros k Hk. cbn in Hk. destruct k as [| k]; [lia |]. cbn.
    unfold IR_FINGER_THRESHOLD. lia.
  - exists d'. split; [exact Hl |]. split; [exact Hrun | exact Hc].
Defined.

Lemma results_persist_witness :
  exists d',
    loops parse_ann estimate_72_98 (finger_on [(0, get_data); (1, post_cancel)]) 0 2 booted
    = Some (tt, d')
    /\ handleJSON_data (globals d') = handleJSON_data (globals booted).
Proof.
  destruct (results_persist parse_ann estimate_72_98
              (finger_on [(0, get_data); (1, post_cancel)]) 0 2 booted)
    as (d' & Hl & _ & Hd & _).
  - reflexivity.
  - intros k r _ H [Hm Hu]. cbn [finger_on client] in H. unfold arrivals in H.
    cbn [find fst] in H.
    destruct (0 =? Z.of_nat k); [cbn in H; injection H as <-; discriminate Hm |].
    destruct (1 =? Z.of_nat k); [cbn in H; injection H as <-; discriminate Hu |].
    discriminate H.
  - exists d'. split; assumption.
Defined.

Lemma hold_ends_nameless_witness :
  match complete parse_ann (finger_on [(0, post_start)]) fuel booted with
  | Some (_, d') =>
      running (globals d') = true /\ patientName (globals d') = EmptyString
  | None => False
  end.
Proof.
  destruct (complete parse_ann (finger_on [(0, post_start)]) fuel booted)
    as [[[] d'] |] eqn:E.
  - split.
    + vm_compute in E. injection E as <-. reflexivity.
    + exact (proj1 (hold_ends_nameless parse_ann (finger_on [(0, post_start)]) fuel
                      booted d' E)).
  - vm_compute in E. discriminate E.
Defined.

Lemma cancellation_honoured_witness :
  exists d',
    loop parse_ann estimate_72_98 (finger_on []) fuel
      (with_globals (set_cancelRequested true (globals begun)) begun)
    = Some (tt, d')
    /\ Reset (globals d').
Proof.
  exact (proj1 (proj2 (cancellation_honoured parse_ann estimate_72_98 (finger_on []) fuel
                         (with_globals (set_cancelRequested true (globals begun)) begun)
                         (conj eq_refl eq_refl)))).
Defined.

Lemma hold_overruns_witness :
  showResults parse_ann (finger_on []) (S (Z.to_nat 1000000)) (2 ^ 32 - 100)
    (with_clock (2 ^ 32 - 260) booted)
  = None.
Proof.
  apply (hold_overruns parse_ann (finger_on []) 400).
  - intros n. cbn. lia.
  - cbn. lia.
  - lia.
  - cbn. lia.
  - cbn [clock with_clock finger_on latency]. lia.
Defined.
